(** * Split Easy backend: the group ledger

    A shallow embedding of the ledger code of the backend:

    - [models/Expense.js]: [calculateShares], the [pre('save')] and
      [post('save')] hooks, [settle], [addSettlement], [updateExpense],
      [getGroupSummary];
    - [models/Group.js]: [addMember], [removeMember], [calculateBalances];
    - [routes/expenses.js] and [routes/groups.js]: the handlers that create,
      update, settle and delete expenses, add settlements, create a group,
      add and remove members, update a member's role, read balances and
      delete a group;
    - [middleware/auth.js]: [isGroupMember], [isGroupAdmin].

    Modelling conventions.

    - An amount of the model is the decimal value that a JavaScript
      [Number] of the code stands for, an exact rational ([Q]); sums and
      rounded shares are computed on these values ([Math.round x] is
      [floor (x + 1/2)]).  Where the code decides by comparing a computed
      total with a bound (the tolerance of [calculateShares], the total of
      the settlements in [addSettlement]), the outcome depends on binary64
      arithmetic, and the comparison is evaluated on the doubles nearest to
      the values ([Ieee]).
    - An [ObjectId] is the string that [toString()] gives for it; [===] on
      two such strings is [String.eqb].  A sub-document, a populated
      document, [null] and [undefined] are no ObjectIds: what [toString()]
      does on them, and what a document array does with an object pushed
      onto it, is spelled out in [Js] and [Live].
    - A stored document is a record, a stored document array is a list,
      [push] appends, [find] returns the first match.
    - The collections of the database are lists in insertion order.  A
      thrown [Error] is [Throw msg]; a handler's [catch] turns it into the
      response 500.  Every throw of the model methods comes before their
      first write, so a handler that catches one returns the store it was
      given.
    - Of the request validators, the bounds on the [amount] of an expense
      or of an added settlement and on the number of [participants] are
      modelled; the format checks (ids, enumerations, the length of names
      and descriptions) are carried by the types.  Of the schema
      validation at [save], the failure of a cast to ObjectId is modelled;
      [required], [min] and [enum] are not, the types carry them.
    - Dates, display fields (name, description, notes, receipt, invite
      code, ...), [populate] on a response and the socket broadcast are not
      read by any ledger operation and are left out.  [authenticate] and
      [sensitiveOperationLimit] are assumed to have let the request
      through: a handler receives the caller's id. *)

From Stdlib Require Import QArith Qround Qabs Lqa ZArith Lia.
From Stdlib Require Import List String Bool Permutation.
From Stdlib Require Import PrimFloat Uint63.
Import ListNotations.

Local Open Scope Q_scope.

(* ===================================================================== *)
(** * Numbers *)
(* ===================================================================== *)

Module Num.

(** [Math.round]: the nearest integer, halves towards plus infinity. *)
Definition round (x : Q) : Z := Qfloor (x + (1 # 2)).

(** [Math.round(x * 100) / 100]. *)
Definition round2 (x : Q) : Q := inject_Z (round (x * 100)) / 100.

(** [a >= b] of a request validator: one value of the request against a
    constant bound.  Rounding to the nearest double is monotone, so on the
    doubles the comparison comes out as on the decimal values. *)
Definition geb (a b : Q) : bool := Qle_bool b a.

(** [xs.reduce((sum, x) => sum + f(x), 0)]. *)
Definition sumOf {A : Type} (f : A -> Q) (xs : list A) : Q :=
  fold_left (fun sum x => sum + f x) xs 0.

End Num.

(** ** Doubles *)

Module Ieee.

(** The double of an integer: exact below 2^53. *)
Definition ofZ (z : Z) : float :=
  match z with
  | Z0 => PrimFloat.of_uint63 (Uint63.of_Z 0)
  | Zpos _ => PrimFloat.of_uint63 (Uint63.of_Z z)
  | Zneg p => PrimFloat.opp (PrimFloat.of_uint63 (Uint63.of_Z (Zpos p)))
  end.

(** The double nearest to a decimal value with numerator and denominator
    below 2^53: what parsing its text gives, and what [k / 100] gives for a
    whole [k] (a division of two doubles is correctly rounded). *)
Definition toDouble (q : Q) : float :=
  PrimFloat.div (ofZ (Qnum q)) (ofZ (Zpos (Qden q))).

(** [xs.reduce((sum, x) => sum + f(x), 0)] on doubles. *)
Definition sumOf {A : Type} (f : A -> Q) (xs : list A) : float :=
  fold_left (fun sum x => PrimFloat.add sum (toDouble (f x))) xs (ofZ 0).

(** [Math.abs(total - x) > 0.01]. *)
Definition offBy (total : float) (x : Q) : bool :=
  PrimFloat.ltb (toDouble (1 # 100)) (PrimFloat.abs (PrimFloat.sub total (toDouble x))).

(** [total >= x]. *)
Definition reaches (total : float) (x : Q) : bool :=
  PrimFloat.leb (toDouble x) total.

End Ieee.

(* ===================================================================== *)
(** * Errors *)
(* ===================================================================== *)

(** The outcome of an [async] method: a value, or a thrown [Error]. *)
Inductive Result (A : Type) : Type :=
| Ok (a : A)
| Throw (message : string).
Arguments Ok {A} a.
Arguments Throw {A} message.

Definition bind {A B : Type} (r : Result A) (k : A -> Result B) : Result B :=
  match r with
  | Ok a => k a
  | Throw m => Throw m
  end.

Notation "x <- r ;; k" := (bind r (fun x => k))
  (at level 61, r at next level, right associativity).

Definition succeeds {A : Type} (r : Result A) : Prop := exists a, r = Ok a.

(** [xs.forEach(x => ...)] with a body that works on [s] and may throw. *)
Fixpoint forEach {A S : Type} (f : S -> A -> Result S) (xs : list A) (s : S) : Result S :=
  match xs with
  | [] => Ok s
  | x :: rest => s <- f s x ;; forEach f rest s
  end.

(** A list made element by element, by a function that may throw. *)
Fixpoint mapM {A B : Type} (f : A -> Result B) (xs : list A) : Result (list B) :=
  match xs with
  | [] => Ok []
  | x :: rest => y <- f x ;; ys <- mapM f rest ;; Ok (y :: ys)
  end.

(* ===================================================================== *)
(** * Documents *)
(* ===================================================================== *)

Definition ObjectId : Type := string.
Bind Scope string_scope with ObjectId.

Definition idEq (a b : ObjectId) : bool := String.eqb a b.

Inductive SplitMethod : Type := equal | exact | percentage.

Inductive PayMethod : Type := cash | upi | bank_transfer | card | other.

Inductive Role : Type := admin | member.

Definition roleEq (a b : Role) : bool :=
  match a, b with
  | admin, admin | member, member => true
  | _, _ => false
  end.

(** ** Expense documents ([models/Expense.js]) *)

Module Participant.
Record t : Type := mk {
  user : ObjectId;
  share : Q;
  shareType : SplitMethod
}.

End Participant.

Module Settlement.
Record t : Type := mk {
  from : ObjectId;
  to : ObjectId;
  amount : Q;
  method : PayMethod;
  transactionId : option string
}.
End Settlement.

(** [expense.toObject()], as far as the ledger fields go. *)
Module Snapshot.
Record t : Type := mk {
  amount : Q;
  paidBy : ObjectId;
  participants : list Participant.t;
  splitMethod : SplitMethod;
  settled : bool
}.
End Snapshot.

(** An entry of [editHistory].  Of [changes] the values of before are kept;
    [changes.new] is the request body as it came, which nothing reads. *)
Module Edit.
Record t : Type := mk {
  editedBy : ObjectId;
  old : Snapshot.t
}.
End Edit.

(** The keys of a request body that [Object.assign(this, updates)] writes to
    the ledger fields of an expense.  [validateExpense] makes [amount] and
    [participants] mandatory and looks at no other of these keys; the
    handler deletes [group] and [createdBy] and passes the rest on.  The
    elements of [participants] are taken as the sub-documents that the
    assignment casts them to. *)
Module Updates.
Record t : Type := mk {
  amount : Q;
  paidBy : option ObjectId;
  participants : list Participant.t;
  splitMethod : option SplitMethod;
  settled : option bool;
  settledBy : option ObjectId;
  settlements : option (list Settlement.t);
  editHistory : option (list Edit.t)
}.
End Updates.

Module Expense.
Record t : Type := mk {
  _id : ObjectId;
  amount : Q;
  paidBy : ObjectId;
  participants : list Participant.t;
  group : ObjectId;
  splitMethod : SplitMethod;
  settled : bool;
  settledBy : option ObjectId;
  settlements : list Settlement.t;
  createdBy : ObjectId;
  editHistory : list Edit.t
}.

Definition setAmount (a : Q) (e : t) : t :=
  mk (_id e) a (paidBy e) (participants e) (group e) (splitMethod e)
     (settled e) (settledBy e) (settlements e) (createdBy e) (editHistory e).

Definition setPaidBy (u : ObjectId) (e : t) : t :=
  mk (_id e) (amount e) u (participants e) (group e) (splitMethod e)
     (settled e) (settledBy e) (settlements e) (createdBy e) (editHistory e).

Definition setParticipants (ps : list Participant.t) (e : t) : t :=
  mk (_id e) (amount e) (paidBy e) ps (group e) (splitMethod e)
     (settled e) (settledBy e) (settlements e) (createdBy e) (editHistory e).

Definition setSplitMethod (m : SplitMethod) (e : t) : t :=
  mk (_id e) (amount e) (paidBy e) (participants e) (group e) m
     (settled e) (settledBy e) (settlements e) (createdBy e) (editHistory e).

Definition setSettled (b : bool) (e : t) : t :=
  mk (_id e) (amount e) (paidBy e) (participants e) (group e) (splitMethod e)
     b (settledBy e) (settlements e) (createdBy e) (editHistory e).

Definition setSettledBy (u : option ObjectId) (e : t) : t :=
  mk (_id e) (amount e) (paidBy e) (participants e) (group e) (splitMethod e)
     (settled e) u (settlements e) (createdBy e) (editHistory e).

Definition setSettlements (ss : list Settlement.t) (e : t) : t :=
  mk (_id e) (amount e) (paidBy e) (participants e) (group e) (splitMethod e)
     (settled e) (settledBy e) ss (createdBy e) (editHistory e).

Definition setEditHistory (h : list Edit.t) (e : t) : t :=
  mk (_id e) (amount e) (paidBy e) (participants e) (group e) (splitMethod e)
     (settled e) (settledBy e) (settlements e) (createdBy e) h.

(** The schema setter of [amount]: [v => Math.round(v * 100) / 100]. *)
Definition amountSetter (v : Q) : Q := Num.round2 v.

Definition toObject (e : t) : Snapshot.t :=
  Snapshot.mk (amount e) (paidBy e) (participants e) (splitMethod e) (settled e).

(** [this.participants.reduce((sum, p) => sum + p.share, 0)], the
    [totalShare] of [getSummary]. *)
Definition totalShare (e : t) : Q := Num.sumOf Participant.share (participants e).

(** [expenseSchema.methods.calculateShares]. *)
Definition calculateShares (e : t) : Result t :=
  let totalParticipants := List.length (participants e) in
  if Nat.eqb totalParticipants 0 then
    Throw "No participants found for expense"
  else
    match splitMethod e with
    | equal =>
        let equalShare := amount e / inject_Z (Z.of_nat totalParticipants) in
        Ok (setParticipants
              (map (fun participant =>
                      Participant.mk (Participant.user participant)
                                     (Num.round2 equalShare)
                                     equal)
                   (participants e)) e)
    | exact =>
        let totalExactShares := Ieee.sumOf Participant.share (participants e) in
        if Ieee.offBy totalExactShares (amount e) then
          Throw "Exact shares do not match the total amount"
        else Ok e
    | percentage =>
        let totalPercentage := Ieee.sumOf Participant.share (participants e) in
        if Ieee.offBy totalPercentage 100 then
          Throw "Percentage shares do not add up to 100%"
        else
          Ok (setParticipants
                (map (fun participant =>
                        Participant.mk (Participant.user participant)
                          (Num.round2 (amount e * Participant.share participant / 100))
                          percentage)
                     (participants e)) e)
    end.

End Expense.

(** ** Group documents ([models/Group.js]) *)

Module Member.
Record t : Type := mk {
  user : ObjectId;
  role : Role;
  isActive : bool
}.
End Member.

Module Owes.
Record t : Type := mk { to : ObjectId; amount : Q }.
End Owes.

Module Owed.
Record t : Type := mk { from : ObjectId; amount : Q }.
End Owed.

Module Balance.
Record t : Type := mk {
  user : ObjectId;
  balance : Q;
  owes : list Owes.t;
  owed : list Owed.t
}.
End Balance.

Module Activity.
Inductive Details : Type :=
| MemberDetails (userId : ObjectId) (role : option Role).

Record t : Type := mk {
  action : string;
  performedBy : ObjectId;
  details : Details
}.
End Activity.

Module Settings.
Record t : Type := mk {
  allowMemberInvites : bool;
  splitMethod : SplitMethod
}.
End Settings.

Module Group.
Record t : Type := mk {
  _id : ObjectId;
  createdBy : ObjectId;
  members : list Member.t;
  expenses : list ObjectId;
  settings : Settings.t;
  isActive : bool;
  totalExpenses : Q;
  totalSettled : Q;
  balances : list Balance.t;
  activityLog : list Activity.t
}.

Definition setMembers (ms : list Member.t) (g : t) : t :=
  mk (_id g) (createdBy g) ms (expenses g) (settings g) (isActive g)
     (totalExpenses g) (totalSettled g) (balances g) (activityLog g).

Definition setExpenses (es : list ObjectId) (g : t) : t :=
  mk (_id g) (createdBy g) (members g) es (settings g) (isActive g)
     (totalExpenses g) (totalSettled g) (balances g) (activityLog g).

Definition setIsActive (b : bool) (g : t) : t :=
  mk (_id g) (createdBy g) (members g) (expenses g) (settings g) b
     (totalExpenses g) (totalSettled g) (balances g) (activityLog g).

Definition setTotalExpenses (x : Q) (g : t) : t :=
  mk (_id g) (createdBy g) (members g) (expenses g) (settings g) (isActive g)
     x (totalSettled g) (balances g) (activityLog g).

Definition setTotalSettled (x : Q) (g : t) : t :=
  mk (_id g) (createdBy g) (members g) (expenses g) (settings g) (isActive g)
     (totalExpenses g) x (balances g) (activityLog g).

Definition setBalances (bs : list Balance.t) (g : t) : t :=
  mk (_id g) (createdBy g) (members g) (expenses g) (settings g) (isActive g)
     (totalExpenses g) (totalSettled g) bs (activityLog g).

Definition setActivityLog (l : list Activity.t) (g : t) : t :=
  mk (_id g) (createdBy g) (members g) (expenses g) (settings g) (isActive g)
     (totalExpenses g) (totalSettled g) (balances g) l.

(** [group.members.some(m => m.user.toString() === userId.toString() &&
    m.isActive)]. *)
Definition isActiveMember (userId : ObjectId) (g : t) : bool :=
  existsb (fun m => idEq (Member.user m) userId && Member.isActive m) (members g).

(** [group.members.find(m => m.user.toString() === userId.toString())]. *)
Definition findMember (userId : ObjectId) (g : t) : option Member.t :=
  find (fun m => idEq (Member.user m) userId) (members g).

(** [userMember?.role === 'admin' || group.createdBy.toString() ===
    userId.toString()]. *)
Definition isAdmin (userId : ObjectId) (g : t) : bool :=
  match findMember userId g with
  | Some m => roleEq (Member.role m) admin
  | None => false
  end || idEq (createdBy g) userId.
End Group.

Module User.
Record t : Type := mk {
  _id : ObjectId;
  email : string;
  groups : list ObjectId
}.

Definition setGroups (gs : list ObjectId) (u : t) : t := mk (_id u) (email u) gs.
End User.

(* ===================================================================== *)
(** * Stored balance tables *)
(* ===================================================================== *)

Module Balances.

(** The first row of [id] in a stored table. *)
Definition findRow (id : ObjectId) (balances : list Balance.t) : option Balance.t :=
  find (fun b => idEq (Balance.user b) id) balances.

(** The table with every row as "Reset all balances" leaves it. *)
Definition reset (balances : list Balance.t) : list Balance.t :=
  map (fun b => Balance.mk (Balance.user b) 0 [] []) balances.

(** The part of [removeMember] that works on [this.balances]. *)
Definition purge (userId : ObjectId) (balances : list Balance.t) : list Balance.t :=
  map (fun b =>
         Balance.mk (Balance.user b) (Balance.balance b)
           (filter (fun owe => negb (idEq (Owes.to owe) userId)) (Balance.owes b))
           (filter (fun o => negb (idEq (Owed.from o) userId)) (Balance.owed b)))
      (filter (fun b => negb (idEq (Balance.user b) userId)) balances).

(** ** Reading a table *)

(** The sum of all rows' net balances. *)
Definition total (balances : list Balance.t) : Q := Num.sumOf Balance.balance balances.

Definition hasRow (id : ObjectId) (balances : list Balance.t) : bool :=
  match findRow id balances with Some _ => true | None => false end.

(** The net balance in [id]'s row (0 without a row). *)
Definition net (id : ObjectId) (balances : list Balance.t) : Q :=
  match findRow id balances with Some b => Balance.balance b | None => 0 end.

Definition findOwes (to : ObjectId) (owes : list Owes.t) : option Owes.t :=
  find (fun owe => idEq (Owes.to owe) to) owes.

Definition findOwed (from : ObjectId) (owed : list Owed.t) : option Owed.t :=
  find (fun o => idEq (Owed.from o) from) owed.

(** What [debtor]'s row says it owes to [creditor]. *)
Definition debt (debtor creditor : ObjectId) (balances : list Balance.t) : option Q :=
  match findRow debtor balances with
  | Some b => option_map Owes.amount (findOwes creditor (Balance.owes b))
  | None => None
  end.

(** What [creditor]'s row says it is owed by [debtor]. *)
Definition credit (creditor debtor : ObjectId) (balances : list Balance.t) : option Q :=
  match findRow creditor balances with
  | Some b => option_map Owed.amount (findOwed debtor (Balance.owed b))
  | None => None
  end.

End Balances.

(* ===================================================================== *)
(** * The store *)
(* ===================================================================== *)

Module Db.
Record t : Type := mk {
  users : list User.t;
  groups : list Group.t;
  expenses : list Expense.t
}.

Definition setUsers (us : list User.t) (db : t) : t := mk us (groups db) (expenses db).
Definition setGroups (gs : list Group.t) (db : t) : t := mk (users db) gs (expenses db).
Definition setExpenses (es : list Expense.t) (db : t) : t := mk (users db) (groups db) es.

(** [Group.findById], [Expense.findById], [User.findById], [User.findOne({ email })]. *)
Definition findGroup (id : ObjectId) (db : t) : option Group.t :=
  find (fun g => idEq (Group._id g) id) (groups db).

Definition findExpense (id : ObjectId) (db : t) : option Expense.t :=
  find (fun e => idEq (Expense._id e) id) (expenses db).

Definition findUser (id : ObjectId) (db : t) : option User.t :=
  find (fun u => idEq (User._id u) id) (users db).

Definition findUserByEmail (email : string) (db : t) : option User.t :=
  find (fun u => String.eqb (User.email u) email) (users db).

(** [Expense.find({ group: groupId })]. *)
Definition expensesOf (groupId : ObjectId) (db : t) : list Expense.t :=
  filter (fun e => idEq (Expense.group e) groupId) (expenses db).

(** [Expense.find({ group: groupId, settled: false })]. *)
Definition unsettledOf (groupId : ObjectId) (db : t) : list Expense.t :=
  filter (fun e => idEq (Expense.group e) groupId && negb (Expense.settled e)) (expenses db).

(** Writing a document: the stored document with the same [_id] is
    replaced; a new document is inserted at the end. *)
Fixpoint putGroup (g : Group.t) (gs : list Group.t) : list Group.t :=
  match gs with
  | [] => [g]
  | x :: rest => if idEq (Group._id x) (Group._id g) then g :: rest else x :: putGroup g rest
  end.

Fixpoint putExpense (e : Expense.t) (es : list Expense.t) : list Expense.t :=
  match es with
  | [] => [e]
  | x :: rest => if idEq (Expense._id x) (Expense._id e) then e :: rest else x :: putExpense e rest
  end.

(** [group.save()]. *)
Definition saveGroup (g : Group.t) (db : t) : t := setGroups (putGroup g (groups db)) db.

(** The write of [expense.save()], between the two hooks. *)
Definition writeExpense (e : Expense.t) (db : t) : t := setExpenses (putExpense e (expenses db)) db.

(** [expense.deleteOne()]. *)
Definition deleteExpense (id : ObjectId) (db : t) : t :=
  setExpenses (filter (fun e => negb (idEq (Expense._id e) id)) (expenses db)) db.

(** [User.findByIdAndUpdate(userId, { $addToSet: { groups: groupId } })]. *)
Fixpoint addToSetGroups (userId groupId : ObjectId) (us : list User.t) : list User.t :=
  match us with
  | [] => []
  | u :: rest =>
      if idEq (User._id u) userId then
        (if existsb (idEq groupId) (User.groups u) then u
         else User.setGroups (User.groups u ++ [groupId]) u) :: rest
      else u :: addToSetGroups userId groupId rest
  end.

(** [User.findByIdAndUpdate(userId, { $pull: { groups: groupId } })]. *)
Fixpoint pullGroups (userId groupId : ObjectId) (us : list User.t) : list User.t :=
  match us with
  | [] => []
  | u :: rest =>
      if idEq (User._id u) userId then
        User.setGroups (filter (fun g => negb (idEq g groupId)) (User.groups u)) u :: rest
      else u :: pullGroups userId groupId rest
  end.

(** [User.updateMany({ groups: groupId }, { $pull: { groups: groupId } })]. *)
Definition pullGroupsMany (groupId : ObjectId) (us : list User.t) : list User.t :=
  map (fun u =>
         if existsb (idEq groupId) (User.groups u) then
           User.setGroups (filter (fun g => negb (idEq g groupId)) (User.groups u)) u
         else u) us.

(** [Group.findByIdAndUpdate(groupId, { $pull: { expenses: expenseId } })]. *)
Fixpoint pullExpense (groupId expenseId : ObjectId) (gs : list Group.t) : list Group.t :=
  match gs with
  | [] => []
  | g :: rest =>
      if idEq (Group._id g) groupId then
        Group.setExpenses (filter (fun e => negb (idEq e expenseId)) (Group.expenses g)) g :: rest
      else g :: pullExpense groupId expenseId rest
  end.
End Db.

(* ===================================================================== *)
(** * Values and strings of a loaded document *)
(* ===================================================================== *)

Module Js.

(** What a path of the schema type ObjectId holds in a loaded document. *)
Inductive Ref : Type :=
| Oid (id : ObjectId)        (** an ObjectId *)
| Populated (id : ObjectId)  (** the user document that [populate] put in the place of the id *)
| Null (id : ObjectId)       (** [null]: [populate] found no user of the id *)
| Undefined.                 (** [undefined]: the path was set from a value that does not
                                 cast to an ObjectId *)

(** The strings that [toString()] gives in [calculateBalances]: the 24 hex
    digits of an ObjectId, the text of a populated user document, and the
    text of the participant sub-document at a position of an expense.  A
    text of a document is no 24 hex digits, and the texts of two documents
    differ. *)
Inductive Str : Type :=
| Hex (id : ObjectId)
| UserText (id : ObjectId)
| ParticipantText (expense : ObjectId) (index : nat).

(** [a === b]. *)
Definition strEq (a b : Str) : bool :=
  match a, b with
  | Hex x, Hex y => idEq x y
  | UserText x, UserText y => idEq x y
  | ParticipantText e i, ParticipantText e' i' => idEq e e' && Nat.eqb i i'
  | _, _ => false
  end.

Definition ofNull : string := "TypeError: Cannot read properties of null (reading 'toString')".

Definition ofUndefined : string :=
  "TypeError: Cannot read properties of undefined (reading 'toString')".

(** [r.toString()]. *)
Definition toString (r : Ref) : Result Str :=
  match r with
  | Oid id => Ok (Hex id)
  | Populated id => Ok (UserText id)
  | Null _ => Throw ofNull
  | Undefined => Throw ofUndefined
  end.

(** What a path of type ObjectId holds once it is set from a string. *)
Definition castId (s : Str) : Ref :=
  match s with
  | Hex id => Oid id
  | _ => Undefined
  end.

(** [xs.find(p)] with a callback that may throw: the position of the first
    element that [p] accepts.  The callback runs on every element before
    it. *)
Fixpoint find {A : Type} (p : A -> Result bool) (xs : list A) : Result (option nat) :=
  match xs with
  | [] => Ok None
  | x :: rest =>
      b <- p x ;;
      if b then Ok (Some 0%nat)
      else r <- find p rest ;; Ok (option_map S r)
  end.

End Js.

(* ===================================================================== *)
(** * The balance table of a loaded group ([calculateBalances]) *)
(* ===================================================================== *)

Module Live.

(** The rows of [this.balances] and their entries, in memory. *)
Record OwesEntry : Type := owesEntry { to : Js.Ref; owesAmount : Q }.

Record OwedEntry : Type := owedEntry { from : Js.Ref; owedAmount : Q }.

Record Row : Type := row {
  user : Js.Ref;
  balance : Q;
  owes : list OwesEntry;
  owed : list OwedEntry
}.

(** A stored row, loaded. *)
Definition load (b : Balance.t) : Row :=
  row (Js.Oid (Balance.user b)) (Balance.balance b)
      (map (fun owe => owesEntry (Js.Oid (Owes.to owe)) (Owes.amount owe)) (Balance.owes b))
      (map (fun o => owedEntry (Js.Oid (Owed.from o)) (Owed.amount o)) (Balance.owed b)).

(** [this.balances] of a group that [Group.findById] gave. *)
Definition loaded (group : Group.t) : list Row := map load (Group.balances group).

(** [.populate('balances.user', ...)] on a row. *)
Definition populate (db : Db.t) (b : Row) : Row :=
  row (match user b with
       | Js.Oid id =>
           match Db.findUser id db with
           | Some _ => Js.Populated id
           | None => Js.Null id
           end
       | r => r
       end)
      (balance b) (owes b) (owed b).

(** [this.balances] of a group that
    [Group.findById(groupId).populate('balances.user', ...)] gave. *)
Definition populated (db : Db.t) (group : Group.t) : list Row :=
  map (populate db) (loaded group).

(** "Reset all balances", on a row. *)
Definition reset (b : Row) : Row := row (user b) 0 [] [].

(** [b => b.user.toString() === s]. *)
Definition userIs (s : Js.Str) (b : Row) : Result bool :=
  t <- Js.toString (user b) ;; Ok (Js.strEq t s).

(** [owe => owe.to.toString() === s] and [owed => owed.from.toString() === s]. *)
Definition toIs (s : Js.Str) (owe : OwesEntry) : Result bool :=
  t <- Js.toString (to owe) ;; Ok (Js.strEq t s).

Definition fromIs (s : Js.Str) (o : OwedEntry) : Result bool :=
  t <- Js.toString (from o) ;; Ok (Js.strEq t s).

(** The element at a position, changed in place. *)
Fixpoint updateAt {A : Type} (i : nat) (f : A -> A) (xs : list A) : list A :=
  match xs, i with
  | [], _ => []
  | x :: rest, O => f x :: rest
  | x :: rest, S i => x :: updateAt i f rest
  end.

(** [{ user: s, balance: 0, owes: [], owed: [] }] as the row that
    [this.balances.push] makes of it: the document array casts the object
    to a sub-document of its own. *)
Definition pushed (s : Js.Str) : Row := row (Js.castId s) 0 [] [].

(** [if (!x) { x = { user: s, ... }; this.balances.push(x); }].  The
    variables [payerBalance] and [participantBalance] hold [Some i], the
    row at position [i] that [find] returned, or [None] and then, after
    this statement, the object literal: the array holds a cast copy of
    it. *)
Definition pushIfMissing (x : option nat) (s : Js.Str) (balances : list Row) : list Row :=
  match x with
  | Some _ => balances
  | None => balances ++ [pushed s]
  end.

(** [x.balance += d].  Written to a row that [find] returned, it changes
    the table; written to the object literal, it changes that object and
    not the copy in the table. *)
Definition addToBalance (x : option nat) (d : Q) (balances : list Row) : list Row :=
  match x with
  | Some i => updateAt i (fun b => row (user b) (balance b + d) (owes b) (owed b)) balances
  | None => balances
  end.

(** The [existingOwe] statements.  On the object literal, [owes] is the
    empty array of the literal: nothing is found and the entry is pushed
    onto the literal.  On a row, the entry that is pushed is cast: its [to]
    is set from the string. *)
Definition recordOwes (participantBalance : option nat) (paidById : Js.Str) (splitAmount : Q)
           (balances : list Row) : Result (list Row) :=
  match participantBalance with
  | None => Ok balances
  | Some i =>
      match nth_error balances i with
      | None => Ok balances
      | Some b =>
          existingOwe <- Js.find (toIs paidById) (owes b) ;;
          let owes :=
            match existingOwe with
            | Some j =>
                updateAt j (fun owe => owesEntry (to owe) (owesAmount owe + splitAmount))
                         (owes b)
            | None => owes b ++ [owesEntry (Js.castId paidById) splitAmount]
            end in
          Ok (updateAt i (fun b => row (user b) (balance b) owes (owed b)) balances)
      end
  end.

(** The [existingOwed] statements. *)
Definition recordOwed (payerBalance : option nat) (participantIdStr : Js.Str)
           (splitAmount : Q) (balances : list Row) : Result (list Row) :=
  match payerBalance with
  | None => Ok balances
  | Some i =>
      match nth_error balances i with
      | None => Ok balances
      | Some b =>
          existingOwed <- Js.find (fromIs participantIdStr) (owed b) ;;
          let owed :=
            match existingOwed with
            | Some j =>
                updateAt j (fun o => owedEntry (from o) (owedAmount o + splitAmount))
                         (owed b)
            | None => owed b ++ [owedEntry (Js.castId participantIdStr) splitAmount]
            end in
          Ok (updateAt i (fun b => row (user b) (balance b) (owes b) owed) balances)
      end
  end.

(** The body of the inner [forEach] of [calculateBalances]. *)
Definition perParticipant (paidById : Js.Str) (splitAmount : Q)
           (balances : list Row) (participantIdStr : Js.Str) : Result (list Row) :=
  if negb (Js.strEq paidById participantIdStr) then
    payerBalance <- Js.find (userIs paidById) balances ;;
    participantBalance <- Js.find (userIs participantIdStr) balances ;;
    let balances := pushIfMissing payerBalance paidById balances in
    let balances := pushIfMissing participantBalance participantIdStr balances in
    let balances := addToBalance payerBalance splitAmount balances in
    let balances := addToBalance participantBalance (- splitAmount) balances in
    balances <- recordOwes participantBalance paidById splitAmount balances ;;
    recordOwed payerBalance participantIdStr splitAmount balances
  else Ok balances.

(** [participantId.toString()] for the elements of [expense.participants],
    in order: the elements are sub-documents [{ user, share, shareType }],
    and the string of a sub-document is its text. *)
Definition participantStrings (expense : Expense.t) : list Js.Str :=
  map (Js.ParticipantText (Expense._id expense))
      (seq 0 (List.length (Expense.participants expense))).

(** The body of the outer [forEach]. *)
Definition perExpense (balances : list Row) (expense : Expense.t) : Result (list Row) :=
  let paidById := Js.Hex (Expense.paidBy expense) in
  let splitAmount :=
    Expense.amount expense / inject_Z (Z.of_nat (List.length (Expense.participants expense))) in
  forEach (perParticipant paidById splitAmount) (participantStrings expense) balances.

Definition castFailed : string := "ValidationError: Cast to ObjectId failed".

(** The id that [save] writes for a path of type ObjectId: validation
    fails on a path whose value did not cast. *)
Definition storedId (r : Js.Ref) : Result ObjectId :=
  match r with
  | Js.Oid id | Js.Populated id | Js.Null id => Ok id
  | Js.Undefined => Throw castFailed
  end.

Definition storedRow (b : Row) : Result Balance.t :=
  user <- storedId (user b) ;;
  owes <- mapM (fun owe => to <- storedId (to owe) ;; Ok (Owes.mk to (owesAmount owe)))
               (owes b) ;;
  owed <- mapM (fun o => from <- storedId (from o) ;; Ok (Owed.mk from (owedAmount o)))
               (owed b) ;;
  Ok (Balance.mk user (balance b) owes owed).

(** The table that [this.save()] writes. *)
Definition stored (balances : list Row) : Result (list Balance.t) := mapM storedRow balances.

(** [calculateBalances] up to its write: the reset, the two loops over the
    unsettled expenses that the query returned, the validation of
    [save]. *)
Definition calculate (balances : list Row) (expenses : list Expense.t)
  : Result (list Balance.t) :=
  let balances := map reset balances in
  balances <- forEach perExpense expenses balances ;;
  stored balances.

(** ** Vocabulary for the outcome *)

(** The two loops as one sequence of steps: the payer's string, the split
    amount and the participant's string of every run of the inner body. *)
Definition stepsOf (expense : Expense.t) : list (Js.Str * Q * Js.Str) :=
  map (fun participantIdStr =>
         (Js.Hex (Expense.paidBy expense),
          Expense.amount expense
          / inject_Z (Z.of_nat (List.length (Expense.participants expense))),
          participantIdStr))
      (participantStrings expense).

Definition step (balances : list Row) (x : Js.Str * Q * Js.Str) : Result (list Row) :=
  perParticipant (fst (fst x)) (snd (fst x)) balances (snd x).

(** A step of the loops: the payer's string is that of an ObjectId, the
    participant's string is the text of a sub-document. *)
Definition shaped (x : Js.Str * Q * Js.Str) : Prop :=
  match x with
  | (Js.Hex _, _, Js.ParticipantText _ _) => True
  | _ => False
  end.

(** A row without entries. *)
Definition bare (b : Row) : Prop := owes b = [] /\ owed b = [].

(** The number of participant entries of a list of expenses. *)
Definition entries (expenses : list Expense.t) : nat :=
  List.length (flat_map Expense.participants expenses).

(** The error of the first row whose user has no [toString]. *)
Fixpoint firstThrow (balances : list Row) : option string :=
  match balances with
  | [] => None
  | b :: rest =>
      match Js.toString (user b) with
      | Throw m => Some m
      | Ok _ => firstThrow rest
      end
  end.

(** The error that ends [calculateBalances] when the unsettled expenses
    have [n] participant entries, [n] above zero. *)
Definition failure (balances : list Row) (n : nat) : string :=
  match firstThrow balances with
  | Some m => m
  | None => if Nat.eqb n 1 then castFailed else Js.ofUndefined
  end.

End Live.

(* ===================================================================== *)
(** * Group methods ([models/Group.js]) *)
(* ===================================================================== *)

Module GroupModel.

(** [groupSchema.methods.addMember]. *)
Definition addMember (db : Db.t) (this : Group.t) (userId : ObjectId) (role : Role)
  : Result (Db.t * Group.t) :=
  match find (fun m => idEq (Member.user m) userId) (Group.members this) with
  | Some _ => Throw "User is already a member of this group"
  | None =>
      let this := Group.setMembers (Group.members this ++ [Member.mk userId role true]) this in
      let db := Db.setUsers (Db.addToSetGroups userId (Group._id this) (Db.users db)) db in
      let this := Group.setBalances (Group.balances this ++ [Balance.mk userId 0 [] []]) this in
      let this :=
        Group.setActivityLog
          (Group.activityLog this
             ++ [Activity.mk "MEMBER_ADDED" (Group.createdBy this)
                             (Activity.MemberDetails userId (Some role))]) this in
      Ok (Db.saveGroup this db, this)
  end.

(** [this.members.splice(memberIndex, 1)] for the first member of [userId]. *)
Fixpoint spliceMember (userId : ObjectId) (ms : list Member.t) : list Member.t :=
  match ms with
  | [] => []
  | m :: rest => if idEq (Member.user m) userId then rest else m :: spliceMember userId rest
  end.

(** [groupSchema.methods.removeMember]. *)
Definition removeMember (db : Db.t) (this : Group.t) (userId removedBy : ObjectId)
  : Result (Db.t * Group.t) :=
  match find (fun m => idEq (Member.user m) userId) (Group.members this) with
  | None => Throw "User is not a member of this group"
  | Some _ =>
      let this := Group.setMembers (spliceMember userId (Group.members this)) this in
      let db := Db.setUsers (Db.pullGroups userId (Group._id this) (Db.users db)) db in
      let this := Group.setBalances (Balances.purge userId (Group.balances this)) this in
      let this :=
        Group.setActivityLog
          (Group.activityLog this
             ++ [Activity.mk "MEMBER_REMOVED" removedBy
                             (Activity.MemberDetails userId None)]) this in
      Ok (Db.saveGroup this db, this)
  end.

(** [groupSchema.methods.calculateBalances], on the group document [this]
    whose [this.balances] is [balances] in memory: the store after the
    method's [save], and the document with its new [balances]. *)
Definition calculateBalances (db : Db.t) (this : Group.t) (balances : list Live.Row)
  : Result (Db.t * Group.t) :=
  let expenses := Db.unsettledOf (Group._id this) db in
  balances <- Live.calculate balances expenses ;;
  let this := Group.setBalances balances this in
  Ok (Db.saveGroup this db, this).

End GroupModel.

(* ===================================================================== *)
(** * Expense methods ([models/Expense.js]) *)
(* ===================================================================== *)

Module ExpenseModel.

(** [expenseSchema.pre('save')]; [recalc] is the hook's condition
    [this.isNew || this.isModified(...)]. *)
Definition preSave (recalc : bool) (this : Expense.t) : Result Expense.t :=
  if recalc then Expense.calculateShares this else Ok this.

(** [expenseSchema.post('save')]. *)
Definition postSave (doc : Expense.t) (db : Db.t) : Db.t :=
  match Db.findGroup (Expense.group doc) db with
  | Some group =>
      let expenses := Db.expensesOf (Expense.group doc) db in
      let group := Group.setTotalExpenses (Num.sumOf Expense.amount expenses) group in
      let group :=
        Group.setTotalSettled
          (Num.sumOf Expense.amount (filter Expense.settled expenses)) group in
      let group :=
        if existsb (idEq (Expense._id doc)) (Group.expenses group) then group
        else Group.setExpenses (Group.expenses group ++ [Expense._id doc]) group in
      Db.saveGroup group db
  | None => db
  end.

(** [this.save()]: the pre hook, the write, the post hook.  A throw in the
    pre hook rejects the save before anything is written. *)
Definition save (db : Db.t) (recalc : bool) (this : Expense.t) : Result (Db.t * Expense.t) :=
  this <- preSave recalc this ;;
  Ok (postSave this (Db.writeExpense this db), this).

(** [expenseSchema.methods.settle]. *)
Definition settle (db : Db.t) (this : Expense.t) (settledBy : ObjectId)
           (settlements : list Settlement.t) : Result (Db.t * Expense.t) :=
  let this := Expense.setSettled true this in
  let this := Expense.setSettledBy (Some settledBy) this in
  let this :=
    if Nat.ltb 0 (List.length settlements) then Expense.setSettlements settlements this
    else this in
  db <- match Db.findGroup (Expense.group this) db with
        | Some group =>
            let group :=
              Group.setTotalSettled (Group.totalSettled group + Expense.amount this) group in
            r <- GroupModel.calculateBalances db group (Live.loaded group) ;;
            Ok (fst r)
        | None => Ok db
        end ;;
  save db false this.

(** [expenseSchema.methods.addSettlement]. *)
Definition addSettlement (db : Db.t) (this : Expense.t) (from to : ObjectId) (amount : Q)
           (method : PayMethod) (transactionId : option string)
  : Result (Db.t * Expense.t) :=
  let settlement := Settlement.mk from to amount method transactionId in
  let this := Expense.setSettlements (Expense.settlements this ++ [settlement]) this in
  let totalSettled := Ieee.sumOf Settlement.amount (Expense.settlements this) in
  let this :=
    if Ieee.reaches totalSettled (Expense.amount this) then Expense.setSettled true this
    else this in
  save db false this.

(** [Object.assign(this, updates)]. *)
Definition assign (updates : Updates.t) (this : Expense.t) : Expense.t :=
  let this := Expense.setAmount (Expense.amountSetter (Updates.amount updates)) this in
  let this :=
    match Updates.paidBy updates with
    | Some u => Expense.setPaidBy u this
    | None => this
    end in
  let this := Expense.setParticipants (Updates.participants updates) this in
  let this :=
    match Updates.splitMethod updates with
    | Some m => Expense.setSplitMethod m this
    | None => this
    end in
  let this :=
    match Updates.settled updates with
    | Some b => Expense.setSettled b this
    | None => this
    end in
  let this :=
    match Updates.settledBy updates with
    | Some u => Expense.setSettledBy (Some u) this
    | None => this
    end in
  let this :=
    match Updates.settlements updates with
    | Some l => Expense.setSettlements l this
    | None => this
    end in
  match Updates.editHistory updates with
  | Some h => Expense.setEditHistory h this
  | None => this
  end.

(** [expenseSchema.methods.updateExpense].  The assignment of
    [participants] marks the path as modified, so the condition of the
    pre-save hook holds at every update. *)
Definition updateExpense (db : Db.t) (this : Expense.t) (updates : Updates.t)
           (updatedBy : ObjectId) : Result (Db.t * Expense.t) :=
  let oldData := Expense.toObject this in
  let this := assign updates this in
  let this :=
    Expense.setEditHistory (Expense.editHistory this ++ [Edit.mk updatedBy oldData]) this in
  save db true this.

End ExpenseModel.

(* ===================================================================== *)
(** * Request handlers ([routes/expenses.js], [routes/groups.js]) *)
(* ===================================================================== *)

Module Response.
Inductive Body : Type :=
| Message (message : string)
| BalancesBody (balances : list Balance.t).

Record t : Type := mk { status : nat; body : Body }.

(** [res.status(code).json({ message })]. *)
Definition json (code : nat) (message : string) : t := mk code (Message message).

Definition isError (r : t) : bool := Nat.leb 400 (status r).
End Response.

(* ===================================================================== *)
(** * Administration of members ([middleware/auth.js], [routes/groups.js]) *)
(* ===================================================================== *)

Module Admin.

(** The middleware [isGroupAdmin]: [None] when it calls [next()], the
    response that it sends otherwise. *)
Definition isGroupAdmin (db : Db.t) (userId groupId : ObjectId) : option Response.t :=
  match Db.findGroup groupId db with
  | None => Some (Response.json 404 "Group not found")
  | Some group =>
      match find (fun m => idEq (Member.user m) userId && Member.isActive m)
                 (Group.members group) with
      | None => Some (Response.json 403 "You are not a member of this group")
      | Some memberInfo =>
          if negb (roleEq (Member.role memberInfo) admin)
             && negb (idEq (Group.createdBy group) userId) then
            Some (Response.json 403 "You are not an admin of this group")
          else None
      end
  end.

(** [memberToUpdate.role = role], on the member that [find] returned: the
    first member of [memberId] is changed in place. *)
Fixpoint setRole (memberId : ObjectId) (role : Role) (ms : list Member.t) : list Member.t :=
  match ms with
  | [] => []
  | m :: rest =>
      if idEq (Member.user m) memberId then
        Member.mk (Member.user m) role (Member.isActive m) :: rest
      else m :: setRole memberId role rest
  end.

(** [router.put('/:groupId/members/:memberId/role')]: update a member's
    role.  The validator of [role] accepts the two values of [Role].  The
    details of the log entry hold the member and the new role. *)
Definition updateRole (db : Db.t) (userId groupId memberId : ObjectId) (role : Role)
  : Response.t * Db.t :=
  match isGroupAdmin db userId groupId with
  | Some denied => (denied, db)
  | None =>
      match Db.findGroup groupId db with
      | None => (Response.json 404 "Group not found", db)
      | Some group =>
          match Group.findMember memberId group with
          | None => (Response.json 404 "Member not found in group", db)
          | Some _ =>
              let group := Group.setMembers (setRole memberId role (Group.members group)) group in
              let group :=
                Group.setActivityLog
                  (Group.activityLog group
                     ++ [Activity.mk "MEMBER_ROLE_UPDATED" userId
                                     (Activity.MemberDetails memberId (Some role))]) group in
              (Response.json 200 "Member role updated successfully", Db.saveGroup group db)
          end
      end
  end.

End Admin.

(* ===================================================================== *)
(** * The handlers *)
(* ===================================================================== *)

Module Routes.

(** An element of [req.body.participants] of the create request: a user id,
    or an object with optional [share] and [shareType]. *)
Inductive ParticipantInput : Type :=
| PId (id : ObjectId)
| PObject (user : ObjectId) (share : option Q) (shareType : option SplitMethod).

Module CreateBody.
Record t : Type := mk {
  amount : Q;
  paidBy : ObjectId;
  participants : list ParticipantInput;
  group : ObjectId;
  splitMethod : option SplitMethod
}.
End CreateBody.

(** [typeof p === 'string' ? p : p.user]. *)
Definition inputUser (p : ParticipantInput) : ObjectId :=
  match p with
  | PId id => id
  | PObject user _ _ => user
  end.

(** The participant sub-document that the create handler builds; a missing
    [share] or [shareType] takes the schema default. *)
Definition inputParticipant (p : ParticipantInput) : Participant.t :=
  match p with
  | PId id => Participant.mk id 0 equal
  | PObject user share shareType =>
      Participant.mk user
        (match share with Some s => s | None => 0 end)
        (match shareType with Some t => t | None => equal end)
  end.

(** [isGroupMember] of [middleware/auth.js]: [None] when the request goes on. *)
Definition isGroupMember (db : Db.t) (userId groupId : ObjectId) : option Response.t :=
  match Db.findGroup groupId db with
  | None => Some (Response.json 404 "Group not found")
  | Some group =>
      if Group.isActiveMember userId group then None
      else Some (Response.json 403 "You are not a member of this group")
  end.

(** [router.post('/')]: create an expense.  [newId] is the [_id] that
    [new Expense] generates. *)
Definition createExpense (db : Db.t) (userId newId : ObjectId) (body : CreateBody.t)
  : Response.t * Db.t :=
  if negb (Num.geb (CreateBody.amount body) (1 # 100)
           && Nat.leb 1 (List.length (CreateBody.participants body))) then
    (Response.json 400 "Validation failed", db)
  else
    let groupId := CreateBody.group body in
    let paidBy := CreateBody.paidBy body in
    match Db.findGroup groupId db with
    | None => (Response.json 404 "Group not found", db)
    | Some group =>
        if negb (Group.isActiveMember userId group) then
          (Response.json 403 "You are not a member of this group", db)
        else
          match Db.findUser paidBy db with
          | None => (Response.json 404 "Payer not found", db)
          | Some _ =>
              if negb (Group.isActiveMember paidBy group) then
                (Response.json 400 "Payer must be a group member", db)
              else
                let participantIds := map inputUser (CreateBody.participants body) in
                let participantUsers :=
                  filter (fun u => existsb (idEq (User._id u)) participantIds) (Db.users db) in
                if negb (Nat.eqb (List.length participantUsers) (List.length participantIds)) then
                  (Response.json 400 "One or more participants not found", db)
                else if negb (forallb (fun participantId => Group.isActiveMember participantId group)
                                      participantIds) then
                  (Response.json 400 "All participants must be group members", db)
                else
                  let expense :=
                    Expense.mk newId
                      (Expense.amountSetter (CreateBody.amount body))
                      paidBy
                      (map inputParticipant (CreateBody.participants body))
                      groupId
                      (match CreateBody.splitMethod body with
                       | Some m => m
                       | None => Settings.splitMethod (Group.settings group)
                       end)
                      false None [] userId [] in
                  match ExpenseModel.save db true expense with
                  | Ok (db, _) => (Response.json 201 "Expense created successfully", db)
                  | Throw _ => (Response.json 500 "Server error", db)
                  end
          end
    end.

(** [router.put('/:expenseId')]: update an expense. *)
Definition updateExpense (db : Db.t) (userId expenseId : ObjectId) (updates : Updates.t)
  : Response.t * Db.t :=
  if negb (Num.geb (Updates.amount updates) (1 # 100)
           && Nat.leb 1 (List.length (Updates.participants updates))) then
    (Response.json 400 "Validation failed", db)
  else
    match Db.findExpense expenseId db with
    | None => (Response.json 404 "Expense not found", db)
    | Some expense =>
        if Expense.settled expense then
          (Response.json 400 "Cannot update settled expense", db)
        else
          match Db.findGroup (Expense.group expense) db with
          | None => (Response.json 404 "Associated group not found", db)
          | Some group =>
              if negb (Group.isActiveMember userId group) then
                (Response.json 403 "You are not a member of this group", db)
              else
                let isCreator := idEq (Expense.createdBy expense) userId in
                let isAdmin := Group.isAdmin userId group in
                if negb isCreator && negb isAdmin then
                  (Response.json 403 "Only expense creator or group admin can update", db)
                else
                  match ExpenseModel.updateExpense db expense updates userId with
                  | Ok (db, _) => (Response.json 200 "Expense updated successfully", db)
                  | Throw _ => (Response.json 500 "Server error", db)
                  end
          end
    end.

(** [router.post('/:expenseId/settle')]: settle an expense. *)
Definition settleExpense (db : Db.t) (userId expenseId : ObjectId)
           (settlements : list Settlement.t) : Response.t * Db.t :=
  match Db.findExpense expenseId db with
  | None => (Response.json 404 "Expense not found", db)
  | Some expense =>
      if Expense.settled expense then
        (Response.json 400 "Expense is already settled", db)
      else
        match Db.findGroup (Expense.group expense) db with
        | None => (Response.json 404 "Associated group not found", db)
        | Some group =>
            if negb (Group.isActiveMember userId group) then
              (Response.json 403 "You are not a member of this group", db)
            else
              match ExpenseModel.settle db expense userId settlements with
              | Ok (db, _) => (Response.json 200 "Expense settled successfully", db)
              | Throw _ => (Response.json 500 "Server error", db)
              end
        end
  end.

(** [router.post('/:expenseId/settlements')]: add a settlement. *)
Definition addSettlement (db : Db.t) (userId expenseId from to : ObjectId) (amount : Q)
           (method : option PayMethod) (transactionId : option string)
  : Response.t * Db.t :=
  if negb (Num.geb amount (1 # 100)) then
    (Response.json 400 "Validation failed", db)
  else
    match Db.findExpense expenseId db with
    | None => (Response.json 404 "Expense not found", db)
    | Some expense =>
        match Db.findGroup (Expense.group expense) db with
        | None => (Response.json 404 "Associated group not found", db)
        | Some group =>
            if negb (Group.isActiveMember userId group) then
              (Response.json 403 "You are not a member of this group", db)
            else if negb (idEq from userId) && negb (idEq to userId) then
              (Response.json 403 "You can only add settlements involving yourself", db)
            else
              match ExpenseModel.addSettlement db expense from to amount
                      (match method with Some m => m | None => cash end)
                      transactionId with
              | Ok (db, _) => (Response.json 200 "Settlement added successfully", db)
              | Throw _ => (Response.json 500 "Server error", db)
              end
        end
    end.

(** [router.delete('/:expenseId')]: delete an expense. *)
Definition deleteExpense (db : Db.t) (userId expenseId : ObjectId) : Response.t * Db.t :=
  match Db.findExpense expenseId db with
  | None => (Response.json 404 "Expense not found", db)
  | Some expense =>
      if Expense.settled expense then
        (Response.json 400 "Cannot delete settled expense", db)
      else
        match Db.findGroup (Expense.group expense) db with
        | None => (Response.json 404 "Associated group not found", db)
        | Some group =>
            if negb (Group.isActiveMember userId group) then
              (Response.json 403 "You are not a member of this group", db)
            else
              let isCreator := idEq (Expense.createdBy expense) userId in
              let isAdmin := Group.isAdmin userId group in
              if negb isCreator && negb isAdmin then
                (Response.json 403 "Only expense creator or group admin can delete", db)
              else
                let db :=
                  Db.setGroups
                    (Db.pullExpense (Expense.group expense) (Expense._id expense) (Db.groups db))
                    db in
                let db := Db.deleteExpense (Expense._id expense) db in
                (Response.json 200 "Expense deleted successfully", db)
        end
  end.

(** [router.post('/:groupId/members')]: add a member, found by email. *)
Definition addMember (db : Db.t) (userId groupId : ObjectId) (email : string) (role : option Role)
  : Response.t * Db.t :=
  match isGroupMember db userId groupId with
  | Some denied => (denied, db)
  | None =>
      let role := match role with Some r => r | None => member end in
      match Db.findGroup groupId db with
      | None => (Response.json 404 "Group not found", db)
      | Some group =>
          let currentUserIsAdmin :=
            match Group.findMember userId group with
            | Some m => roleEq (Member.role m) admin
            | None => false
            end in
          if negb (Settings.allowMemberInvites (Group.settings group))
             && negb currentUserIsAdmin
             && negb (idEq (Group.createdBy group) userId) then
            (Response.json 403 "Only admins can add members to this group", db)
          else
            match Db.findUserByEmail email db with
            | None => (Response.json 404 "User not found", db)
            | Some userToAdd =>
                match GroupModel.addMember db group (User._id userToAdd) role with
                | Ok (db, _) => (Response.json 200 "Member added successfully", db)
                | Throw message =>
                    if String.eqb message "User is already a member of this group" then
                      (Response.json 400 message, db)
                    else (Response.json 500 "Server error", db)
                end
            end
      end
  end.

(** [router.delete('/:groupId/members/:memberId')]: remove a member. *)
Definition removeMember (db : Db.t) (userId groupId memberId : ObjectId) : Response.t * Db.t :=
  match isGroupMember db userId groupId with
  | Some denied => (denied, db)
  | None =>
      match Db.findGroup groupId db with
      | None => (Response.json 404 "Group not found", db)
      | Some group =>
          let isAdmin := Group.isAdmin userId group in
          let isSelf := idEq userId memberId in
          if negb isAdmin && negb isSelf then
            (Response.json 403 "You can only remove yourself or be an admin to remove others", db)
          else
            match Group.findMember memberId group with
            | None => (Response.json 404 "Member not found in group", db)
            | Some _ =>
                match GroupModel.removeMember db group memberId userId with
                | Ok (db, _) =>
                    (Response.json 200
                       (if isSelf then "Left group successfully"
                        else "Member removed successfully"), db)
                | Throw _ => (Response.json 500 "Server error", db)
                end
            end
      end
  end.

(** [router.get('/:groupId/balances')]: recompute and return the balances.
    The rows of the response are shown with the ids of their users. *)
Definition getBalances (db : Db.t) (userId groupId : ObjectId) : Response.t * Db.t :=
  match isGroupMember db userId groupId with
  | Some denied => (denied, db)
  | None =>
      match Db.findGroup groupId db with
      | None => (Response.json 404 "Group not found", db)
      | Some group =>
          match GroupModel.calculateBalances db group (Live.populated db group) with
          | Ok (db, group) =>
              (Response.mk 200 (Response.BalancesBody (Group.balances group)), db)
          | Throw _ => (Response.json 500 "Server error", db)
          end
      end
  end.

(** [router.post('/')] of the groups: create a group.  [newId] is the [_id]
    that [new Group] generates; the insert of a second document of an
    [_id] is refused by the database. *)
Definition createGroup (db : Db.t) (userId newId : ObjectId) : Response.t * Db.t :=
  let group :=
    Group.mk newId userId [Member.mk userId admin true] [] (Settings.mk true equal)
             true 0 0 [Balance.mk userId 0 [] []] [] in
  match Db.findGroup newId db with
  | Some _ => (Response.json 500 "Server error", db)
  | None =>
      let db := Db.saveGroup group db in
      let db := Db.setUsers (Db.addToSetGroups userId newId (Db.users db)) db in
      (Response.json 201 "Group created successfully", db)
  end.

(** [router.delete('/:groupId')]: delete a group. *)
Definition deleteGroup (db : Db.t) (userId groupId : ObjectId) : Response.t * Db.t :=
  match Db.findGroup groupId db with
  | None => (Response.json 404 "Group not found", db)
  | Some group =>
      if negb (idEq (Group.createdBy group) userId) then
        (Response.json 403 "Only the group creator can delete the group", db)
      else
        let unsettledExpenses := Db.unsettledOf groupId db in
        if Nat.ltb 0 (List.length unsettledExpenses) then
          (Response.json 400
             "Cannot delete group with unsettled expenses. Please settle all expenses first.",
           db)
        else
          let db := Db.setUsers (Db.pullGroupsMany groupId (Db.users db)) db in
          let group := Group.setIsActive false group in
          (Response.json 200 "Group deleted successfully", Db.saveGroup group db)
  end.

(** The mutating requests of the ledger and the balance read. *)
Inductive Request : Type :=
| CreateExpense (newId : ObjectId) (body : CreateBody.t)
| UpdateExpense (expenseId : ObjectId) (updates : Updates.t)
| DeleteExpense (expenseId : ObjectId)
| SettleExpense (expenseId : ObjectId) (settlements : list Settlement.t)
| AddSettlement (expenseId from to : ObjectId) (amount : Q)
                (method : option PayMethod) (transactionId : option string)
| CreateGroup (newId : ObjectId)
| AddMember (groupId : ObjectId) (email : string) (role : option Role)
| RemoveMember (groupId memberId : ObjectId)
| UpdateRole (groupId memberId : ObjectId) (role : Role)
| GetBalances (groupId : ObjectId)
| DeleteGroup (groupId : ObjectId).

(** Dispatch of a request of the authenticated user [userId]. *)
Definition handle (db : Db.t) (userId : ObjectId) (req : Request) : Response.t * Db.t :=
  match req with
  | CreateExpense newId body => createExpense db userId newId body
  | UpdateExpense expenseId updates => updateExpense db userId expenseId updates
  | DeleteExpense expenseId => deleteExpense db userId expenseId
  | SettleExpense expenseId settlements => settleExpense db userId expenseId settlements
  | AddSettlement expenseId from to amount method transactionId =>
      addSettlement db userId expenseId from to amount method transactionId
  | CreateGroup newId => createGroup db userId newId
  | AddMember groupId email role => addMember db userId groupId email role
  | RemoveMember groupId memberId => removeMember db userId groupId memberId
  | UpdateRole groupId memberId role => Admin.updateRole db userId groupId memberId role
  | GetBalances groupId => getBalances db userId groupId
  | DeleteGroup groupId => deleteGroup db userId groupId
  end.

End Routes.

(* ===================================================================== *)
(** * Vocabulary of the ledger properties *)
(* ===================================================================== *)

Module Ledger.

(** Every group's net balances sum to zero. *)
Definition balanced (db : Db.t) : Prop :=
  forall g, In g (Db.groups db) -> Balances.total (Group.balances g) == 0.

(** A row without a net balance and without entries. *)
Definition blank (b : Balance.t) : Prop :=
  Balance.balance b = 0 /\ Balance.owes b = [] /\ Balance.owed b = [].

(** Every row of every group is blank. *)
Definition cleared (db : Db.t) : Prop :=
  forall g b, In g (Db.groups db) -> In b (Group.balances g) -> blank b.

(** The stores that the handlers produce: from registered users without
    any group or expense, by any sequence of requests of any users. *)
Inductive Reachable : Db.t -> Prop :=
| Reachable_start (users : list User.t) : Reachable (Db.mk users [] [])
| Reachable_request (db : Db.t) (userId : ObjectId) (req : Routes.Request) :
    Reachable db -> Reachable (snd (Routes.handle db userId req)).

(** The amounts of the settled expenses of a group, as the post-save hook
    sums them. *)
Definition settledSum (groupId : ObjectId) (db : Db.t) : Q :=
  Num.sumOf Expense.amount (filter Expense.settled (Db.expensesOf groupId db)).

(** The row of a member as [removeMember] leaves it: the edges that refer
    to [userId] are gone, the rest is as it was. *)
Definition stripped (userId : ObjectId) (b : Balance.t) : Balance.t :=
  Balance.mk (Balance.user b) (Balance.balance b)
    (filter (fun owe => negb (idEq (Owes.to owe) userId)) (Balance.owes b))
    (filter (fun o => negb (idEq (Owed.from o) userId)) (Balance.owed b)).

(** The balance table of a group in the store ([[]] without the group). *)
Definition balancesOf (groupId : ObjectId) (db : Db.t) : list Balance.t :=
  match Db.findGroup groupId db with
  | Some g => Group.balances g
  | None => []
  end.

(** The unsettled expenses of a group have a participant entry. *)
Definition pending (groupId : ObjectId) (db : Db.t) : Prop :=
  Live.entries (Db.unsettledOf groupId db) <> 0%nat.

End Ledger.

(* ===================================================================== *)
(** * Vocabulary for the create handler *)
(* ===================================================================== *)

Module Creation.

(** The ids that the participants of a create request name, in order. *)
Definition participantIds (body : Routes.CreateBody.t) : list ObjectId :=
  map Routes.inputUser (Routes.CreateBody.participants body).

(** The document that the create handler builds before it saves it. *)
Definition built (userId newId : ObjectId) (group : Group.t) (body : Routes.CreateBody.t)
  : Expense.t :=
  Expense.mk newId
    (Expense.amountSetter (Routes.CreateBody.amount body))
    (Routes.CreateBody.paidBy body)
    (map Routes.inputParticipant (Routes.CreateBody.participants body))
    (Routes.CreateBody.group body)
    (match Routes.CreateBody.splitMethod body with
     | Some m => m
     | None => Settings.splitMethod (Group.settings group)
     end)
    false None [] userId [].

End Creation.


(* ===================================================================== *)
(** * Vocabulary of the membership properties *)
(* ===================================================================== *)

Module Roster.

(** The users of the member entries of a group, in order. *)
Definition memberIds (g : Group.t) : list ObjectId := map Member.user (Group.members g).

(** No user has two member entries, and every member has a balance row. *)
Definition wellFormed (g : Group.t) : Prop :=
  NoDup (memberIds g) /\
  forall u, In u (memberIds g) -> Balances.hasRow u (Group.balances g) = true.

Definition sound (db : Db.t) : Prop := forall g, In g (Db.groups db) -> wellFormed g.

(** The log entries of an addition followed by a removal. *)
Definition addedThenRemoved (g : Group.t) (userId removedBy : ObjectId) (role : Role)
  : list Activity.t :=
  [Activity.mk "MEMBER_ADDED" (Group.createdBy g) (Activity.MemberDetails userId (Some role));
   Activity.mk "MEMBER_REMOVED" removedBy (Activity.MemberDetails userId None)].

End Roster.

(* ===================================================================== *)
(** * Summaries ([models/Expense.js]) *)
(* ===================================================================== *)

Module Stats.

(** The accumulator of [getGroupSummary], without the breakdown by
    category. *)
Record t : Type := mk {
  totalAmount : Q;
  totalExpenses : nat;
  settledAmount : Q;
  settledExpenses : nat
}.

(** The reducer of [getGroupSummary]. *)
Definition add (acc : t) (expense : Expense.t) : t :=
  let acc :=
    mk (totalAmount acc + Expense.amount expense) (totalExpenses acc + 1)
       (settledAmount acc) (settledExpenses acc) in
  if Expense.settled expense then
    mk (totalAmount acc) (totalExpenses acc)
       (settledAmount acc + Expense.amount expense) (settledExpenses acc + 1)
  else acc.

(** [expenseSchema.statics.getGroupSummary]. *)
Definition getGroupSummary (groupId : ObjectId) (db : Db.t) : t :=
  fold_left add (Db.expensesOf groupId db) (mk 0 0 0 0).

End Stats.

(* ===================================================================== *)
(** * Scenario data *)
(* ===================================================================== *)

Module Scenario.

Definition A : ObjectId := "A".
Definition B : ObjectId := "B".
Definition C : ObjectId := "C".
Definition Z : ObjectId := "Z".
Definition G : ObjectId := "G".

Definition who (u : ObjectId) : Participant.t := Participant.mk u 0 equal.

Definition sharing (u : ObjectId) (s : Q) : Participant.t := Participant.mk u s exact.

(** An unsettled expense of group [G] created by its payer. *)
Definition expense (id : ObjectId) (amount : Q) (paidBy : ObjectId)
           (participants : list Participant.t) (m : SplitMethod) : Expense.t :=
  Expense.mk id amount paidBy participants G m false None [] paidBy [].

(** 100.00 split equally among three. *)
Definition hundredByThree : Expense.t := expense "e100" 100 A [who A; who B; who C] equal.

(** 50.00 with exact shares 20.00, 20.00, 9.99 (0.01 short) and
    20.00, 20.00, 9.98 (0.02 short). *)
Definition shortByOne : Expense.t :=
  expense "e50" 50 A [sharing A 20; sharing B 20; sharing C (999 # 100)] exact.

Definition shortByTwo : Expense.t :=
  expense "e50" 50 A [sharing A 20; sharing B 20; sharing C (998 # 100)] exact.

(** "dinner": 90.00 paid by [A], split equally among [A], [B] and [C], with
    the shares that [calculateShares] stored. *)
Definition dinner : Expense.t :=
  expense "dinner" 90 A
    [Participant.mk A 30 equal; Participant.mk B 30 equal; Participant.mk C 30 equal] equal.

(** 100.00 paid by [A] with the exact shares 70.00 for [A] and 30.00 for [B]. *)
Definition uneven : Expense.t := expense "uneven" 100 A [sharing A 70; sharing B 30] exact.

(** 10.00 paid by [A] for [A] and [Z], who is not a member of the group. *)
Definition withStranger : Expense.t :=
  expense "stranger" 10 A [Participant.mk A 5 equal; Participant.mk Z 5 equal] equal.


(** A settled expense of 90.00. *)
Definition settledDinner : Expense.t := Expense.setSettled true dinner.

Definition zeroRow (u : ObjectId) : Balance.t := Balance.mk u 0 [] [].

(** The rows of the three members, all at zero. *)
Definition rows : list Balance.t := [zeroRow A; zeroRow B; zeroRow C].

(** Group [G], created by [A], with the members [A], [B] and [C]. *)
Definition group (expenses : list Expense.t) : Group.t :=
  Group.mk G A
    [Member.mk A admin true; Member.mk B member true; Member.mk C member true]
    (map Expense._id expenses)
    (Settings.mk true equal)
    true
    (Num.sumOf Expense.amount expenses)
    (Num.sumOf Expense.amount (filter Expense.settled expenses))
    rows
    [].

Definition users : list User.t :=
  [User.mk A "a@example.org" [G]; User.mk B "b@example.org" [G];
   User.mk C "c@example.org" [G]; User.mk Z "z@example.org" []].

(** A store that holds group [G] and the given expenses. *)
Definition store (expenses : list Expense.t) : Db.t := Db.mk users [group expenses] expenses.

(** A table given as it is: [B] and [C] each owe [A] 30.00. *)
Definition owing : list Balance.t :=
  [Balance.mk A 60 [] [Owed.mk B 30; Owed.mk C 30];
   Balance.mk B (- 30) [Owes.mk A 30] [];
   Balance.mk C (- 30) [Owes.mk A 30] []].

(** Group [G] with that table. *)
Definition groupOwing : Group.t := Group.setBalances owing (group [dinner]).

(** A store that holds the dinner and group [G] with that table. *)
Definition storeOwing : Db.t := Db.mk users [groupOwing] [dinner].

(** ... once [A] has removed [B] from the group. *)
Definition afterRemoval : Db.t :=
  snd (Routes.handle storeOwing A (Routes.RemoveMember G B)).

(** The request that creates [uneven]: 100.00 paid by [A], exact shares
    70.00 for [A] and 30.00 for [B]. *)
Definition unevenBody : Routes.CreateBody.t :=
  Routes.CreateBody.mk 100 A
    [Routes.PObject A (Some 70) (Some exact); Routes.PObject B (Some 30) (Some exact)]
    G (Some exact).

(** The empty store of group [G], after [A] has created [uneven] ... *)
Definition afterUnevenCreated : Db.t :=
  snd (Routes.handle (store []) A (Routes.CreateExpense "uneven" unevenBody)).

(** ... and after [B] has then asked for the balances. *)
Definition afterUnevenRead : Db.t :=
  snd (Routes.handle afterUnevenCreated B (Routes.GetBalances G)).

(** [B] records a payment of 10.00 to [A] against the dinner. *)
Definition payTen : Routes.Request :=
  Routes.AddSettlement "dinner" B A 10 (Some upi) None.

End Scenario.

(* ===================================================================== *)
(** * Further scenario data *)
(* ===================================================================== *)

Module Cases.
Import Scenario.

(** The store after a save of the dinner without recalculation. *)
Definition savedDinner : Db.t :=
  ExpenseModel.postSave dinner (Db.writeExpense dinner (store [dinner])).

(** The store and the group after [Z] has been added to the empty group
    [G] as a member. *)
Definition addedZ : Db.t * Group.t :=
  match GroupModel.addMember (store []) (group []) Z member with
  | Ok r => r
  | Throw _ => (store [], group [])
  end.

(** The store and the dinner after a payment of 90.00 from [B] to [A]. *)
Definition dinnerPaidUp : Db.t * Expense.t :=
  match ExpenseModel.addSettlement (store [dinner]) dinner B A 90 cash None with
  | Ok r => r
  | Throw _ => (store [dinner], dinner)
  end.

(** An update of the dinner to 60.00 for the same three, and the store and
    the dinner after [A] has made it. *)
Definition cheaper : Updates.t :=
  Updates.mk 60 None [who A; who B; who C] None None None None None.

Definition dinnerEdited : Db.t * Expense.t :=
  match ExpenseModel.updateExpense (store [dinner]) dinner cheaper A with
  | Ok r => r
  | Throw _ => (store [dinner], dinner)
  end.

(** A snack of 0.80 paid by [A] for [A] and [B], with a payment of 0.10 on
    record. *)
Definition snack : Expense.t :=
  Expense.setSettlements [Settlement.mk B A (1 # 10) cash None]
    (expense "snack" (8 # 10) A
       [Participant.mk A (4 # 10) equal; Participant.mk B (4 # 10) equal] equal).

(** The store and the snack after a further payment of 0.70. *)
Definition snackPaid : Db.t * Expense.t :=
  match ExpenseModel.addSettlement (store [snack]) snack B A (7 # 10) cash None with
  | Ok r => r
  | Throw _ => (store [snack], snack)
  end.

(** A request for 100.01 with the exact shares 50.00 and 50.00: a deviation
    of 0.01. *)
Definition offByACent : Routes.CreateBody.t :=
  Routes.CreateBody.mk (10001 # 100) A
    [Routes.PObject A (Some 50) (Some exact); Routes.PObject B (Some 50) (Some exact)]
    G (Some exact).

(** The expense that the create handler builds from it for [A]. *)
Definition offByACentBuilt : Expense.t :=
  Creation.built A "cent" (group []) offByACent.

(** A store that a sequence of requests produces: [A] creates group [G],
    adds [B] and [C], and posts the dinner. *)
Definition dinnerBody : Routes.CreateBody.t :=
  Routes.CreateBody.mk 90 A [Routes.PId A; Routes.PId B; Routes.PId C] G None.

Definition requests : list (ObjectId * Routes.Request) :=
  [(A, Routes.CreateGroup G);
   (A, Routes.AddMember G "b@example.org" None);
   (A, Routes.AddMember G "c@example.org" None);
   (A, Routes.CreateExpense "dinner" dinnerBody)].

Definition registered : list User.t :=
  [User.mk A "a@example.org" []; User.mk B "b@example.org" [];
   User.mk C "c@example.org" []; User.mk Z "z@example.org" []].

Definition served : Db.t :=
  fold_left (fun db r => snd (Routes.handle db (fst r) (snd r))) requests
            (Db.mk registered [] []).

End Cases.

(* ===================================================================== *)
(** * Arithmetic of sums and rounding *)
(* ===================================================================== *)

Section Sums.
Context {A : Type} (f : A -> Q).

Lemma fold_sum_acc (xs : list A) (a : Q) :
  fold_left (fun sum x => sum + f x) xs a == a + Num.sumOf f xs.
Proof.
  unfold Num.sumOf. revert a.
  induction xs as [|x xs IH]; intros a; simpl.
  - ring.
  - rewrite IH, (IH (0 + f x)). ring.
Qed.

Lemma sumOf_nil : Num.sumOf f [] == 0.
Proof. reflexivity. Qed.

Lemma sumOf_cons (x : A) (xs : list A) : Num.sumOf f (x :: xs) == f x + Num.sumOf f xs.
Proof. unfold Num.sumOf at 1. simpl. rewrite fold_sum_acc. ring. Qed.

Lemma sumOf_app (xs ys : list A) : Num.sumOf f (xs ++ ys) == Num.sumOf f xs + Num.sumOf f ys.
Proof.
  induction xs as [|x xs IH]; simpl.
  - rewrite sumOf_nil. ring.
  - rewrite !sumOf_cons, IH. ring.
Qed.

Lemma sumOf_perm (xs ys : list A) : Permutation xs ys -> Num.sumOf f xs == Num.sumOf f ys.
Proof.
  induction 1 as [|x xs ys _ IH|x y xs|xs ys zs _ IH1 _ IH2].
  - reflexivity.
  - rewrite !sumOf_cons, IH. reflexivity.
  - rewrite !sumOf_cons. ring.
  - rewrite IH1. exact IH2.
Qed.

End Sums.

Lemma sumOf_const {A : Type} (f : A -> Q) (c : Q) (xs : list A) :
  (forall x, In x xs -> f x == c) ->
  Num.sumOf f xs == inject_Z (Z.of_nat (List.length xs)) * c.
Proof.
  induction xs as [|x xs IH]; intros H.
  - rewrite sumOf_nil. simpl. ring.
  - rewrite sumOf_cons, IH by (intros; apply H; now right).
    rewrite (H x) by now left.
    cbn [List.length]. rewrite Nat2Z.inj_succ. unfold Z.succ.
    rewrite inject_Z_plus. ring.
Qed.

Lemma find_append {A : Type} (f : A -> bool) (xs ys : list A) :
  find f (xs ++ ys) = match find f xs with Some x => Some x | None => find f ys end.
Proof.
  induction xs as [|x xs IH]; simpl; [reflexivity|].
  destruct (f x); [reflexivity | exact IH].
Qed.


Lemma geb_true (a b : Q) : Num.geb a b = true <-> b <= a.
Proof. unfold Num.geb. apply Qle_bool_iff. Qed.

(** [Math.round] is within one half of its argument. *)
Lemma round_bounds (x : Q) : x - (1 # 2) < inject_Z (Num.round x) /\ inject_Z (Num.round x) <= x + (1 # 2).
Proof.
  unfold Num.round. split.
  - pose proof (Qlt_floor (x + (1 # 2))) as H.
    rewrite inject_Z_plus in H. change (inject_Z 1) with 1 in H. lra.
  - apply Qfloor_le.
Qed.

(** Rounding to minor units moves a number by at most half a minor unit. *)
Lemma round2_close (x : Q) : Qabs (Num.round2 x - x) <= 1 # 200.
Proof.
  unfold Num.round2.
  destruct (round_bounds (x * 100)) as [Hlo Hhi].
  set (k := inject_Z (Num.round (x * 100))) in *.
  assert (E : k / 100 == k * (1 # 100)) by (field; discriminate).
  rewrite E.
  apply Qabs_Qle_condition. split; lra.
Qed.

(* ===================================================================== *)
(** * The split calculator ([calculateShares]) *)
(* ===================================================================== *)

Lemma calculateShares_empty (e : Expense.t) :
  Expense.participants e = [] ->
  Expense.calculateShares e = Throw "No participants found for expense".
Proof. intros H. unfold Expense.calculateShares. rewrite H. reflexivity. Qed.

Lemma length_nonzero {A : Type} (xs : list A) : xs <> [] -> Nat.eqb (List.length xs) 0 = false.
Proof. destruct xs; [congruence | reflexivity]. Qed.

Lemma calculateShares_equal (e : Expense.t) :
  Expense.splitMethod e = equal ->
  Expense.participants e <> [] ->
  Expense.calculateShares e =
  Ok (Expense.setParticipants
        (map (fun p =>
                Participant.mk (Participant.user p)
                  (Num.round2
                     (Expense.amount e
                      / inject_Z (Z.of_nat (List.length (Expense.participants e)))))
                  equal)
             (Expense.participants e)) e).
Proof.
  intros Hm Hne. unfold Expense.calculateShares.
  rewrite (length_nonzero _ Hne), Hm. reflexivity.
Qed.


Lemma calculateShares_exact (e : Expense.t) :
  Expense.splitMethod e = exact ->
  Expense.participants e <> [] ->
  Expense.calculateShares e =
  if Ieee.offBy (Ieee.sumOf Participant.share (Expense.participants e)) (Expense.amount e)
  then Throw "Exact shares do not match the total amount"
  else Ok e.
Proof.
  intros Hm Hne. unfold Expense.calculateShares.
  rewrite (length_nonzero _ Hne), Hm. reflexivity.
Qed.

(** C3, the claim as stated fails: 100.00 split equally among three gives
    three shares of 33.33, which sum to 99.99. *)
Lemma C3_equal_split_loses_a_cent :
  Expense.splitMethod Scenario.hundredByThree = equal /\
  Expense.participants Scenario.hundredByThree <> [] /\
  exists e',
    Expense.calculateShares Scenario.hundredByThree = Ok e' /\
    map Participant.share (Expense.participants e')
      = [Num.round2 (100 / 3); Num.round2 (100 / 3); Num.round2 (100 / 3)] /\
    Num.round2 (100 / 3) == 3333 # 100 /\
    Expense.totalShare e' == 9999 # 100 /\
    ~ Expense.totalShare e' == Expense.amount Scenario.hundredByThree.
Proof.
  split; [reflexivity|]. split; [discriminate|].
  eexists. split; [reflexivity|].
  split; [reflexivity|]. split; [reflexivity|]. split; [reflexivity|].
  intros H. vm_compute in H. discriminate.
Qed.

(** C3, as the code has it: an equal split of a non-empty participant list
    succeeds, keeps the participants and the amount, gives every participant
    the same share [round2 (amount / n)], and the shares sum to the amount up
    to half a minor unit per participant; nothing is added to the last
    share. *)
Theorem C3_equal_split_shares (e : Expense.t) :
  Expense.splitMethod e = equal ->
  Expense.participants e <> [] ->
  let n := inject_Z (Z.of_nat (List.length (Expense.participants e))) in
  exists e',
    Expense.calculateShares e = Ok e' /\
    Expense.amount e' = Expense.amount e /\
    map Participant.user (Expense.participants e')
      = map Participant.user (Expense.participants e) /\
    (forall p, In p (Expense.participants e') ->
               Participant.share p = Num.round2 (Expense.amount e / n)) /\
    Expense.totalShare e' == n * Num.round2 (Expense.amount e / n) /\
    Qabs (Expense.totalShare e' - Expense.amount e) <= n * (1 # 200).
Proof.
  intros Hm Hne n.
  rewrite (calculateShares_equal e Hm Hne). fold n.
  eexists. split; [reflexivity|].
  split; [reflexivity|].
  cbn [Expense.setParticipants Expense.participants Expense.totalShare].
  split.
  { rewrite map_map. reflexivity. }
  assert (Hall : forall p,
             In p (map (fun p => Participant.mk (Participant.user p)
                                   (Num.round2 (Expense.amount e / n)) equal)
                       (Expense.participants e)) ->
             Participant.share p = Num.round2 (Expense.amount e / n)).
  { intros p Hp. apply in_map_iff in Hp. destruct Hp as [q [<- _]]. reflexivity. }
  split; [exact Hall|].
  assert (Hsum : Expense.totalShare
                   (Expense.setParticipants
                      (map (fun p => Participant.mk (Participant.user p)
                                       (Num.round2 (Expense.amount e / n)) equal)
                           (Expense.participants e)) e)
                 == n * Num.round2 (Expense.amount e / n)).
  { unfold Expense.totalShare. cbn [Expense.setParticipants Expense.participants].
    rewrite (sumOf_const Participant.share (Num.round2 (Expense.amount e / n))).
    - rewrite length_map. reflexivity.
    - intros p Hp. rewrite (Hall p Hp). reflexivity. }
  split; [exact Hsum|].
  rewrite Hsum.
  assert (Hn : 0 < n).
  { unfold n. change 0 with (inject_Z 0). rewrite <- Zlt_Qlt.
    destruct (Expense.participants e); [congruence|]. cbn [List.length]. lia. }
  assert (Hsplit : Expense.amount e == n * (Expense.amount e / n)).
  { field. intros Hz. rewrite Hz in Hn. discriminate. }
  rewrite Hsplit at 2.
  assert (Hfac : n * Num.round2 (Expense.amount e / n) - n * (Expense.amount e / n)
                 == n * (Num.round2 (Expense.amount e / n) - Expense.amount e / n)) by ring.
  rewrite Hfac, Qabs_Qmult, (Qabs_pos n) by (apply Qlt_le_weak; exact Hn).
  apply Qmult_le_l; [exact Hn|]. apply round2_close.
Qed.

Lemma C3_equal_split_shares_witness :
  exists e',
    Expense.calculateShares Scenario.hundredByThree = Ok e' /\
    Qabs (Expense.totalShare e' - 100) <= 3 * (1 # 200).
Proof.
  destruct (C3_equal_split_shares Scenario.hundredByThree eq_refl)
    as [e' [Hok [_ [_ [_ [_ Hb]]]]]].
  - discriminate.
  - exists e'. split; [exact Hok | exact Hb].
Defined.

(** A handler answers every refusal and every thrown error with the store
    it was given. *)
Ltac handler_cases :=
  repeat match goal with
         | |- context [match ?x with _ => _ end] =>
             match type of x with
             | bool => destruct x
             | option _ => destruct x
             | Result _ => destruct x
             | prod _ _ => destruct x
             end
         end.

Lemma createExpense_error_keeps_store db userId newId body :
  Response.isError (fst (Routes.createExpense db userId newId body)) = true ->
  snd (Routes.createExpense db userId newId body) = db.
Proof.
  unfold Routes.createExpense. cbv zeta.
  handler_cases; cbn; intros; try reflexivity; discriminate.
Qed.

Lemma updateExpense_error_keeps_store db userId expenseId updates :
  Response.isError (fst (Routes.updateExpense db userId expenseId updates)) = true ->
  snd (Routes.updateExpense db userId expenseId updates) = db.
Proof.
  unfold Routes.updateExpense. cbv zeta.
  handler_cases; cbn; intros; try reflexivity; discriminate.
Qed.

Lemma save_throws db (e : Expense.t) (m : string) :
  Expense.calculateShares e = Throw m -> ExpenseModel.save db true e = Throw m.
Proof. intros H. unfold ExpenseModel.save, ExpenseModel.preSave. rewrite H. reflexivity. Qed.

(** C4, at the failing input.  [A] posts an expense of 100.01 with the
    exact shares 50.00 and 50.00: the shares deviate from the amount by
    exactly 0.01, the tolerance.  In doubles [Math.abs(100 - 100.01)] is
    above [0.01], so [calculateShares] throws "Exact shares do not match
    the total amount", the handler answers 500 and the store is as it was.
    The example of the specification, 50.00 against 20.00, 20.00 and 9.99,
    deviates by 0.01 as well and passes; 9.98 in the place of 9.99 is
    refused. *)
Theorem C4_deviation_of_a_cent_refused :
  Expense.splitMethod Cases.offByACentBuilt = exact /\
  Expense.amount Cases.offByACentBuilt == 10001 # 100 /\
  Qabs (Expense.totalShare Cases.offByACentBuilt - Expense.amount Cases.offByACentBuilt)
  == 1 # 100 /\
  Expense.calculateShares Cases.offByACentBuilt
  = Throw "Exact shares do not match the total amount" /\
  Routes.createExpense (Scenario.store []) Scenario.A "cent" Cases.offByACent
  = (Response.json 500 "Server error", Scenario.store []) /\
  Qabs (Expense.totalShare Scenario.shortByOne - Expense.amount Scenario.shortByOne)
  == 1 # 100 /\
  Expense.calculateShares Scenario.shortByOne = Ok Scenario.shortByOne /\
  Expense.calculateShares Scenario.shortByTwo
  = Throw "Exact shares do not match the total amount".
Proof.
  split; [reflexivity|]. split; [reflexivity|]. split; [reflexivity|].
  split; [vm_compute; reflexivity|]. split; [vm_compute; reflexivity|].
  split; [reflexivity|]. split; vm_compute; reflexivity.
Qed.

(* ===================================================================== *)
(** * The balance table *)
(* ===================================================================== *)

Module BalancesFacts.
Import Balances.

Lemma idEq_eq (a b : ObjectId) : idEq a b = true <-> a = b.
Proof. apply String.eqb_eq. Qed.

Lemma idEq_refl (a : ObjectId) : idEq a a = true.
Proof. apply String.eqb_refl. Qed.

Lemma idEq_neq (a b : ObjectId) : idEq a b = false <-> a <> b.
Proof. apply String.eqb_neq. Qed.

Lemma idEq_sym (a b : ObjectId) : idEq a b = idEq b a.
Proof. apply String.eqb_sym. Qed.

Ltac ids :=
  repeat match goal with
         | H : idEq _ _ = true |- _ => apply idEq_eq in H
         | H : idEq _ _ = false |- _ => apply idEq_neq in H
         | H : negb _ = true |- _ => apply negb_true_iff in H
         | H : negb _ = false |- _ => apply negb_false_iff in H
         end.


(** ** Rows *)

Lemma findRow_app (id : ObjectId) (xs ys : list Balance.t) :
  findRow id (xs ++ ys)
  = match findRow id xs with Some b => Some b | None => findRow id ys end.
Proof.
  unfold findRow. induction xs as [|b xs IH]; simpl; [reflexivity|].
  destruct (idEq (Balance.user b) id); [reflexivity | exact IH].
Qed.

Lemma findRow_user (id : ObjectId) (bs : list Balance.t) (b : Balance.t) :
  findRow id bs = Some b -> Balance.user b = id.
Proof.
  unfold findRow. intros H. apply find_some in H. destruct H as [_ H].
  now apply idEq_eq.
Qed.


Lemma hasRow_app (id : ObjectId) (xs ys : list Balance.t) :
  hasRow id (xs ++ ys) = hasRow id xs || hasRow id ys.
Proof.
  unfold hasRow. rewrite findRow_app. destruct (findRow id xs); reflexivity.
Qed.

(** ** The sum of the net balances *)

Lemma total_app (xs ys : list Balance.t) : total (xs ++ ys) == total xs + total ys.
Proof. apply sumOf_app. Qed.

Lemma total_cons (b : Balance.t) (bs : list Balance.t) :
  total (b :: bs) == Balance.balance b + total bs.
Proof. apply sumOf_cons. Qed.

Lemma total_reset (bs : list Balance.t) : total (reset bs) == 0.
Proof.
  induction bs as [|b bs IH]; [apply sumOf_nil|].
  cbn [reset map]. rewrite total_cons. cbn [Balance.balance].
  unfold reset in IH. rewrite IH. ring.
Qed.

End BalancesFacts.

(* ===================================================================== *)
(** * Removing a member ([removeMember]) *)
(* ===================================================================== *)

Module RemovalFacts.
Import Balances BalancesFacts.

Lemma purge_stripped (userId : ObjectId) (bs : list Balance.t) :
  purge userId bs
  = map (Ledger.stripped userId) (filter (fun b => negb (idEq (Balance.user b) userId)) bs).
Proof. reflexivity. Qed.

Lemma findRow_purge (u userId : ObjectId) (bs : list Balance.t) :
  findRow u (purge userId bs)
  = if idEq u userId then None else option_map (Ledger.stripped userId) (findRow u bs).
Proof.
  rewrite purge_stripped. unfold findRow.
  induction bs as [|b bs IH]; simpl.
  - destruct (idEq u userId); reflexivity.
  - destruct (idEq (Balance.user b) userId) eqn:Eb; simpl.
    + rewrite IH. destruct (idEq u userId) eqn:Eu; [reflexivity|].
      destruct (idEq (Balance.user b) u) eqn:E; [|reflexivity]. ids. congruence.
    + destruct (idEq (Balance.user b) u) eqn:E.
      * destruct (idEq u userId) eqn:Eu; [|reflexivity]. ids. congruence.
      * exact IH.
Qed.

Lemma findOwes_filter (v userId : ObjectId) (owes : list Owes.t) :
  findOwes v (filter (fun owe => negb (idEq (Owes.to owe) userId)) owes)
  = if idEq v userId then None else findOwes v owes.
Proof.
  unfold findOwes. induction owes as [|o owes IH]; simpl.
  - destruct (idEq v userId); reflexivity.
  - destruct (idEq (Owes.to o) userId) eqn:Eo; simpl.
    + rewrite IH. destruct (idEq v userId) eqn:Ev; [reflexivity|].
      destruct (idEq (Owes.to o) v) eqn:E; [|reflexivity]. ids. congruence.
    + destruct (idEq (Owes.to o) v) eqn:E.
      * destruct (idEq v userId) eqn:Ev; [|reflexivity]. ids. congruence.
      * exact IH.
Qed.

Lemma findOwed_filter (v userId : ObjectId) (owed : list Owed.t) :
  findOwed v (filter (fun o => negb (idEq (Owed.from o) userId)) owed)
  = if idEq v userId then None else findOwed v owed.
Proof.
  unfold findOwed. induction owed as [|o owed IH]; simpl.
  - destruct (idEq v userId); reflexivity.
  - destruct (idEq (Owed.from o) userId) eqn:Eo; simpl.
    + rewrite IH. destruct (idEq v userId) eqn:Ev; [reflexivity|].
      destruct (idEq (Owed.from o) v) eqn:E; [|reflexivity]. ids. congruence.
    + destruct (idEq (Owed.from o) v) eqn:E.
      * destruct (idEq v userId) eqn:Ev; [|reflexivity]. ids. congruence.
      * exact IH.
Qed.

Lemma hasRow_purge (u userId : ObjectId) (bs : list Balance.t) :
  hasRow u (purge userId bs) = negb (idEq u userId) && hasRow u bs.
Proof.
  unfold hasRow. rewrite findRow_purge.
  destruct (idEq u userId); [reflexivity|]. destruct (findRow u bs); reflexivity.
Qed.

(** The stored net balance of every other member is what it was. *)
Lemma net_purge (u userId : ObjectId) (bs : list Balance.t) :
  u <> userId -> net u (purge userId bs) = net u bs.
Proof.
  intros H. apply idEq_neq in H. unfold net. rewrite findRow_purge, H.
  destruct (findRow u bs); reflexivity.
Qed.

Lemma debt_purge (u v userId : ObjectId) (bs : list Balance.t) :
  debt u v (purge userId bs)
  = if idEq u userId || idEq v userId then None else debt u v bs.
Proof.
  unfold debt. rewrite findRow_purge.
  destruct (idEq u userId); [reflexivity|]. cbn [orb].
  destruct (findRow u bs) as [b|]; cbn [option_map Ledger.stripped Balance.owes].
  - rewrite findOwes_filter. destruct (idEq v userId); reflexivity.
  - destruct (idEq v userId); reflexivity.
Qed.

Lemma credit_purge (u v userId : ObjectId) (bs : list Balance.t) :
  credit u v (purge userId bs)
  = if idEq u userId || idEq v userId then None else credit u v bs.
Proof.
  unfold credit. rewrite findRow_purge.
  destruct (idEq u userId); [reflexivity|]. cbn [orb].
  destruct (findRow u bs) as [b|]; cbn [option_map Ledger.stripped Balance.owed].
  - rewrite findOwed_filter. destruct (idEq v userId); reflexivity.
  - destruct (idEq v userId); reflexivity.
Qed.

(** No row and no edge of the purged table mentions the removed user. *)
Lemma purge_mentions (userId : ObjectId) (bs : list Balance.t) (b : Balance.t) :
  In b (purge userId bs) ->
  Balance.user b <> userId /\
  (forall owe, In owe (Balance.owes b) -> Owes.to owe <> userId) /\
  (forall o, In o (Balance.owed b) -> Owed.from o <> userId).
Proof.
  rewrite purge_stripped. intros H. apply in_map_iff in H.
  destruct H as [b0 [<- H]]. apply filter_In in H. destruct H as [_ H].
  apply negb_true_iff, idEq_neq in H.
  split; [exact H|]. cbn [Ledger.stripped Balance.owes Balance.owed].
  split; intros e He; apply filter_In in He; destruct He as [_ He];
    now apply negb_true_iff, idEq_neq in He.
Qed.

(** The sum of the net balances drops by what the removed rows held. *)
Lemma total_purge (userId : ObjectId) (bs : list Balance.t) :
  total (purge userId bs)
  == total bs - Num.sumOf Balance.balance (filter (fun b => idEq (Balance.user b) userId) bs).
Proof.
  rewrite purge_stripped. unfold total.
  induction bs as [|b bs IH]; simpl.
  - rewrite sumOf_nil. ring.
  - destruct (idEq (Balance.user b) userId); simpl.
    + rewrite !sumOf_cons, IH. ring.
    + rewrite !sumOf_cons, IH. simpl. ring.
Qed.

Lemma findGroup_putGroup (g : Group.t) (gs : list Group.t) :
  find (fun x => idEq (Group._id x) (Group._id g)) (Db.putGroup g gs) = Some g.
Proof.
  induction gs as [|x gs IH]; simpl.
  - now rewrite idEq_refl.
  - destruct (idEq (Group._id x) (Group._id g)) eqn:E; simpl.
    + now rewrite idEq_refl.
    + rewrite E. exact IH.
Qed.

Lemma findGroup_saveGroup (g : Group.t) (db : Db.t) :
  Db.findGroup (Group._id g) (Db.saveGroup g db) = Some g.
Proof. unfold Db.findGroup, Db.saveGroup. simpl. apply findGroup_putGroup. Qed.

End RemovalFacts.

(** C9, the claim as stated fails.  In the table given, [B] owes [A]
    30.00 and [A]'s net balance is 60.00; [A] removes [B]; [A]'s stored net
    balance still is 60.00, it has not decreased by 30.00. *)
Lemma C9_counterparty_net_balance_unchanged :
  Balances.debt Scenario.B Scenario.A (Ledger.balancesOf Scenario.G Scenario.storeOwing)
    = Some 30 /\
  fst (Routes.handle Scenario.storeOwing Scenario.A
         (Routes.RemoveMember Scenario.G Scenario.B))
    = Response.json 200 "Member removed successfully" /\
  Balances.net Scenario.A (Ledger.balancesOf Scenario.G Scenario.storeOwing) == 60 /\
  Balances.net Scenario.A (Ledger.balancesOf Scenario.G Scenario.afterRemoval) == 60 /\
  ~ Balances.net Scenario.A (Ledger.balancesOf Scenario.G Scenario.afterRemoval)
    == Balances.net Scenario.A (Ledger.balancesOf Scenario.G Scenario.storeOwing) - 30.
Proof.
  split; [vm_compute; reflexivity|]. split; [vm_compute; reflexivity|].
  split; [vm_compute; reflexivity|]. split; [vm_compute; reflexivity|].
  intros H. vm_compute in H. discriminate.
Qed.

(** C9, as the code has it: removing a member deletes the member's balance
    row and every owes/owed entry that refers to the member; every other
    row keeps its stored net balance and its other entries, so nothing is
    redistributed and no net balance is adjusted. *)
Theorem C9_removal_purges_row_and_edges
        (db : Db.t) (this : Group.t) (userId removedBy : ObjectId) :
  Group.findMember userId this <> None ->
  exists db' this',
    GroupModel.removeMember db this userId removedBy = Ok (db', this') /\
    Db.findGroup (Group._id this) db' = Some this' /\
    Group.balances this' = Balances.purge userId (Group.balances this) /\
    Balances.hasRow userId (Group.balances this') = false /\
    (forall b, In b (Group.balances this') ->
       Balance.user b <> userId /\
       (forall owe, In owe (Balance.owes b) -> Owes.to owe <> userId) /\
       (forall o, In o (Balance.owed b) -> Owed.from o <> userId)) /\
    (forall u, u <> userId ->
       Balances.hasRow u (Group.balances this') = Balances.hasRow u (Group.balances this) /\
       Balances.net u (Group.balances this') = Balances.net u (Group.balances this)) /\
    (forall u v, u <> userId -> v <> userId ->
       Balances.debt u v (Group.balances this') = Balances.debt u v (Group.balances this) /\
       Balances.credit u v (Group.balances this') = Balances.credit u v (Group.balances this)).
Proof.
  intros Hm. unfold GroupModel.removeMember. unfold Group.findMember in Hm.
  destruct (find (fun m => idEq (Member.user m) userId) (Group.members this)); [|congruence].
  eexists. eexists. split; [reflexivity|].
  split; [exact (RemovalFacts.findGroup_saveGroup _ _)|].
  cbn [Group.balances Group.setActivityLog Group.setBalances].
  split; [reflexivity|].
  split.
  { rewrite RemovalFacts.hasRow_purge, BalancesFacts.idEq_refl. reflexivity. }
  split; [intros b; apply RemovalFacts.purge_mentions|].
  split.
  - intros u Hu. split.
    + rewrite RemovalFacts.hasRow_purge.
      apply BalancesFacts.idEq_neq in Hu. now rewrite Hu.
    + now apply RemovalFacts.net_purge.
  - intros u v Hu Hv. apply BalancesFacts.idEq_neq in Hu, Hv.
    rewrite RemovalFacts.debt_purge, RemovalFacts.credit_purge, Hu, Hv. split; reflexivity.
Qed.


Lemma C9_removal_purges_row_and_edges_witness :
  exists db' this',
    GroupModel.removeMember Scenario.storeOwing Scenario.groupOwing Scenario.B Scenario.A
    = Ok (db', this') /\
    Balances.hasRow Scenario.B (Group.balances this') = false.
Proof.
  destruct (C9_removal_purges_row_and_edges Scenario.storeOwing
              Scenario.groupOwing Scenario.B Scenario.A)
    as [db' [this' [H1 [_ [_ [H2 _]]]]]].
  - discriminate.
  - exists db', this'. split; [exact H1 | exact H2].
Defined.

(* ===================================================================== *)
(** * Recomputing the balances ([calculateBalances]) *)
(* ===================================================================== *)

Module LiveFacts.
Import Live.

Lemma forEach_app {A S : Type} (f : S -> A -> Result S) (xs ys : list A) (s : S) :
  forEach f (xs ++ ys) s = (s' <- forEach f xs s ;; forEach f ys s').
Proof.
  revert s. induction xs as [|x xs IH]; intros s; cbn [forEach app bind]; [reflexivity|].
  destruct (f s x) as [s1|m]; cbn [bind]; [apply IH | reflexivity].
Qed.

(** ** The loops as a sequence of steps *)

Lemma perExpense_steps (balances : list Row) (expense : Expense.t) :
  perExpense balances expense = forEach step (stepsOf expense) balances.
Proof.
  unfold perExpense, stepsOf. cbv zeta.
  generalize (Expense.amount expense
              / inject_Z (Z.of_nat (List.length (Expense.participants expense)))) as s.
  generalize (Js.Hex (Expense.paidBy expense)) as p.
  intros p s. revert balances.
  induction (participantStrings expense) as [|q qs IH]; intros balances; [reflexivity|].
  cbn [forEach map]. unfold step at 1. cbn [fst snd].
  destruct (perParticipant p s balances q) as [b1|m]; cbn [bind]; [apply IH | reflexivity].
Qed.

Lemma loops_steps (expenses : list Expense.t) (balances : list Row) :
  forEach perExpense expenses balances
  = forEach step (flat_map stepsOf expenses) balances.
Proof.
  revert balances. induction expenses as [|e es IH]; intros balances; [reflexivity|].
  cbn [forEach flat_map]. rewrite forEach_app, perExpense_steps.
  destruct (forEach step (stepsOf e) balances) as [b1|m]; cbn [bind]; [apply IH | reflexivity].
Qed.

Lemma steps_shaped (expenses : list Expense.t) :
  Forall shaped (flat_map stepsOf expenses).
Proof.
  apply Forall_forall. intros x Hx. apply in_flat_map in Hx.
  destruct Hx as [e [_ Hx]]. unfold stepsOf, participantStrings in Hx.
  apply in_map_iff in Hx. destruct Hx as [q [<- Hq]].
  apply in_map_iff in Hq. destruct Hq as [i [<- _]]. exact I.
Qed.

Lemma steps_length (expenses : list Expense.t) :
  List.length (flat_map stepsOf expenses) = entries expenses.
Proof.
  unfold entries. induction expenses as [|e es IH]; [reflexivity|].
  cbn [flat_map]. rewrite !length_app, IH. f_equal.
  unfold stepsOf, participantStrings. now rewrite !length_map, length_seq.
Qed.

(** ** Looking for a row *)

Lemma firstThrow_app (xs ys : list Row) :
  firstThrow (xs ++ ys)
  = match firstThrow xs with Some m => Some m | None => firstThrow ys end.
Proof.
  induction xs as [|b xs IH]; [reflexivity|].
  cbn [app firstThrow]. destruct (Js.toString (user b)); [exact IH | reflexivity].
Qed.

Lemma firstThrow_users (xs ys : list Row) :
  map user xs = map user ys -> firstThrow xs = firstThrow ys.
Proof.
  revert ys. induction xs as [|b xs IH]; intros [|c ys] H; try discriminate; [reflexivity|].
  cbn [map] in H. injection H as Hu Hr. cbn [firstThrow]. rewrite Hu.
  destruct (Js.toString (user c)); [now apply IH | reflexivity].
Qed.

Lemma users_updateAt (i : nat) (f : Row -> Row) (balances : list Row) :
  (forall b, user (f b) = user b) ->
  map user (updateAt i f balances) = map user balances.
Proof.
  intros Hf. revert i. induction balances as [|b bs IH]; intros i; [now destruct i|].
  destruct i; cbn [updateAt map]; [now rewrite Hf | now rewrite IH].
Qed.

(** No row is the row of a participant's string: the search runs over the
    whole table, and throws at the first row whose user has no string. *)
Lemma find_participant (e : ObjectId) (i : nat) (balances : list Row) :
  Js.find (userIs (Js.ParticipantText e i)) balances
  = match firstThrow balances with Some m => Throw m | None => Ok None end.
Proof.
  induction balances as [|b bs IH]; [reflexivity|].
  cbn [Js.find firstThrow]. unfold userIs at 1.
  destruct (user b); cbn [Js.toString bind Js.strEq]; try reflexivity;
    rewrite IH; destruct (firstThrow bs); reflexivity.
Qed.

(** The search for the payer's row ends with a row, with no row, or with
    the error of the first row whose user has no string. *)
Lemma find_payer (p : ObjectId) (balances : list Row) :
  match Js.find (userIs (Js.Hex p)) balances with
  | Ok (Some i) => nth_error balances i <> None
  | Ok None => firstThrow balances = None
  | Throw m => firstThrow balances = Some m
  end.
Proof.
  induction balances as [|b bs IH]; [reflexivity|].
  cbn [Js.find firstThrow]. unfold userIs at 1.
  destruct (user b) as [id|id|id|]; cbn [Js.toString bind Js.strEq]; try reflexivity.
  - destruct (idEq id p); [discriminate|].
    destruct (Js.find (userIs (Js.Hex p)) bs) as [[i|]|m]; cbn [bind option_map]; exact IH.
  - destruct (Js.find (userIs (Js.Hex p)) bs) as [[i|]|m]; cbn [bind option_map]; exact IH.
Qed.

(** ** Saving the table *)

Lemma mapM_message {A B : Type} (f : A -> Result B) (c : string) (xs : list A) (m : string) :
  (forall x m', f x = Throw m' -> m' = c) -> mapM f xs = Throw m -> m = c.
Proof.
  intros Hf. induction xs as [|x xs IH]; [discriminate|].
  cbn [mapM]. destruct (f x) as [y|m'] eqn:E; cbn [bind].
  - destruct (mapM f xs) as [ys|m'']; cbn [bind]; [discriminate|].
    intros H. injection H as <-. now apply IH.
  - intros H. injection H as <-. now apply (Hf x).
Qed.

Lemma storedId_message (r : Js.Ref) (m : string) : storedId r = Throw m -> m = castFailed.
Proof. destruct r; [discriminate..|]. intros H. now injection H. Qed.

Lemma storedRow_message (b : Row) (m : string) : storedRow b = Throw m -> m = castFailed.
Proof.
  unfold storedRow.
  destruct (storedId (user b)) as [u|m1] eqn:E1; cbn [bind].
  2:{ intros H. injection H as <-. now apply (storedId_message (user b)). }
  destruct (mapM _ (owes b)) as [os|m2] eqn:E2; cbn [bind].
  2:{ intros H. injection H as <-. revert E2. apply mapM_message.
      intros x m'. destruct (storedId (to x)) eqn:E; cbn [bind]; [discriminate|].
      intros H. injection H as <-. now apply (storedId_message (to x)). }
  destruct (mapM _ (owed b)) as [ds|m3] eqn:E3; cbn [bind]; [discriminate|].
  intros H. injection H as <-. revert E3. apply mapM_message.
  intros x m'. destruct (storedId (from x)) eqn:E; cbn [bind]; [discriminate|].
  intros H. injection H as <-. now apply (storedId_message (from x)).
Qed.

(** [save] is rejected as soon as a row has a user that did not cast. *)
Lemma stored_rejected (balances : list Row) :
  In Js.Undefined (map user balances) -> stored balances = Throw castFailed.
Proof.
  unfold stored. induction balances as [|b bs IH]; [intros []|].
  cbn [map mapM]. intros [Hb|Hin].
  - unfold storedRow at 1. rewrite Hb. reflexivity.
  - destruct (storedRow b) as [y|m] eqn:E; cbn [bind].
    + rewrite (IH Hin). reflexivity.
    + now rewrite (storedRow_message b m E).
Qed.

Lemma stored_reset_loaded (bs : list Balance.t) :
  stored (map reset (map load bs)) = Ok (Balances.reset bs).
Proof.
  unfold stored. induction bs as [|b bs IH]; [reflexivity|].
  cbn [map mapM Balances.reset]. unfold Balances.reset in IH. rewrite IH. reflexivity.
Qed.

Lemma stored_reset_populated (db : Db.t) (bs : list Balance.t) :
  stored (map reset (map (populate db) (map load bs))) = Ok (Balances.reset bs).
Proof.
  unfold stored. induction bs as [|b bs IH]; [reflexivity|].
  cbn [map mapM Balances.reset]. unfold Balances.reset in IH. rewrite IH.
  unfold populate, load, reset, storedRow. cbn [user balance owes owed].
  destruct (Db.findUser (Balance.user b) db); reflexivity.
Qed.

(** ** A step *)

(** On a table with a row whose user has no string, a step throws. *)
Lemma step_thrown (balances : list Row) (x : Js.Str * Q * Js.Str) (m : string) :
  shaped x -> firstThrow balances = Some m -> step balances x = Throw m.
Proof.
  destruct x as [[[p| |] s] [| |e i]]; try contradiction. intros _ Hm.
  unfold step, perParticipant. cbn [fst snd Js.strEq negb].
  pose proof (find_payer p balances) as Hp.
  destruct (Js.find (userIs (Js.Hex p)) balances) as [[j|]|m']; cbn [bind].
  - rewrite find_participant, Hm. reflexivity.
  - congruence.
  - congruence.
Qed.

(** On a table of rows without entries whose users all have a string, a
    step goes through and leaves a row whose user did not cast. *)
Lemma step_taints (balances : list Row) (x : Js.Str * Q * Js.Str) :
  shaped x -> firstThrow balances = None -> Forall bare balances ->
  exists balances',
    step balances x = Ok balances' /\
    firstThrow balances' = Some Js.ofUndefined /\
    stored balances' = Throw castFailed.
Proof.
  destruct x as [[[p| |] s] [| |e i]]; try contradiction. intros _ Hn Hbare.
  unfold step, perParticipant. cbn [fst snd Js.strEq negb].
  pose proof (find_payer p balances) as Hp.
  rewrite find_participant, Hn.
  destruct (Js.find (userIs (Js.Hex p)) balances) as [[j|]|m']; cbn [bind]; [| |congruence].
  - (* the payer has a row *)
    cbn [pushIfMissing addToBalance recordOwes].
    set (t1 := balances ++ [pushed (Js.ParticipantText e i)]).
    set (t2 := updateAt j _ t1).
    assert (Hu2 : map user t2 = map user t1)
      by (apply users_updateAt; intros b; reflexivity).
    unfold recordOwed. cbn [bind].
    destruct (nth_error t2 j) as [b|] eqn:Ej.
    + assert (Hb : owed b = []).
      { unfold t2 in Ej. clear Hu2 t2.
        assert (Hj : exists b0, nth_error balances j = Some b0)
          by (destruct (nth_error balances j) as [b0|]; [now exists b0 | congruence]).
        destruct Hj as [b0 Hb0].
        assert (H0 : bare b0).
        { rewrite Forall_forall in Hbare. apply Hbare. now apply nth_error_In in Hb0. }
        assert (Ht : nth_error t1 j = Some b0).
        { unfold t1. rewrite nth_error_app1; [exact Hb0|].
          apply nth_error_Some. congruence. }
        clear -Ej Ht H0. revert j Ej Ht. induction t1 as [|c t IH]; intros j Ej Ht.
        - destruct j; discriminate.
        - destruct j; cbn [updateAt nth_error] in *.
          + injection Ht as ->. injection Ej as <-. apply H0.
          + now apply (IH j). }
      rewrite Hb. cbn [Js.find bind app].
      eexists. split; [reflexivity|].
      split.
      * rewrite (firstThrow_users _ t1).
        -- unfold t1. rewrite firstThrow_app, Hn. reflexivity.
        -- rewrite users_updateAt by (intros c; reflexivity). exact Hu2.
      * apply stored_rejected.
        rewrite users_updateAt by (intros c; reflexivity).
        rewrite Hu2. unfold t1. rewrite map_app. apply in_or_app. right. now left.
    + eexists. split; [reflexivity|]. split.
      * rewrite (firstThrow_users _ t1 Hu2). unfold t1.
        rewrite firstThrow_app, Hn. reflexivity.
      * apply stored_rejected. rewrite Hu2. unfold t1.
        rewrite map_app. apply in_or_app. right. now left.
  - (* the payer has no row *)
    cbn [pushIfMissing addToBalance recordOwes recordOwed].
    eexists. split; [reflexivity|]. split.
    + rewrite !firstThrow_app, Hn. reflexivity.
    + apply stored_rejected. rewrite !map_app.
      apply in_or_app. right. now left.
Qed.

(** ** The outcome *)

Lemma steps_outcome (xs : list (Js.Str * Q * Js.Str)) (balances : list Row) :
  Forall shaped xs -> Forall bare balances -> xs <> [] ->
  (balances' <- forEach step xs balances ;; stored balances')
  = Throw (failure balances (List.length xs)).
Proof.
  intros Hs Hbare Hne. destruct xs as [|x rest]; [congruence|].
  inversion Hs as [|? ? Hx Hrest]; subst. unfold failure.
  destruct (firstThrow balances) as [m|] eqn:Hf.
  - cbn [forEach]. rewrite (step_thrown _ _ _ Hx Hf). reflexivity.
  - destruct (step_taints _ _ Hx Hf Hbare) as [t [Ht [Hft Hst]]].
    cbn [forEach]. rewrite Ht. cbn [bind].
    destruct rest as [|y rest].
    + cbn [forEach bind List.length Nat.eqb]. exact Hst.
    + inversion Hrest as [|? ? Hy _]; subst.
      cbn [forEach]. rewrite (step_thrown _ _ _ Hy Hft). reflexivity.
Qed.

Lemma reset_bare (balances : list Row) : Forall bare (map reset balances).
Proof. apply Forall_forall. intros b Hb. apply in_map_iff in Hb. destruct Hb as [c [<- _]]. now split. Qed.

Lemma firstThrow_reset (balances : list Row) :
  firstThrow (map reset balances) = firstThrow balances.
Proof. apply firstThrow_users. rewrite map_map. reflexivity. Qed.

(** [calculateBalances] up to its write: without a participant entry in
    the unsettled expenses, the rows are reset and saved; with one, the
    method throws. *)
Lemma calculate_outcome (balances : list Row) (expenses : list Expense.t) :
  calculate balances expenses
  = if Nat.eqb (entries expenses) 0 then stored (map reset balances)
    else Throw (failure balances (entries expenses)).
Proof.
  unfold calculate. cbv zeta. rewrite loops_steps, <- steps_length.
  destruct (flat_map stepsOf expenses) as [|x rest] eqn:E; [reflexivity|].
  cbn [List.length Nat.eqb]. rewrite <- E.
  rewrite steps_outcome.
  - unfold failure. rewrite firstThrow_reset, E. reflexivity.
  - apply steps_shaped.
  - apply reset_bare.
  - rewrite E. discriminate.
Qed.


Lemma firstThrow_loaded (bs : list Balance.t) : firstThrow (map load bs) = None.
Proof. induction bs as [|b bs IH]; [reflexivity | exact IH]. Qed.

(** A table that a calculation gave is a table of reset rows. *)
Lemma calculate_reset (balances : list Row) (expenses : list Expense.t) (t : list Balance.t) :
  calculate balances expenses = Ok t ->
  entries expenses = 0%nat /\ Balances.reset t = t.
Proof.
  rewrite calculate_outcome. destruct (Nat.eqb (entries expenses) 0) eqn:E; [|discriminate].
  apply Nat.eqb_eq in E. intros H. split; [exact E|].
  clear E. unfold stored in H. revert t H.
  induction balances as [|b bs IH]; intros t H.
  - injection H as <-. reflexivity.
  - cbn [map mapM] in H.
    destruct (storedRow (reset b)) as [y|] eqn:Ey; cbn [bind] in H; [|discriminate].
    destruct (mapM storedRow (map reset bs)) as [ys|] eqn:Eys; cbn [bind] in H; [|discriminate].
    injection H as <-. cbn [Balances.reset map].
    specialize (IH ys eq_refl). unfold Balances.reset in IH. rewrite IH. f_equal.
    unfold storedRow, reset in Ey. cbn [user balance owes owed mapM bind] in Ey.
    destruct (storedId (user b)); cbn [bind] in Ey; [|discriminate].
    injection Ey as <-. reflexivity.
Qed.

End LiveFacts.

Module RecomputeFacts.
Import BalancesFacts.

Lemma findGroup_id (id : ObjectId) (db : Db.t) (g : Group.t) :
  Db.findGroup id db = Some g -> Group._id g = id.
Proof.
  unfold Db.findGroup. intros H. apply find_some in H. destruct H as [_ H].
  now apply idEq_eq.
Qed.

Lemma findGroup_In (id : ObjectId) (db : Db.t) (g : Group.t) :
  Db.findGroup id db = Some g -> In g (Db.groups db).
Proof. unfold Db.findGroup. intros H. now apply find_some in H. Qed.

Lemma putGroup_again (g : Group.t) (gs : list Group.t) :
  Db.putGroup g (Db.putGroup g gs) = Db.putGroup g gs.
Proof.
  induction gs as [|x gs IH]; simpl.
  - now rewrite idEq_refl.
  - destruct (idEq (Group._id x) (Group._id g)) eqn:E; simpl.
    + now rewrite idEq_refl.
    + rewrite E. now rewrite IH.
Qed.

(** What [calculateBalances] does: with a participant entry among the
    unsettled expenses of the group it throws; without one it stores the
    rows reset. *)
Lemma calculateBalances_outcome (db : Db.t) (this : Group.t) (balances : list Live.Row) :
  GroupModel.calculateBalances db this balances
  = if Nat.eqb (Live.entries (Db.unsettledOf (Group._id this) db)) 0
    then t <- Live.stored (map Live.reset balances) ;;
         Ok (Db.saveGroup (Group.setBalances t this) db, Group.setBalances t this)
    else Throw (Live.failure balances (Live.entries (Db.unsettledOf (Group._id this) db))).
Proof.
  unfold GroupModel.calculateBalances. cbv zeta. rewrite LiveFacts.calculate_outcome.
  destruct (Nat.eqb (Live.entries (Db.unsettledOf (Group._id this) db)) 0); reflexivity.
Qed.

Lemma calculateBalances_pending (db : Db.t) (this : Group.t) (balances : list Live.Row) :
  Ledger.pending (Group._id this) db ->
  GroupModel.calculateBalances db this balances
  = Throw (Live.failure balances (Live.entries (Db.unsettledOf (Group._id this) db))).
Proof.
  intros H. rewrite calculateBalances_outcome.
  destruct (Nat.eqb (Live.entries (Db.unsettledOf (Group._id this) db)) 0) eqn:E; [|reflexivity].
  apply Nat.eqb_eq in E. now elim H.
Qed.

(** The table that a call stored is a table of reset rows, and the call
    was made without a pending entry. *)
Lemma calculateBalances_stored (db db1 : Db.t) (this this1 : Group.t) (balances : list Live.Row) :
  GroupModel.calculateBalances db this balances = Ok (db1, this1) ->
  Live.entries (Db.unsettledOf (Group._id this) db) = 0%nat /\
  Balances.reset (Group.balances this1) = Group.balances this1 /\
  this1 = Group.setBalances (Group.balances this1) this /\
  db1 = Db.saveGroup this1 db.
Proof.
  unfold GroupModel.calculateBalances. cbv zeta.
  destruct (Live.calculate balances (Db.unsettledOf (Group._id this) db)) as [t|m] eqn:E;
    cbn [bind]; [|discriminate].
  intros H. injection H as <- <-.
  destruct (LiveFacts.calculate_reset _ _ _ E) as [H0 Ht].
  repeat split; [exact H0 | exact Ht].
Qed.

(** The table that is stored, for the rows as the two callers load them:
    the rows of the group, reset. *)
Lemma calculateBalances_table (db db1 : Db.t) (this this1 : Group.t) (balances : list Live.Row) :
  balances = Live.loaded this \/ balances = Live.populated db this ->
  GroupModel.calculateBalances db this balances = Ok (db1, this1) ->
  this1 = Group.setBalances (Balances.reset (Group.balances this)) this /\
  db1 = Db.saveGroup this1 db.
Proof.
  intros Hrows. rewrite calculateBalances_outcome.
  destruct (Nat.eqb _ 0); [|discriminate].
  destruct Hrows as [-> | ->]; unfold Live.populated, Live.loaded.
  - rewrite LiveFacts.stored_reset_loaded. cbn [bind].
    intros H. injection H as <- <-. now split.
  - rewrite LiveFacts.stored_reset_populated. cbn [bind].
    intros H. injection H as <- <-. now split.
Qed.

(** Calling [calculateBalances] on a document that a call returned, against
    the store it left, changes neither. *)
Lemma calculateBalances_again (db : Db.t) (this : Group.t) (t : list Balance.t) :
  Live.entries (Db.unsettledOf (Group._id this) db) = 0%nat ->
  Balances.reset t = t ->
  let this1 := Group.setBalances t this in
  let db1 := Db.saveGroup this1 db in
  GroupModel.calculateBalances db1 this1 (Live.loaded this1) = Ok (db1, this1) /\
  GroupModel.calculateBalances db1 this1 (Live.populated db1 this1) = Ok (db1, this1).
Proof.
  intros H0 Ht this1 db1.
  assert (E1 : Db.unsettledOf (Group._id this1) db1 = Db.unsettledOf (Group._id this) db)
    by reflexivity.
  assert (E2 : Db.saveGroup this1 db1 = db1).
  { unfold db1, Db.saveGroup. cbn [Db.groups Db.setGroups Db.users Db.expenses].
    now rewrite putGroup_again. }
  assert (E3 : Group.setBalances t this1 = this1) by reflexivity.
  split; rewrite calculateBalances_outcome, E1, H0; cbn [Nat.eqb].
  - unfold Live.loaded. cbn [this1 Group.balances Group.setBalances].
    rewrite LiveFacts.stored_reset_loaded, Ht. cbn [bind]. fold this1.
    now rewrite E3, E2.
  - unfold Live.populated, Live.loaded. cbn [this1 Group.balances Group.setBalances].
    rewrite LiveFacts.stored_reset_populated, Ht. cbn [bind]. fold this1.
    now rewrite E3, E2.
Qed.

End RecomputeFacts.



(** C8, what the code does.  As soon as the unsettled expenses of a group
    have a participant entry, [calculateBalances] throws, on the rows as
    [Group.findById] loads them and on the rows with their users
    populated, and the balances request of a member is answered with 500
    and an unchanged store: the inner loop takes the string of the
    participant sub-document for a user id, finds no row for it and pushes
    a row whose [user] does not cast. *)
Theorem C8_recomputation_fails_on_a_pending_entry
        (db : Db.t) (userId groupId : ObjectId) (group : Group.t) :
  Db.findGroup groupId db = Some group ->
  Group.isActiveMember userId group = true ->
  Ledger.pending groupId db ->
  GroupModel.calculateBalances db group (Live.loaded group)
  = Throw (Live.failure (Live.loaded group) (Live.entries (Db.unsettledOf groupId db))) /\
  GroupModel.calculateBalances db group (Live.populated db group)
  = Throw (Live.failure (Live.populated db group)
                        (Live.entries (Db.unsettledOf groupId db))) /\
  Routes.getBalances db userId groupId = (Response.json 500 "Server error", db).
Proof.
  intros Hg Hm Hp.
  pose proof (RecomputeFacts.findGroup_id _ _ _ Hg) as Hid. subst groupId.
  split; [now apply RecomputeFacts.calculateBalances_pending|].
  split; [now apply RecomputeFacts.calculateBalances_pending|].
  unfold Routes.getBalances, Routes.isGroupMember. rewrite Hg, Hm.
  now rewrite RecomputeFacts.calculateBalances_pending.
Qed.

Lemma C8_recomputation_fails_on_a_pending_entry_witness :
  GroupModel.calculateBalances (Scenario.store [Scenario.dinner])
                               (Scenario.group [Scenario.dinner])
                               (Live.loaded (Scenario.group [Scenario.dinner]))
  = Throw Js.ofUndefined /\
  Routes.getBalances (Scenario.store [Scenario.dinner]) Scenario.A Scenario.G
  = (Response.json 500 "Server error", Scenario.store [Scenario.dinner]) /\
  Routes.getBalances (Scenario.store [Scenario.withStranger]) Scenario.A Scenario.G
  = (Response.json 500 "Server error", Scenario.store [Scenario.withStranger]).
Proof.
  destruct (C8_recomputation_fails_on_a_pending_entry
              (Scenario.store [Scenario.dinner]) Scenario.A Scenario.G
              (Scenario.group [Scenario.dinner])) as [H1 [_ H3]].
  - reflexivity.
  - reflexivity.
  - vm_compute. discriminate.
  - split; [exact H1|]. split; [exact H3|].
    apply (C8_recomputation_fails_on_a_pending_entry
             (Scenario.store [Scenario.withStranger]) Scenario.A Scenario.G
             (Scenario.group [Scenario.withStranger])).
    + reflexivity.
    + reflexivity.
    + vm_compute. discriminate.
Defined.

(** C2, what the code does.  [A] posts 100.00 paid by [A] with the exact
    shares 70.00 for [A] and 30.00 for [B]: the request is accepted and
    the shares are stored as they are.  [B] then asks for the balances:
    the recomputation throws, the answer is 500, and the stored table
    holds no debt of [B] to [A] and no credit of [A] from [B]. *)
Theorem C2_recompute_records_no_debt :
  fst (Routes.handle (Scenario.store []) Scenario.A
         (Routes.CreateExpense "uneven" Scenario.unevenBody))
    = Response.json 201 "Expense created successfully" /\
  option_map (fun e => (Expense.settled e, map Participant.share (Expense.participants e)))
             (Db.findExpense "uneven" Scenario.afterUnevenCreated)
    = Some (false, [70; 30]) /\
  Routes.handle Scenario.afterUnevenCreated Scenario.B (Routes.GetBalances Scenario.G)
    = (Response.json 500 "Server error", Scenario.afterUnevenCreated) /\
  (exists group,
     Db.findGroup Scenario.G Scenario.afterUnevenCreated = Some group /\
     GroupModel.calculateBalances Scenario.afterUnevenCreated group
                                  (Live.populated Scenario.afterUnevenCreated group)
     = Throw Js.ofUndefined) /\
  Balances.debt Scenario.B Scenario.A (Ledger.balancesOf Scenario.G Scenario.afterUnevenRead)
    = None /\
  Balances.credit Scenario.A Scenario.B (Ledger.balancesOf Scenario.G Scenario.afterUnevenRead)
    = None.
Proof.
  split; [reflexivity|]. split; [reflexivity|]. split; [reflexivity|].
  split; [eexists; split; reflexivity|].
  split; reflexivity.
Qed.


(* ===================================================================== *)
(** * The store and the handlers *)
(* ===================================================================== *)

Module StoreFacts.
Import BalancesFacts RecomputeFacts RemovalFacts.

Lemma length_putGroup (g : Group.t) (gs : list Group.t) :
  find (fun x => idEq (Group._id x) (Group._id g)) gs <> None ->
  List.length (Db.putGroup g gs) = List.length gs.
Proof.
  induction gs as [|x gs IH]; simpl; [congruence|].
  destruct (idEq (Group._id x) (Group._id g)); simpl; [reflexivity|].
  intros H. now rewrite IH.
Qed.

Lemma find_putGroup_other (id : ObjectId) (g : Group.t) (gs : list Group.t) :
  id <> Group._id g ->
  find (fun x => idEq (Group._id x) id) (Db.putGroup g gs)
  = find (fun x => idEq (Group._id x) id) gs.
Proof.
  intros Hne. induction gs as [|x gs IH]; simpl.
  - destruct (idEq (Group._id g) id) eqn:E; [|reflexivity]. ids. congruence.
  - destruct (idEq (Group._id x) (Group._id g)) eqn:Ex; simpl.
    + destruct (idEq (Group._id x) id) eqn:E.
      * ids. congruence.
      * destruct (idEq (Group._id g) id) eqn:E'; [|reflexivity]. ids. congruence.
    + destruct (idEq (Group._id x) id); [reflexivity | exact IH].
Qed.

Lemma In_putGroup (x g : Group.t) (gs : list Group.t) :
  In x (Db.putGroup g gs) -> x = g \/ In x gs.
Proof.
  induction gs as [|y gs IH]; simpl.
  - intros [H|[]]. now left.
  - destruct (idEq (Group._id y) (Group._id g)); simpl.
    + intros [H|H]; [now left | right; now right].
    + intros [H|H]; [right; now left|].
      destruct (IH H) as [H'|H']; [now left | right; now right].
Qed.

Lemma pullGroupsMany_gone (groupId : ObjectId) (us : list User.t) (u : User.t) :
  In u (Db.pullGroupsMany groupId us) -> ~ In groupId (User.groups u).
Proof.
  unfold Db.pullGroupsMany. intros H. apply in_map_iff in H.
  destruct H as [u0 [<- _]].
  destruct (existsb (idEq groupId) (User.groups u0)) eqn:E.
  - cbn [User.setGroups User.groups]. intros Hin. apply filter_In in Hin.
    destruct Hin as [_ Hin]. rewrite idEq_refl in Hin. discriminate.
  - intros Hin. assert (Hex : existsb (idEq groupId) (User.groups u0) = true).
    { apply existsb_exists. exists groupId. split; [exact Hin | apply idEq_refl]. }
    congruence.
Qed.

Lemma pullGroupsMany_ids (groupId : ObjectId) (us : list User.t) :
  map User._id (Db.pullGroupsMany groupId us) = map User._id us.
Proof.
  unfold Db.pullGroupsMany. rewrite map_map. apply map_ext.
  intros u. destruct (existsb (idEq groupId) (User.groups u)); reflexivity.
Qed.

End StoreFacts.

(** Whoever asks, the delete handler refuses with an error and returns the
    store unchanged while an unsettled expense of the group remains. *)
Lemma deleteGroup_refused_while_unsettled (db : Db.t) (userId groupId : ObjectId) :
  Db.unsettledOf groupId db <> [] ->
  Response.isError (fst (Routes.deleteGroup db userId groupId)) = true /\
  snd (Routes.deleteGroup db userId groupId) = db.
Proof.
  intros Hne. unfold Routes.deleteGroup.
  destruct (Db.findGroup groupId db); [|split; reflexivity].
  destruct (negb _); [split; reflexivity|].
  destruct (Db.unsettledOf groupId db); [congruence | split; reflexivity].
Qed.

(** C10: while an unsettled expense of the group remains, the delete
    handler answers with an error and returns the store unchanged; for a
    group that exists, on the request of its creator, that error is 400
    "Cannot delete group with unsettled expenses ...", and when no unsettled
    expense remains the handler answers 200 and the store still holds the
    group document under its id, with [isActive] equal to [false] and every
    other field as it was; the number of group documents, the other
    groups and the expenses are as before, and no user's [groups] list
    mentions the group any more. *)
Theorem C10_delete_group
        (db : Db.t) (userId groupId : ObjectId) (group : Group.t) :
  Db.findGroup groupId db = Some group ->
  Group.createdBy group = userId ->
  (Db.unsettledOf groupId db <> [] ->
   Routes.deleteGroup db userId groupId
   = (Response.json 400
        "Cannot delete group with unsettled expenses. Please settle all expenses first.",
      db)) /\
  (forall anyone,
     Db.unsettledOf groupId db <> [] ->
     Response.isError (fst (Routes.deleteGroup db anyone groupId)) = true /\
     snd (Routes.deleteGroup db anyone groupId) = db) /\
  (Db.unsettledOf groupId db = [] ->
   exists db',
     Routes.deleteGroup db userId groupId
     = (Response.json 200 "Group deleted successfully", db') /\
     (exists group',
        Db.findGroup groupId db' = Some group' /\
        Group.isActive group' = false /\
        group' = Group.setIsActive false group /\
        Group._id group' = Group._id group /\
        Group.createdBy group' = Group.createdBy group /\
        Group.members group' = Group.members group /\
        Group.expenses group' = Group.expenses group /\
        Group.settings group' = Group.settings group /\
        Group.totalExpenses group' = Group.totalExpenses group /\
        Group.totalSettled group' = Group.totalSettled group /\
        Group.balances group' = Group.balances group /\
        Group.activityLog group' = Group.activityLog group) /\
     (forall other, other <> groupId -> Db.findGroup other db' = Db.findGroup other db) /\
     List.length (Db.groups db') = List.length (Db.groups db) /\
     Db.expenses db' = Db.expenses db /\
     map User._id (Db.users db') = map User._id (Db.users db) /\
     (forall u, In u (Db.users db') -> ~ In groupId (User.groups u))).
Proof.
  intros Hg Hc.
  pose proof (RecomputeFacts.findGroup_id _ _ _ Hg) as Hid.
  split; [|split; [intros anyone; apply deleteGroup_refused_while_unsettled|]];
    unfold Routes.deleteGroup; rewrite Hg, Hc, BalancesFacts.idEq_refl; cbn [negb].
  - intros Hne. destruct (Db.unsettledOf groupId db); [congruence | reflexivity].
  - intros He. rewrite He. cbn [List.length Nat.ltb Nat.leb].
    eexists. split; [reflexivity|].
    split.
    { exists (Group.setIsActive false group). split.
      - rewrite <- Hid at 1.
        exact (RemovalFacts.findGroup_saveGroup (Group.setIsActive false group) _).
      - repeat (split; [first [reflexivity | exact Hc]|]). reflexivity. }
    split.
    { intros other Hne. unfold Db.findGroup, Db.saveGroup.
      cbn [Db.groups Db.setGroups Db.setUsers].
      apply StoreFacts.find_putGroup_other. cbn [Group._id Group.setIsActive].
      congruence. }
    split.
    { unfold Db.saveGroup. cbn [Db.groups Db.setGroups Db.setUsers].
      apply StoreFacts.length_putGroup. cbn [Group._id Group.setIsActive].
      rewrite Hid. unfold Db.findGroup in Hg. rewrite Hg. discriminate. }
    split; [reflexivity|].
    split.
    { cbn. apply StoreFacts.pullGroupsMany_ids. }
    intros u Hu. cbn in Hu. now apply StoreFacts.pullGroupsMany_gone in Hu.
Qed.

Lemma C10_delete_group_witness :
  Routes.deleteGroup (Scenario.store [Scenario.dinner]) Scenario.A Scenario.G
    = (Response.json 400
         "Cannot delete group with unsettled expenses. Please settle all expenses first.",
       Scenario.store [Scenario.dinner]) /\
  exists db' group',
    Routes.deleteGroup (Scenario.store [Scenario.settledDinner]) Scenario.A Scenario.G
      = (Response.json 200 "Group deleted successfully", db') /\
    Db.findGroup Scenario.G db' = Some group' /\
    Group.isActive group' = false.
Proof.
  split.
  - apply (C10_delete_group (Scenario.store [Scenario.dinner]) Scenario.A Scenario.G
             (Scenario.group [Scenario.dinner])).
    + reflexivity.
    + reflexivity.
    + discriminate.
  - destruct (C10_delete_group (Scenario.store [Scenario.settledDinner]) Scenario.A Scenario.G
                (Scenario.group [Scenario.settledDinner]) eq_refl eq_refl) as [_ [_ H]].
    destruct (H eq_refl) as [db' [H1 [[group' [H2 [H3 _]]] _]]].
    exists db', group'. split; [exact H1 | split; [exact H2 | exact H3]].
Defined.

(* ===================================================================== *)
(** * Settled expenses *)
(* ===================================================================== *)

Module SettleFacts.
Import BalancesFacts RecomputeFacts RemovalFacts.

(** The three guarded handlers refuse a settled expense with status 400
    and return the store they were given. *)
Lemma settled_expense_refused (db : Db.t) (userId expenseId : ObjectId) (expense : Expense.t) :
  Db.findExpense expenseId db = Some expense ->
  Expense.settled expense = true ->
  (forall updates,
     Response.status (fst (Routes.updateExpense db userId expenseId updates)) = 400%nat /\
     snd (Routes.updateExpense db userId expenseId updates) = db) /\
  Routes.deleteExpense db userId expenseId
    = (Response.json 400 "Cannot delete settled expense", db) /\
  (forall settlements,
     Routes.settleExpense db userId expenseId settlements
     = (Response.json 400 "Expense is already settled", db)).
Proof.
  intros He Hs. split; [|split].
  - intros updates. unfold Routes.updateExpense. rewrite He, Hs.
    destruct (negb _); split; reflexivity.
  - unfold Routes.deleteExpense. rewrite He, Hs. reflexivity.
  - intros settlements. unfold Routes.settleExpense. rewrite He, Hs. reflexivity.
Qed.

Lemma findExpense_id (id : ObjectId) (db : Db.t) (e : Expense.t) :
  Db.findExpense id db = Some e -> Expense._id e = id.
Proof.
  unfold Db.findExpense. intros H. apply find_some in H. destruct H as [_ H].
  now apply idEq_eq.
Qed.

Lemma find_putExpense (e : Expense.t) (es : list Expense.t) :
  find (fun x => idEq (Expense._id x) (Expense._id e)) (Db.putExpense e es) = Some e.
Proof.
  induction es as [|x es IH]; simpl.
  - now rewrite idEq_refl.
  - destruct (idEq (Expense._id x) (Expense._id e)) eqn:E; simpl.
    + now rewrite idEq_refl.
    + rewrite E. exact IH.
Qed.


(** The group that the post-save hook writes back. *)
Lemma postSave_group (doc : Expense.t) (db : Db.t) (g : Group.t) :
  Db.findGroup (Expense.group doc) db = Some g ->
  exists g',
    ExpenseModel.postSave doc db = Db.saveGroup g' db /\
    Group._id g' = Group._id g /\
    Group.balances g' = Group.balances g /\
    Group.totalSettled g'
    = Num.sumOf Expense.amount
        (filter Expense.settled (Db.expensesOf (Expense.group doc) db)) /\
    Group.totalExpenses g'
    = Num.sumOf Expense.amount (Db.expensesOf (Expense.group doc) db).
Proof.
  intros H. unfold ExpenseModel.postSave. rewrite H.
  destruct (existsb _ _); eexists; (split; [reflexivity|]); repeat split; reflexivity.
Qed.


(** Every successful [save] leaves the settled counter of the expense's
    group equal to the settled expenses of that group. *)
Lemma save_establishes_counter (db db' : Db.t) (recalc : bool) (e e' : Expense.t) (g : Group.t) :
  ExpenseModel.save db recalc e = Ok (db', e') ->
  Db.findGroup (Expense.group e') db = Some g ->
  exists g',
    Db.findGroup (Expense.group e') db' = Some g' /\
    Group.totalSettled g' = Ledger.settledSum (Expense.group e') db'.
Proof.
  unfold ExpenseModel.save.
  destruct (ExpenseModel.preSave recalc e) as [this|]; cbn [bind]; [|discriminate].
  intros H Hg. injection H as <- <-.
  assert (Hg' : Db.findGroup (Expense.group this) (Db.writeExpense this db) = Some g)
    by exact Hg.
  destruct (postSave_group this _ g Hg') as [g' [Hp [Hid [_ [Hts _]]]]].
  rewrite Hp. exists g'. split.
  - rewrite <- (findGroup_id _ _ _ Hg), <- Hid. apply findGroup_saveGroup.
  - rewrite Hts. reflexivity.
Qed.

(** A stored, unsettled expense with a participant is a pending entry of
    its group. *)
Lemma stored_unsettled_pending (db : Db.t) (e : Expense.t) :
  Db.findExpense (Expense._id e) db = Some e ->
  Expense.settled e = false ->
  Expense.participants e <> [] ->
  Ledger.pending (Expense.group e) db.
Proof.
  intros He Hs Hp. unfold Ledger.pending, Live.entries.
  assert (Hin : In e (Db.unsettledOf (Expense.group e) db)).
  { unfold Db.unsettledOf. apply filter_In. split.
    - unfold Db.findExpense in He. now apply find_some in He.
    - now rewrite idEq_refl, Hs. }
  destruct (Expense.participants e) as [|p ps] eqn:E; [congruence|].
  assert (Hp' : In p (flat_map Expense.participants (Db.unsettledOf (Expense.group e) db))).
  { apply in_flat_map. exists e. split; [exact Hin|]. rewrite E. now left. }
  destruct (flat_map Expense.participants (Db.unsettledOf (Expense.group e) db));
    [contradiction | discriminate].
Qed.

End SettleFacts.

(** C5, at the failing input: the dinner is settled; [B], a member, posts a
    settlement of 10.00 from [B] to [A] against it.  The update, delete and
    settle handlers refuse a settled expense; the add-settlement handler has
    no such guard: it answers 200 and the stored expense has a settlement
    more than before. *)
Theorem C5_settlement_added_to_settled_expense :
  Db.findExpense "dinner" (Scenario.store [Scenario.settledDinner])
    = Some Scenario.settledDinner /\
  Expense.settled Scenario.settledDinner = true /\
  Expense.settlements Scenario.settledDinner = [] /\
  fst (Routes.handle (Scenario.store [Scenario.settledDinner]) Scenario.B Scenario.payTen)
    = Response.json 200 "Settlement added successfully" /\
  Db.findExpense "dinner"
    (snd (Routes.handle (Scenario.store [Scenario.settledDinner]) Scenario.B Scenario.payTen))
    = Some (Expense.setSettlements [Settlement.mk Scenario.B Scenario.A 10 upi None]
              Scenario.settledDinner) /\
  snd (Routes.handle (Scenario.store [Scenario.settledDinner]) Scenario.B Scenario.payTen)
    <> Scenario.store [Scenario.settledDinner].
Proof.
  split; [reflexivity|]. split; [reflexivity|]. split; [reflexivity|].
  split; [reflexivity|]. split; [reflexivity|].
  intros H. apply (f_equal (Db.findExpense "dinner")) in H.
  apply (f_equal (option_map (fun e => List.length (Expense.settlements e)))) in H.
  vm_compute in H. discriminate.
Qed.



(* ===================================================================== *)
(** * The sum of the net balances *)
(* ===================================================================== *)

Module SumFacts.
Import BalancesFacts RecomputeFacts RemovalFacts StoreFacts SettleFacts.

Ltac route_cases :=
  repeat match goal with
         | |- context [match ?x with _ => _ end] =>
             match type of x with
             | bool => destruct x eqn:?
             | option _ => destruct x eqn:?
             | Result _ => destruct x as [[? ?]|?] eqn:?
             | prod _ _ => destruct x eqn:?
             end
         end;
  cbn [snd]; try assumption.

Lemma blank_total (bs : list Balance.t) :
  (forall b, In b bs -> Ledger.blank b) -> Balances.total bs == 0.
Proof.
  induction bs as [|b bs IH]; intros H; [reflexivity|].
  rewrite total_cons. destruct (H b (or_introl eq_refl)) as [-> _].
  rewrite IH; [ring|]. intros c Hc. apply H. now right.
Qed.

Lemma cleared_balanced (db : Db.t) : Ledger.cleared db -> Ledger.balanced db.
Proof. intros H g Hg. apply blank_total. intros b. now apply H. Qed.

Lemma blank_reset (t : list Balance.t) (b : Balance.t) :
  Balances.reset t = t -> In b t -> Ledger.blank b.
Proof.
  intros <- Hb. unfold Balances.reset in Hb. apply in_map_iff in Hb.
  destruct Hb as [c [<- _]]. repeat split.
Qed.

Lemma blank_purge (userId : ObjectId) (bs : list Balance.t) (b : Balance.t) :
  (forall c, In c bs -> Ledger.blank c) -> In b (Balances.purge userId bs) -> Ledger.blank b.
Proof.
  intros H Hb. unfold Balances.purge in Hb. apply in_map_iff in Hb.
  destruct Hb as [c [<- Hc]]. apply filter_In in Hc. destruct Hc as [Hc _].
  destruct (H c Hc) as [H1 [H2 H3]]. unfold Ledger.blank.
  cbn [Balance.balance Balance.owes Balance.owed]. rewrite H1, H2, H3. repeat split.
Qed.

Lemma cleared_same_groups (db db' : Db.t) :
  Db.groups db' = Db.groups db -> Ledger.cleared db -> Ledger.cleared db'.
Proof. unfold Ledger.cleared. intros E H g b Hg. rewrite E in Hg. now apply H. Qed.

Lemma cleared_found (id : ObjectId) (db : Db.t) (g : Group.t) (b : Balance.t) :
  Ledger.cleared db -> Db.findGroup id db = Some g -> In b (Group.balances g) ->
  Ledger.blank b.
Proof. intros H Hg. apply H. now apply findGroup_In in Hg. Qed.

Lemma cleared_saveGroup (g : Group.t) (db : Db.t) :
  Ledger.cleared db -> (forall b, In b (Group.balances g) -> Ledger.blank b) ->
  Ledger.cleared (Db.saveGroup g db).
Proof.
  intros H Hg x b Hx. unfold Db.saveGroup in Hx. cbn in Hx.
  apply In_putGroup in Hx. destruct Hx as [->|Hx]; [apply Hg | now apply H].
Qed.

Lemma cleared_postSave (doc : Expense.t) (db : Db.t) :
  Ledger.cleared db -> Ledger.cleared (ExpenseModel.postSave doc db).
Proof.
  intros H. destruct (Db.findGroup (Expense.group doc) db) as [g|] eqn:E.
  - destruct (postSave_group doc db g E) as [g' [Hp [_ [Hb _]]]].
    rewrite Hp. apply cleared_saveGroup; [exact H|].
    rewrite Hb. intros b. now apply (cleared_found _ _ _ _ H E).
  - unfold ExpenseModel.postSave. now rewrite E.
Qed.

Lemma cleared_save (db db' : Db.t) (recalc : bool) (e e' : Expense.t) :
  ExpenseModel.save db recalc e = Ok (db', e') ->
  Ledger.cleared db -> Ledger.cleared db'.
Proof.
  unfold ExpenseModel.save. destruct (ExpenseModel.preSave recalc e); cbn [bind]; [|discriminate].
  intros H Hb. injection H as <- _.
  apply cleared_postSave. now apply (cleared_same_groups db).
Qed.

Lemma cleared_calculateBalances (db db' : Db.t) (this this' : Group.t) (rows : list Live.Row) :
  GroupModel.calculateBalances db this rows = Ok (db', this') ->
  Ledger.cleared db -> Ledger.cleared db'.
Proof.
  intros H Hb. destruct (calculateBalances_stored _ _ _ _ _ H) as [_ [Ht [_ ->]]].
  apply cleared_saveGroup; [exact Hb|]. intros b. now apply blank_reset.
Qed.

Lemma cleared_settle db db' e e' settledBy settlements :
  ExpenseModel.settle db e settledBy settlements = Ok (db', e') ->
  Ledger.cleared db -> Ledger.cleared db'.
Proof.
  unfold ExpenseModel.settle. cbv zeta. intros H Hb.
  destruct (Db.findGroup _ db) as [g|]; cbn [bind] in H.
  - destruct (GroupModel.calculateBalances db _ (Live.loaded _)) as [[db1 g1]|] eqn:E;
      cbn [bind fst] in H; [|discriminate].
    apply cleared_save in H; [exact H|].
    eapply cleared_calculateBalances; eassumption.
  - now apply cleared_save in H.
Qed.

Lemma cleared_addSettlement db db' e e' from to amount method transactionId :
  ExpenseModel.addSettlement db e from to amount method transactionId = Ok (db', e') ->
  Ledger.cleared db -> Ledger.cleared db'.
Proof. unfold ExpenseModel.addSettlement. apply cleared_save. Qed.

Lemma cleared_updateExpense db db' e e' updates updatedBy :
  ExpenseModel.updateExpense db e updates updatedBy = Ok (db', e') ->
  Ledger.cleared db -> Ledger.cleared db'.
Proof. unfold ExpenseModel.updateExpense. apply cleared_save. Qed.

Lemma cleared_addMember db db' this this' userId role :
  GroupModel.addMember db this userId role = Ok (db', this') ->
  (forall b, In b (Group.balances this) -> Ledger.blank b) ->
  Ledger.cleared db -> Ledger.cleared db'.
Proof.
  unfold GroupModel.addMember.
  destruct (find _ (Group.members this)); [discriminate|].
  intros H Ht Hb. injection H as <- _.
  apply cleared_saveGroup.
  - now apply (cleared_same_groups db).
  - cbn [Group.balances Group.setActivityLog Group.setBalances Group.setMembers].
    intros b Hin. apply in_app_or in Hin. destruct Hin as [Hin|[<-|[]]].
    + now apply Ht.
    + repeat split.
Qed.

Lemma cleared_removeMember db db' this this' userId removedBy :
  GroupModel.removeMember db this userId removedBy = Ok (db', this') ->
  (forall b, In b (Group.balances this) -> Ledger.blank b) ->
  Ledger.cleared db -> Ledger.cleared db'.
Proof.
  unfold GroupModel.removeMember.
  destruct (find _ (Group.members this)); [|discriminate].
  intros H Ht Hb. injection H as <- _.
  apply cleared_saveGroup.
  - now apply (cleared_same_groups db).
  - cbn [Group.balances Group.setActivityLog Group.setBalances Group.setMembers].
    intros b. now apply blank_purge.
Qed.

Lemma In_pullExpense (x : Group.t) (groupId expenseId : ObjectId) (gs : list Group.t) :
  In x (Db.pullExpense groupId expenseId gs) ->
  exists y, In y gs /\ Group.balances x = Group.balances y.
Proof.
  induction gs as [|g gs IH]; simpl; [intros []|].
  destruct (idEq (Group._id g) groupId); simpl.
  - intros [E|H].
    + exists g. split; [now left | now rewrite <- E].
    + exists x. split; [now right | reflexivity].
  - intros [E|H].
    + exists x. split; [now left | reflexivity].
    + destruct (IH H) as [y [Hy E]]. exists y. split; [now right | exact E].
Qed.

Lemma cleared_deleteExpense (db : Db.t) (groupId expenseId : ObjectId) :
  Ledger.cleared db ->
  Ledger.cleared
    (Db.deleteExpense expenseId
       (Db.setGroups (Db.pullExpense groupId expenseId (Db.groups db)) db)).
Proof.
  intros H x b Hx. cbn in Hx. apply In_pullExpense in Hx.
  destruct Hx as [y [Hy ->]]. now apply H.
Qed.

(** Every request leaves every row of every group blank. *)
Lemma cleared_handle (db : Db.t) (userId : ObjectId) (req : Routes.Request) :
  Ledger.cleared db -> Ledger.cleared (snd (Routes.handle db userId req)).
Proof.
  intros Hb. destruct req; cbn [Routes.handle].
  - unfold Routes.createExpense. cbv zeta. route_cases.
    eapply cleared_save; eassumption.
  - unfold Routes.updateExpense. cbv zeta. route_cases.
    eapply cleared_updateExpense; eassumption.
  - unfold Routes.deleteExpense. cbv zeta. route_cases.
    now apply cleared_deleteExpense.
  - unfold Routes.settleExpense. route_cases.
    eapply cleared_settle; eassumption.
  - unfold Routes.addSettlement. route_cases.
    eapply cleared_addSettlement; eassumption.
  - unfold Routes.createGroup. cbv zeta. route_cases.
    apply (cleared_same_groups (Db.saveGroup
      (Group.mk newId userId [Member.mk userId admin true] [] (Settings.mk true equal)
                true 0 0 [Balance.mk userId 0 [] []] []) db)); [reflexivity|].
    apply cleared_saveGroup; [exact Hb|].
    intros b [<-|[]]. repeat split.
  - unfold Routes.addMember. cbv zeta. route_cases.
    eapply cleared_addMember; [eassumption | | exact Hb].
    intros b. eapply cleared_found; eassumption.
  - unfold Routes.removeMember. cbv zeta. route_cases;
      (eapply cleared_removeMember; [eassumption | | exact Hb];
       intros b; eapply cleared_found; eassumption).
  - unfold Admin.updateRole. route_cases.
    apply cleared_saveGroup; [exact Hb|].
    cbn [Group.balances Group.setActivityLog Group.setMembers].
    intros b. eapply cleared_found; eassumption.
  - unfold Routes.getBalances. route_cases.
    eapply cleared_calculateBalances; eassumption.
  - unfold Routes.deleteGroup. cbv zeta. route_cases.
    apply cleared_saveGroup.
    + now apply (cleared_same_groups db).
    + cbn [Group.balances Group.setIsActive].
      intros b. eapply cleared_found; eassumption.
Qed.

Lemma cleared_reachable (db : Db.t) : Ledger.Reachable db -> Ledger.cleared db.
Proof.
  induction 1 as [users|db userId req _ IH].
  - intros g b [].
  - now apply cleared_handle.
Qed.

End SumFacts.

(** C1: in every store that the requests produce, after every request,
    answered or refused (expense create, update, delete, settle, add
    settlement; group create and delete; member add, remove and role
    update; balances read with its recomputation), the net balances of
    every group sum to zero.  The rows are written by four places: group
    creation and [addMember] add a row at zero, [removeMember] drops rows
    and entries and leaves the net balances as they are, and
    [calculateBalances] stores the rows reset or throws before its save;
    so every stored row has net balance zero and no entries. *)
Theorem C1_net_balances_sum_to_zero (db : Db.t) :
  Ledger.Reachable db ->
  Ledger.balanced db /\
  (forall g, In g (Db.groups db) -> Balances.total (Group.balances g) == 0) /\
  (forall userId req, Ledger.balanced (snd (Routes.handle db userId req))) /\
  Ledger.cleared db.
Proof.
  intros H. pose proof (SumFacts.cleared_reachable db H) as Hc.
  split; [now apply SumFacts.cleared_balanced|].
  split; [exact (SumFacts.cleared_balanced db Hc)|].
  split; [|exact Hc].
  intros userId req. apply SumFacts.cleared_balanced. now apply SumFacts.cleared_handle.
Qed.

Lemma C1_net_balances_sum_to_zero_witness :
  map Balance.user (Ledger.balancesOf Scenario.G Cases.served)
  = [Scenario.A; Scenario.B; Scenario.C] /\
  Db.unsettledOf Scenario.G Cases.served <> [] /\
  Ledger.balanced Cases.served /\
  Ledger.balanced (snd (Routes.handle Cases.served Scenario.A
                          (Routes.RemoveMember Scenario.G Scenario.B))).
Proof.
  split; [reflexivity|]. split; [discriminate|].
  destruct (C1_net_balances_sum_to_zero Cases.served) as [H1 [_ [H2 _]]].
  - unfold Cases.served, Cases.requests. cbn [fold_left fst snd].
    repeat apply Ledger.Reachable_request. apply Ledger.Reachable_start.
  - split; [exact H1 | apply H2].
Defined.

(* ===================================================================== *)
(** * The split calculator and the amount setter *)
(* ===================================================================== *)

Module ShareFacts.

Lemma round_integer (k : Z) : Num.round (inject_Z k) = k.
Proof.
  unfold Num.round.
  pose proof (Qfloor_le (inject_Z k + (1 # 2))) as Hlo.
  pose proof (Qlt_floor (inject_Z k + (1 # 2))) as Hhi.
  set (z := Qfloor (inject_Z k + (1 # 2))) in *.
  rewrite inject_Z_plus in Hhi. change (inject_Z 1) with 1 in Hhi.
  assert (H1 : inject_Z z < inject_Z (k + 1)).
  { rewrite inject_Z_plus. change (inject_Z 1) with 1. lra. }
  assert (H2 : inject_Z k < inject_Z (z + 1)).
  { rewrite inject_Z_plus. change (inject_Z 1) with 1. lra. }
  rewrite <- Zlt_Qlt in H1, H2. lia.
Qed.

Lemma round_comp (x y : Q) : x == y -> Num.round x = Num.round y.
Proof. intros H. unfold Num.round. apply Qfloor_comp. now rewrite H. Qed.

Lemma round2_again (x : Q) : Num.round2 (Num.round2 x) = Num.round2 x.
Proof.
  unfold Num.round2 at 1.
  assert (E : Num.round2 x * 100 == inject_Z (Num.round (x * 100))).
  { unfold Num.round2. field. }
  rewrite (round_comp _ _ E), round_integer. reflexivity.
Qed.

Lemma round_nonneg (x : Q) : 0 <= x -> (0 <= Num.round x)%Z.
Proof.
  intros H. unfold Num.round.
  change 0%Z with (Qfloor 0). apply Qfloor_resp_le. lra.
Qed.

End ShareFacts.

(** X5: when [calculateShares] succeeds it changes nothing but the
    participants' shares and share types: the participants' users, in their
    order, and every other field of the expense are kept; and for an equal
    or exact split, running it again on its result gives that result
    again. *)
Theorem calculateShares_keeps_and_repeats (e e' : Expense.t) :
  Expense.calculateShares e = Ok e' ->
  Expense.setParticipants (Expense.participants e) e' = e /\
  map Participant.user (Expense.participants e')
    = map Participant.user (Expense.participants e) /\
  (Expense.splitMethod e <> percentage -> Expense.calculateShares e' = Ok e').
Proof.
  unfold Expense.calculateShares.
  destruct (Nat.eqb (List.length (Expense.participants e)) 0) eqn:En; [discriminate|].
  destruct (Expense.splitMethod e) eqn:Em.
  - intros H. injection H as <-.
    split; [destruct e; reflexivity|].
    cbn [Expense.setParticipants Expense.participants Expense.splitMethod Expense.amount].
    split; [now rewrite map_map|].
    intros _. rewrite length_map, En, Em, map_map. reflexivity.
  - cbv zeta. destruct (Ieee.offBy _ _) eqn:Eg; [discriminate|].
    intros H. injection H as <-.
    split; [destruct e; reflexivity|]. split; [reflexivity|].
    intros _. now rewrite En, Em, Eg.
  - cbv zeta. destruct (Ieee.offBy _ _); [discriminate|].
    intros H. injection H as <-.
    split; [destruct e; reflexivity|].
    cbn [Expense.setParticipants Expense.participants].
    split; [now rewrite map_map|].
    intros Hn. congruence.
Qed.

Lemma calculateShares_keeps_and_repeats_witness :
  Expense.calculateShares Scenario.shortByOne = Ok Scenario.shortByOne.
Proof.
  destruct (calculateShares_keeps_and_repeats Scenario.shortByOne Scenario.shortByOne eq_refl)
    as [_ [_ H]].
  apply H. discriminate.
Defined.

(** X6: the setter of [amount] stores a whole number of minor units that is
    within half a minor unit of the value given; setting a stored amount
    again does not change it, and a non-negative value stays non-negative. *)
Theorem amountSetter_minor_units (v : Q) :
  Expense.amountSetter v == inject_Z (Num.round (v * 100)) / 100 /\
  Qabs (Expense.amountSetter v - v) <= 1 # 200 /\
  Expense.amountSetter (Expense.amountSetter v) = Expense.amountSetter v /\
  (0 <= v -> 0 <= Expense.amountSetter v).
Proof.
  unfold Expense.amountSetter.
  split; [reflexivity|]. split; [apply round2_close|].
  split; [apply ShareFacts.round2_again|].
  intros H. unfold Num.round2.
  assert (Hr : (0 <= Num.round (v * 100))%Z) by (apply ShareFacts.round_nonneg; lra).
  rewrite Zle_Qle in Hr. change (inject_Z 0) with 0 in Hr.
  set (k := inject_Z (Num.round (v * 100))) in *.
  assert (E : k / 100 == k * (1 # 100)) by (field; discriminate).
  rewrite E. lra.
Qed.

Lemma amountSetter_minor_units_witness : 0 <= Expense.amountSetter (12345 # 1000).
Proof.
  apply (amountSetter_minor_units (12345 # 1000)). discriminate.
Defined.

(* ===================================================================== *)
(** * Saving an expense *)
(* ===================================================================== *)

Module HookFacts.
Import BalancesFacts RecomputeFacts RemovalFacts SettleFacts.

(** The group that the post-save hook writes back, field by field. *)
Lemma postSave_group_fields (doc : Expense.t) (db : Db.t) (g : Group.t) :
  Db.findGroup (Expense.group doc) db = Some g ->
  exists g',
    ExpenseModel.postSave doc db = Db.saveGroup g' db /\
    Group._id g' = Group._id g /\
    Group.createdBy g' = Group.createdBy g /\
    Group.members g' = Group.members g /\
    Group.settings g' = Group.settings g /\
    Group.isActive g' = Group.isActive g /\
    Group.balances g' = Group.balances g /\
    Group.activityLog g' = Group.activityLog g /\
    Group.totalSettled g'
    = Num.sumOf Expense.amount
        (filter Expense.settled (Db.expensesOf (Expense.group doc) db)) /\
    Group.totalExpenses g'
    = Num.sumOf Expense.amount (Db.expensesOf (Expense.group doc) db) /\
    Group.expenses g'
    = if existsb (idEq (Expense._id doc)) (Group.expenses g) then Group.expenses g
      else Group.expenses g ++ [Expense._id doc].
Proof.
  intros H. unfold ExpenseModel.postSave. rewrite H.
  cbn [Group.expenses Group.setTotalSettled Group.setTotalExpenses].
  destruct (existsb _ _); eexists; (split; [reflexivity|]); repeat split; reflexivity.
Qed.

Lemma existsb_idEq (id : ObjectId) (ids : list ObjectId) :
  existsb (idEq id) ids = true <-> In id ids.
Proof.
  rewrite existsb_exists. split.
  - intros [x [Hx E]]. apply idEq_eq in E. now subst.
  - intros H. exists id. split; [exact H | apply idEq_refl].
Qed.

End HookFacts.

(** X7: [addSettlement] never throws; it stores the expense with the posted
    settlement appended after the ones already on record, an expense that
    was settled stays settled, and nothing of the expense changes but its
    settlements and its settled flag. *)
Theorem settlement_records
        (db : Db.t) (this : Expense.t) :
  forall from to amount method transactionId,
    exists db' this',
      ExpenseModel.addSettlement db this from to amount method transactionId
        = Ok (db', this') /\
      Db.findExpense (Expense._id this) db' = Some this' /\
      Expense.settlements this'
        = Expense.settlements this ++ [Settlement.mk from to amount method transactionId] /\
      (Expense.settled this = true -> Expense.settled this' = true) /\
      Expense.setSettled (Expense.settled this)
        (Expense.setSettlements (Expense.settlements this) this') = this.
Proof.
  intros from to amount method transactionId.
  unfold ExpenseModel.addSettlement, ExpenseModel.save, ExpenseModel.preSave. cbn [bind].
  eexists. eexists. split; [reflexivity|].
  split.
  { match goal with
    | |- Db.findExpense _ (ExpenseModel.postSave ?e (Db.writeExpense ?e ?d)) = _ =>
        assert (E : Db.expenses (ExpenseModel.postSave e (Db.writeExpense e d))
                    = Db.putExpense e (Db.expenses d))
    end.
    { unfold ExpenseModel.postSave. destruct (Db.findGroup _ _); reflexivity. }
    unfold Db.findExpense. rewrite E.
    match goal with
    | |- find _ (Db.putExpense ?e _) = _ =>
        replace (Expense._id this) with (Expense._id e)
          by (destruct (Ieee.reaches _ _); reflexivity)
    end.
    apply SettleFacts.find_putExpense. }
  destruct (Ieee.reaches _ _); cbn.
  + split; [reflexivity|]. split; [reflexivity|]. destruct this; reflexivity.
  + split; [reflexivity|]. split; [tauto|]. destruct this; reflexivity.
Qed.

Lemma settlement_records_witness :
  exists db' this',
    ExpenseModel.addSettlement (Scenario.store [Scenario.settledDinner])
      Scenario.settledDinner Scenario.B Scenario.A 10 upi None = Ok (db', this') /\
    Expense.settled this' = true.
Proof.
  destruct (settlement_records (Scenario.store [Scenario.settledDinner])
              Scenario.settledDinner Scenario.B Scenario.A 10 upi None)
    as [db' [this' [H1 [_ [_ [H2 _]]]]]].
  exists db', this'. split; [exact H1 | apply H2; reflexivity].
Defined.

(** X8: after a successful [save] of an expense whose group exists, the
    stored group has [totalExpenses] equal to the sum of the amounts of the
    group's stored expenses and [totalSettled] equal to the sum over the
    settled ones, lists the expense's id, without repeating an id when its
    list had none repeated, and keeps its members, balances, settings,
    creator, active flag and activity log. *)
Theorem save_recounts_group_totals
        (db db' : Db.t) (recalc : bool) (e e' : Expense.t) (g : Group.t) :
  ExpenseModel.save db recalc e = Ok (db', e') ->
  Db.findGroup (Expense.group e') db = Some g ->
  exists g',
    Db.findGroup (Expense.group e') db' = Some g' /\
    Db.findExpense (Expense._id e') db' = Some e' /\
    Group.totalExpenses g'
      = Num.sumOf Expense.amount (Db.expensesOf (Expense.group e') db') /\
    Group.totalSettled g' = Ledger.settledSum (Expense.group e') db' /\
    In (Expense._id e') (Group.expenses g') /\
    (NoDup (Group.expenses g) -> NoDup (Group.expenses g')) /\
    Group.members g' = Group.members g /\
    Group.balances g' = Group.balances g /\
    Group.settings g' = Group.settings g /\
    Group.createdBy g' = Group.createdBy g /\
    Group.isActive g' = Group.isActive g /\
    Group.activityLog g' = Group.activityLog g.
Proof.
  unfold ExpenseModel.save.
  destruct (ExpenseModel.preSave recalc e) as [this|]; cbn [bind]; [|discriminate].
  intros H Hg. injection H as <- <-.
  assert (Hg' : Db.findGroup (Expense.group this) (Db.writeExpense this db) = Some g)
    by exact Hg.
  destruct (HookFacts.postSave_group_fields this _ g Hg')
    as [g' [Hp [Hid [Hc [Hm [Hs [Ha [Hb [Hl [Hts [Hte Hex]]]]]]]]]]].
  rewrite Hp. exists g'.
  split.
  { rewrite <- (RecomputeFacts.findGroup_id _ _ _ Hg), <- Hid.
    apply RemovalFacts.findGroup_saveGroup. }
  split.
  { unfold Db.findExpense, Db.saveGroup, Db.writeExpense. cbn.
    apply SettleFacts.find_putExpense. }
  split; [rewrite Hte; reflexivity|].
  split; [rewrite Hts; reflexivity|].
  split.
  { rewrite Hex. destruct (existsb _ _) eqn:E.
    - now apply HookFacts.existsb_idEq.
    - apply in_or_app. right. now left. }
  split.
  { intros Hnd. rewrite Hex. destruct (existsb _ _) eqn:E; [exact Hnd|].
    apply NoDup_app; [exact Hnd | constructor; [intros [] | constructor] |].
    intros x Hx [<-|[]].
    apply HookFacts.existsb_idEq in Hx. congruence. }
  repeat split; assumption.
Qed.

Lemma save_recounts_group_totals_witness :
  exists g',
    Db.findGroup Scenario.G Cases.savedDinner = Some g' /\
    In "dinner"%string (Group.expenses g').
Proof.
  destruct (save_recounts_group_totals (Scenario.store [Scenario.dinner]) Cases.savedDinner
              false Scenario.dinner Scenario.dinner (Scenario.group [Scenario.dinner])
              eq_refl eq_refl)
    as [g' [H1 [_ [_ [_ [H2 _]]]]]].
  exists g'. split; [exact H1 | exact H2].
Defined.

(* ===================================================================== *)
(** * What the handlers let through *)
(* ===================================================================== *)

Ltac cases_eq :=
  repeat match goal with
         | |- context [match ?x with _ => _ end] =>
             match type of x with
             | bool => destruct x eqn:?
             | option _ => destruct x eqn:?
             | Result _ => destruct x as [[? ?]|?] eqn:?
             | prod _ _ => destruct x eqn:?
             end
         end.

(** X9: a request that is answered with an error status (400 and above)
    leaves the store exactly as it was, also when the error is the 500 of
    a method that threw: no handler writes before it refuses, and a method
    that throws has written nothing. *)
Theorem refused_request_writes_nothing (db : Db.t) (userId : ObjectId) (req : Routes.Request) :
  Response.isError (fst (Routes.handle db userId req)) = true ->
  snd (Routes.handle db userId req) = db.
Proof.
  destruct req; cbn [Routes.handle].
  - apply createExpense_error_keeps_store.
  - apply updateExpense_error_keeps_store.
  - unfold Routes.deleteExpense. cbv zeta.
    handler_cases; cbn; intros; try reflexivity; discriminate.
  - unfold Routes.settleExpense.
    handler_cases; cbn; intros; try reflexivity; discriminate.
  - unfold Routes.addSettlement.
    handler_cases; cbn; intros; try reflexivity; discriminate.
  - unfold Routes.createGroup. cbv zeta.
    handler_cases; cbn; intros; try reflexivity; discriminate.
  - unfold Routes.addMember, Routes.isGroupMember. cbv zeta.
    handler_cases; cbn; intros; try reflexivity; discriminate.
  - unfold Routes.removeMember, Routes.isGroupMember. cbv zeta.
    handler_cases; cbn; intros; try reflexivity; discriminate.
  - unfold Admin.updateRole, Admin.isGroupAdmin.
    handler_cases; cbn; intros; try reflexivity; discriminate.
  - unfold Routes.getBalances, Routes.isGroupMember.
    handler_cases; cbn; intros; try reflexivity; discriminate.
  - unfold Routes.deleteGroup. cbv zeta.
    handler_cases; cbn; intros; try reflexivity; discriminate.
Qed.

Lemma refused_request_writes_nothing_witness :
  snd (Routes.handle (Scenario.store [Scenario.settledDinner]) Scenario.A
         (Routes.DeleteExpense "dinner"))
  = Scenario.store [Scenario.settledDinner].
Proof.
  apply refused_request_writes_nothing. reflexivity.
Defined.

(** X10: an expense is changed only for a caller who is an active member of
    its group.  An update or a delete that is not refused was asked for an
    unsettled expense by its creator or by an admin (or the creator) of the
    group; a settle that is not refused was asked for an unsettled expense;
    an added settlement that is not refused names the caller as its payer
    or its payee. *)
Theorem expense_changes_need_authority (db : Db.t) (userId expenseId : ObjectId) :
  (forall updates,
     Response.isError (fst (Routes.updateExpense db userId expenseId updates)) = false ->
     exists expense group,
       Db.findExpense expenseId db = Some expense /\
       Db.findGroup (Expense.group expense) db = Some group /\
       Group.isActiveMember userId group = true /\
       Expense.settled expense = false /\
       (Expense.createdBy expense = userId \/ Group.isAdmin userId group = true)) /\
  (Response.isError (fst (Routes.deleteExpense db userId expenseId)) = false ->
   exists expense group,
     Db.findExpense expenseId db = Some expense /\
     Db.findGroup (Expense.group expense) db = Some group /\
     Group.isActiveMember userId group = true /\
     Expense.settled expense = false /\
     (Expense.createdBy expense = userId \/ Group.isAdmin userId group = true)) /\
  (forall settlements,
     Response.isError (fst (Routes.settleExpense db userId expenseId settlements)) = false ->
     exists expense group,
       Db.findExpense expenseId db = Some expense /\
       Db.findGroup (Expense.group expense) db = Some group /\
       Group.isActiveMember userId group = true /\
       Expense.settled expense = false) /\
  (forall from to amount method transactionId,
     Response.isError
       (fst (Routes.addSettlement db userId expenseId from to amount method transactionId))
     = false ->
     exists expense group,
       Db.findExpense expenseId db = Some expense /\
       Db.findGroup (Expense.group expense) db = Some group /\
       Group.isActiveMember userId group = true /\
       (from = userId \/ to = userId) /\
       1 # 100 <= amount).
Proof.
  assert (Howner : forall expense group,
             negb (idEq (Expense.createdBy expense) userId)
             && negb (Group.isAdmin userId group) = false ->
             Expense.createdBy expense = userId \/ Group.isAdmin userId group = true).
  { intros expense group H. apply andb_false_iff in H.
    destruct H as [H|H]; apply negb_false_iff in H;
      [left; now apply BalancesFacts.idEq_eq | now right]. }
  split; [|split; [|split]].
  - intros updates. unfold Routes.updateExpense. cbv zeta.
    cases_eq; cbn; intros H; try discriminate H;
      eexists; eexists; repeat split; try eassumption;
      try (now apply negb_false_iff); now apply Howner.
  - unfold Routes.deleteExpense. cbv zeta.
    cases_eq; cbn; intros H; try discriminate H;
      eexists; eexists; repeat split; try eassumption;
      try (now apply negb_false_iff); now apply Howner.
  - intros settlements. unfold Routes.settleExpense.
    cases_eq; cbn; intros H; try discriminate H;
      eexists; eexists; repeat split; try eassumption;
      now apply negb_false_iff.
  - intros from to amount method transactionId. unfold Routes.addSettlement.
    cases_eq; cbn; intros H; try discriminate H;
      eexists; eexists; (split; [reflexivity|]); (split; [eassumption|]);
      (split; [now apply negb_false_iff|]);
      (split;
       [ match goal with
         | E : negb (idEq from userId) && negb (idEq to userId) = false |- _ =>
             apply andb_false_iff in E; destruct E as [E|E]; apply negb_false_iff in E;
             [left | right]; now apply BalancesFacts.idEq_eq
         end
       | match goal with
         | E : negb (Num.geb amount (1 # 100)) = false |- _ =>
             apply negb_false_iff in E; now apply geb_true in E
         end ]).
Qed.

Lemma expense_changes_need_authority_witness :
  exists expense group,
    Db.findExpense "dinner" (Scenario.store [Scenario.dinner]) = Some expense /\
    Db.findGroup (Expense.group expense) (Scenario.store [Scenario.dinner]) = Some group /\
    Group.isActiveMember Scenario.B group = true /\
    (Scenario.B = Scenario.B \/ Scenario.A = Scenario.B).
Proof.
  destruct (expense_changes_need_authority (Scenario.store [Scenario.dinner])
              Scenario.B "dinner") as [_ [_ [_ H]]].
  destruct (H Scenario.B Scenario.A 10 (Some upi) None) as [e [g [H1 [H2 [H3 [H4 _]]]]]].
  - reflexivity.
  - exists e, g. split; [exact H1|]. split; [exact H2|]. split; [exact H3 | exact H4].
Defined.

Module DeleteFacts.
Import BalancesFacts.

Lemma find_deleted (id : ObjectId) (es : list Expense.t) :
  find (fun e => idEq (Expense._id e) id)
       (filter (fun e => negb (idEq (Expense._id e) id)) es) = None.
Proof.
  induction es as [|e es IH]; simpl; [reflexivity|].
  destruct (idEq (Expense._id e) id) eqn:E; simpl; [exact IH|].
  now rewrite E.
Qed.

Lemma find_pullExpense (groupId expenseId : ObjectId) (gs : list Group.t) :
  find (fun g => idEq (Group._id g) groupId) (Db.pullExpense groupId expenseId gs)
  = option_map
      (fun g =>
         Group.setExpenses
           (filter (fun e => negb (idEq e expenseId)) (Group.expenses g)) g)
      (find (fun g => idEq (Group._id g) groupId) gs).
Proof.
  induction gs as [|g gs IH]; simpl; [reflexivity|].
  destruct (idEq (Group._id g) groupId) eqn:E; simpl; rewrite E; [reflexivity | exact IH].
Qed.

Lemma not_in_filtered (id : ObjectId) (ids : list ObjectId) :
  ~ In id (filter (fun e => negb (idEq e id)) ids).
Proof.
  intros H. apply filter_In in H. destruct H as [_ H].
  rewrite idEq_refl in H. discriminate.
Qed.

End DeleteFacts.

(** X11: when an active member who created the expense, or who is an admin
    or the creator of the group, deletes an unsettled expense, the handler
    answers 200, the expense is gone from the store and its id from the
    group's list; the users, the group's members and balance table and also
    its [totalExpenses] and [totalSettled] counters are left as they were:
    the totals are not recounted on a delete. *)
Theorem deleteExpense_effects
        (db : Db.t) (userId expenseId : ObjectId) (expense : Expense.t) (group : Group.t) :
  Db.findExpense expenseId db = Some expense ->
  Expense.settled expense = false ->
  Db.findGroup (Expense.group expense) db = Some group ->
  Group.isActiveMember userId group = true ->
  Expense.createdBy expense = userId \/ Group.isAdmin userId group = true ->
  exists db' group',
    Routes.deleteExpense db userId expenseId
      = (Response.json 200 "Expense deleted successfully", db') /\
    Db.findExpense expenseId db' = None /\
    Db.expenses db' = filter (fun e => negb (idEq (Expense._id e) expenseId)) (Db.expenses db) /\
    Db.users db' = Db.users db /\
    Db.findGroup (Expense.group expense) db' = Some group' /\
    ~ In expenseId (Group.expenses group') /\
    Group.totalExpenses group' = Group.totalExpenses group /\
    Group.totalSettled group' = Group.totalSettled group /\
    Group.balances group' = Group.balances group /\
    Group.members group' = Group.members group.
Proof.
  intros He Hs Hg Hm Ho.
  pose proof (SettleFacts.findExpense_id _ _ _ He) as Hid.
  unfold Routes.deleteExpense. rewrite He, Hs, Hg, Hm. cbn [negb].
  assert (Hown : negb (idEq (Expense.createdBy expense) userId)
                 && negb (Group.isAdmin userId group) = false).
  { apply andb_false_iff. destruct Ho as [Ho|Ho].
    - left. apply negb_false_iff. now apply BalancesFacts.idEq_eq.
    - right. now rewrite Ho. }
  rewrite Hown, Hid.
  eexists. eexists. split; [reflexivity|].
  split; [apply DeleteFacts.find_deleted|].
  split; [reflexivity|]. split; [reflexivity|].
  split.
  { unfold Db.findGroup, Db.deleteExpense. cbn.
    rewrite DeleteFacts.find_pullExpense.
    unfold Db.findGroup in Hg. rewrite Hg. reflexivity. }
  cbn. split; [apply DeleteFacts.not_in_filtered|]. repeat split; reflexivity.
Qed.

Lemma deleteExpense_effects_witness :
  exists db' group',
    Routes.deleteExpense (Scenario.store [Scenario.dinner]) Scenario.A "dinner"
      = (Response.json 200 "Expense deleted successfully", db') /\
    Db.findExpense "dinner" db' = None /\
    Group.totalExpenses group' = Group.totalExpenses (Scenario.group [Scenario.dinner]).
Proof.
  destruct (deleteExpense_effects (Scenario.store [Scenario.dinner]) Scenario.A "dinner"
              Scenario.dinner (Scenario.group [Scenario.dinner])
              eq_refl eq_refl eq_refl eq_refl (or_introl eq_refl))
    as [db' [g' [H1 [H2 [_ [_ [_ [_ [H3 _]]]]]]]]].
  exists db', g'. split; [exact H1|]. split; [exact H2 | exact H3].
Defined.

(** X12: reading the balances a second time gives the same answer and
    leaves the store as the first read left it, whether the first read
    was answered with the table or with an error. *)
Theorem getBalances_again (db : Db.t) (userId groupId : ObjectId) :
  Routes.getBalances (snd (Routes.getBalances db userId groupId)) userId groupId
  = Routes.getBalances db userId groupId.
Proof.
  unfold Routes.getBalances at 2 3. unfold Routes.isGroupMember.
  destruct (Db.findGroup groupId db) as [group|] eqn:Hg.
  2:{ cbn [snd]. unfold Routes.getBalances, Routes.isGroupMember. now rewrite Hg. }
  destruct (Group.isActiveMember userId group) eqn:Hm.
  2:{ cbn [snd]. unfold Routes.getBalances, Routes.isGroupMember. now rewrite Hg, Hm. }
  pose proof (RecomputeFacts.findGroup_id _ _ _ Hg) as Hgid. subst groupId.
  destruct (GroupModel.calculateBalances db group (Live.populated db group))
    as [[db1 group1]|m] eqn:Hc.
  2:{ cbn [snd]. unfold Routes.getBalances, Routes.isGroupMember. now rewrite Hg, Hm, Hc. }
  cbn [snd].
  destruct (RecomputeFacts.calculateBalances_stored _ _ _ _ _ Hc) as [H0 [Ht [E1 E2]]].
  destruct (RecomputeFacts.calculateBalances_again db group (Group.balances group1) H0 Ht)
    as [_ Hagain].
  cbv zeta in Hagain. rewrite <- E1, <- E2 in Hagain.
  assert (Hg1 : Db.findGroup (Group._id group) db1 = Some group1).
  { assert (Hid1 : Group._id group1 = Group._id group) by (rewrite E1; reflexivity).
    rewrite E2, <- Hid1. exact (RemovalFacts.findGroup_saveGroup group1 db). }
  assert (Hm1 : Group.isActiveMember userId group1 = true).
  { rewrite E1. exact Hm. }
  unfold Routes.getBalances, Routes.isGroupMember.
  rewrite Hg1, Hm1, Hagain. reflexivity.
Qed.

(* ===================================================================== *)
(** * Creating an expense *)
(* ===================================================================== *)

Module CreateFacts.
Import BalancesFacts.

(** The users that the query of the create handler finds have distinct
    ids when the stored users have. *)
Lemma found_users_distinct (ids : list ObjectId) (users : list User.t) :
  NoDup (map User._id users) ->
  NoDup (map User._id (filter (fun u => existsb (idEq (User._id u)) ids) users)).
Proof.
  induction users as [|u users IH]; cbn [map filter]; [intros; constructor|].
  intros H. inversion H as [|? ? Hu Hrest]; subst.
  destruct (existsb (idEq (User._id u)) ids); cbn [map]; [|now apply IH].
  constructor; [|now apply IH].
  intros Hin. apply Hu. apply in_map_iff in Hin. destruct Hin as [y [E Hy]].
  apply filter_In in Hy. apply in_map_iff. exists y. split; [exact E | apply Hy].
Qed.

Lemma found_users_incl (ids : list ObjectId) (users : list User.t) :
  incl (map User._id (filter (fun u => existsb (idEq (User._id u)) ids) users)) ids.
Proof.
  intros x Hx. apply in_map_iff in Hx. destruct Hx as [u [<- Hu]].
  apply filter_In in Hu. destruct Hu as [_ Hu].
  now apply HookFacts.existsb_idEq.
Qed.

(** With distinct user ids, the handler's count of the users found equals
    the number of ids asked for exactly when the ids are distinct and each
    is the id of a user. *)
Lemma found_all_iff (ids : list ObjectId) (users : list User.t) :
  NoDup (map User._id users) ->
  (List.length (filter (fun u => existsb (idEq (User._id u)) ids) users) = List.length ids
   <-> NoDup ids /\ incl ids (map User._id users)).
Proof.
  intros Hu.
  set (found := filter (fun u => existsb (idEq (User._id u)) ids) users).
  assert (Hnd : NoDup (map User._id found)) by now apply found_users_distinct.
  assert (Hincl : incl (map User._id found) ids) by apply found_users_incl.
  split.
  - intros Hlen.
    assert (Hle : (List.length ids <= List.length (map User._id found))%nat)
      by (rewrite length_map, Hlen; apply Nat.le_refl).
    split.
    + exact (NoDup_incl_NoDup Hnd Hle Hincl).
    + intros x Hx.
      pose proof (NoDup_length_incl Hnd Hle Hincl x Hx) as H.
      apply in_map_iff in H. destruct H as [u [<- Hin]].
      apply filter_In in Hin. apply in_map. apply Hin.
  - intros [Hids Hall].
    rewrite <- (length_map User._id found).
    apply Permutation_length, NoDup_Permutation; [exact Hnd | exact Hids|].
    intros x. split; [apply Hincl|].
    intros Hx. pose proof (Hall x Hx) as H. apply in_map_iff in H.
    destruct H as [u [<- Hin]]. apply in_map. apply filter_In.
    split; [exact Hin | now apply HookFacts.existsb_idEq].
Qed.

(** The checks that an accepted create request has passed. *)
Lemma createExpense_accepted (db : Db.t) (userId newId : ObjectId) (body : Routes.CreateBody.t) :
  Response.isError (fst (Routes.createExpense db userId newId body)) = false ->
  exists group,
    Db.findGroup (Routes.CreateBody.group body) db = Some group /\
    Num.geb (Routes.CreateBody.amount body) (1 # 100) = true /\
    Nat.leb 1 (List.length (Routes.CreateBody.participants body)) = true /\
    Group.isActiveMember userId group = true /\
    Db.findUser (Routes.CreateBody.paidBy body) db <> None /\
    Group.isActiveMember (Routes.CreateBody.paidBy body) group = true /\
    List.length
      (filter (fun u => existsb (idEq (User._id u)) (Creation.participantIds body))
              (Db.users db))
    = List.length (Creation.participantIds body) /\
    forallb (fun id => Group.isActiveMember id group) (Creation.participantIds body) = true /\
    succeeds (ExpenseModel.save db true (Creation.built userId newId group body)).
Proof.
  unfold Routes.createExpense. cbv zeta.
  fold (Creation.participantIds body).
  destruct (negb _) eqn:Ev; [discriminate|].
  apply negb_false_iff, andb_true_iff in Ev. destruct Ev as [Ev1 Ev2].
  destruct (Db.findGroup _ db) as [group|] eqn:Hg; [|discriminate].
  destruct (negb (Group.isActiveMember userId group)) eqn:Hm; [discriminate|].
  destruct (Db.findUser _ db) eqn:Hp; [|discriminate].
  destruct (negb (Group.isActiveMember (Routes.CreateBody.paidBy body) group)) eqn:Hpm;
    [discriminate|].
  destruct (negb (Nat.eqb _ _)) eqn:Hl; [discriminate|].
  destruct (negb (forallb _ _)) eqn:Ha; [discriminate|].
  fold (Creation.built userId newId group body).
  destruct (ExpenseModel.save db true (Creation.built userId newId group body))
    as [[db' e']|m] eqn:Hs; [|discriminate].
  intros _. exists group.
  apply negb_false_iff in Hm, Hpm, Hl, Ha. apply Nat.eqb_eq in Hl.
  repeat split; try assumption; try discriminate.
  now exists (db', e').
Qed.

(** A successful share calculation changes the participants only. *)
Lemma calculateShares_fields (e e' : Expense.t) :
  Expense.calculateShares e = Ok e' ->
  Expense.setParticipants (Expense.participants e) e' = e.
Proof.
  unfold Expense.calculateShares.
  destruct (Nat.eqb _ 0); [discriminate|].
  destruct (Expense.splitMethod e).
  - intros H. injection H as <-. destruct e; reflexivity.
  - cbv zeta. destruct (Ieee.offBy _ _); [discriminate|].
    intros H. injection H as <-. destruct e; reflexivity.
  - cbv zeta. destruct (Ieee.offBy _ _); [discriminate|].
    intros H. injection H as <-. destruct e; reflexivity.
Qed.

Lemma In_putExpense (e : Expense.t) (es : list Expense.t) : In e (Db.putExpense e es).
Proof.
  induction es as [|x es IH]; simpl; [now left|].
  destruct (idEq _ _); [now left | now right].
Qed.

End CreateFacts.

(** X14: with distinct user ids in the store, a create request that is not
    refused names every participant once, every participant and the payer
    are users and active members of the group, the caller is an active
    member, the amount is at least 0.01 and there is at least one
    participant.  In particular a request that names a user twice, or names
    an id that is no user, is refused. *)
Theorem createExpense_accepts_only_checked_requests
        (db : Db.t) (userId newId : ObjectId) (body : Routes.CreateBody.t) :
  NoDup (map User._id (Db.users db)) ->
  Response.isError (fst (Routes.createExpense db userId newId body)) = false ->
  exists group,
    Db.findGroup (Routes.CreateBody.group body) db = Some group /\
    1 # 100 <= Routes.CreateBody.amount body /\
    Routes.CreateBody.participants body <> [] /\
    NoDup (Creation.participantIds body) /\
    (forall id, In id (Creation.participantIds body) ->
       In id (map User._id (Db.users db)) /\ Group.isActiveMember id group = true) /\
    Group.isActiveMember (Routes.CreateBody.paidBy body) group = true /\
    Db.findUser (Routes.CreateBody.paidBy body) db <> None /\
    Group.isActiveMember userId group = true.
Proof.
  intros Hu Hok.
  destruct (CreateFacts.createExpense_accepted db userId newId body Hok)
    as [group [Hg [Ha [Hn [Hm [Hp [Hpm [Hl [Hall _]]]]]]]]].
  apply (CreateFacts.found_all_iff _ _ Hu) in Hl. destruct Hl as [Hnd Hincl].
  exists group. split; [exact Hg|].
  split; [now apply geb_true|].
  split.
  { destruct (Routes.CreateBody.participants body); [discriminate Hn | discriminate]. }
  split; [exact Hnd|].
  split.
  { intros id Hid. split; [now apply Hincl|].
    rewrite forallb_forall in Hall. now apply Hall. }
  repeat split; assumption.
Qed.

Lemma createExpense_accepts_only_checked_requests_witness :
  NoDup (Creation.participantIds Scenario.unevenBody).
Proof.
  destruct (createExpense_accepts_only_checked_requests
              (Scenario.store []) Scenario.A "uneven" Scenario.unevenBody)
    as [g [_ [_ [_ [H _]]]]].
  - vm_compute. repeat constructor; simpl; intuition discriminate.
  - reflexivity.
  - exact H.
Defined.

(** X15: conversely, with distinct user ids in the store, a create request
    with an amount of at least 0.01 and at least one participant, by an
    active member of an existing group, that names an existing user and
    active member as payer and distinct users who are active members as
    participants, and whose shares the split calculator accepts, is
    answered with 201.  The store then holds the expense with the computed
    shares under the new id, unsettled; the group lists the new id; the
    users, the group's members and the group's stored balance table are as
    before: creating an expense does not recompute the balances. *)
Theorem createExpense_stores_without_recomputing
        (db : Db.t) (userId newId : ObjectId) (body : Routes.CreateBody.t)
        (group : Group.t) (e' : Expense.t) :
  NoDup (map User._id (Db.users db)) ->
  1 # 100 <= Routes.CreateBody.amount body ->
  Routes.CreateBody.participants body <> [] ->
  Db.findGroup (Routes.CreateBody.group body) db = Some group ->
  Group.isActiveMember userId group = true ->
  Db.findUser (Routes.CreateBody.paidBy body) db <> None ->
  Group.isActiveMember (Routes.CreateBody.paidBy body) group = true ->
  NoDup (Creation.participantIds body) ->
  (forall id, In id (Creation.participantIds body) ->
     In id (map User._id (Db.users db)) /\ Group.isActiveMember id group = true) ->
  Expense.calculateShares (Creation.built userId newId group body) = Ok e' ->
  exists db' g',
    Routes.createExpense db userId newId body
    = (Response.json 201 "Expense created successfully", db') /\
    Db.findExpense newId db' = Some e' /\
    In e' (Db.unsettledOf (Routes.CreateBody.group body) db') /\
    Db.users db' = Db.users db /\
    Db.findGroup (Routes.CreateBody.group body) db' = Some g' /\
    In newId (Group.expenses g') /\
    Group.members g' = Group.members group /\
    Group.balances g' = Group.balances group.
Proof.
  intros Hu Ha Hn Hg Hm Hp Hpm Hnd Hall Hcalc.
  pose proof (CreateFacts.calculateShares_fields _ _ Hcalc) as Hf.
  assert (Hid : Expense._id e' = newId).
  { change newId with (Expense._id (Creation.built userId newId group body)).
    rewrite <- Hf. reflexivity. }
  assert (Hgr : Expense.group e' = Routes.CreateBody.group body).
  { change (Routes.CreateBody.group body)
      with (Expense.group (Creation.built userId newId group body)).
    rewrite <- Hf. reflexivity. }
  assert (Hst : Expense.settled e' = false).
  { change false with (Expense.settled (Creation.built userId newId group body)).
    rewrite <- Hf. reflexivity. }
  assert (Hg' : Db.findGroup (Expense.group e') (Db.writeExpense e' db) = Some group)
    by (rewrite Hgr; exact Hg).
  destruct (HookFacts.postSave_group_fields e' _ group Hg')
    as [g' [Hpost [Hgid [_ [Hmem [_ [_ [Hbal [_ [_ [_ Hex]]]]]]]]]]].
  exists (ExpenseModel.postSave e' (Db.writeExpense e' db)), g'.
  split.
  { unfold Routes.createExpense. cbv zeta.
    fold (Creation.participantIds body).
    apply geb_true in Ha. rewrite Ha.
    assert (Hl : Nat.leb 1 (List.length (Routes.CreateBody.participants body)) = true)
      by (destruct (Routes.CreateBody.participants body); [contradiction | reflexivity]).
    rewrite Hl, Hg, Hm. cbn [andb negb].
    destruct (Db.findUser (Routes.CreateBody.paidBy body) db); [|contradiction].
    rewrite Hpm. cbn [negb].
    assert (Hlen : List.length
                     (filter (fun u => existsb (idEq (User._id u)) (Creation.participantIds body))
                             (Db.users db))
                   = List.length (Creation.participantIds body)).
    { apply (CreateFacts.found_all_iff _ _ Hu). split; [exact Hnd|].
      intros x Hx. now apply Hall. }
    rewrite Hlen, Nat.eqb_refl. cbn [negb].
    assert (Hact : forallb (fun id => Group.isActiveMember id group)
                           (Creation.participantIds body) = true).
    { apply forallb_forall. intros x Hx. now apply Hall. }
    rewrite Hact. cbn [negb].
    fold (Creation.built userId newId group body).
    unfold ExpenseModel.save, ExpenseModel.preSave. rewrite Hcalc. reflexivity. }
  split.
  { rewrite Hpost, <- Hid. unfold Db.findExpense, Db.saveGroup, Db.writeExpense. cbn.
    apply SettleFacts.find_putExpense. }
  split.
  { rewrite Hpost. unfold Db.unsettledOf, Db.saveGroup, Db.writeExpense. cbn.
    apply filter_In. split; [apply CreateFacts.In_putExpense|].
    rewrite Hgr, Hst, BalancesFacts.idEq_refl. reflexivity. }
  split; [rewrite Hpost; reflexivity|].
  split.
  { rewrite Hpost, <- (RecomputeFacts.findGroup_id _ _ _ Hg), <- Hgid.
    apply RemovalFacts.findGroup_saveGroup. }
  split.
  { rewrite Hex, Hid.
    destruct (existsb (idEq newId) (Group.expenses group)) eqn:E.
    - apply HookFacts.existsb_idEq. exact E.
    - apply in_or_app. right. now left. }
  split; assumption.
Qed.

Lemma createExpense_stores_without_recomputing_witness :
  exists db',
    Routes.createExpense (Scenario.store []) Scenario.A "uneven" Scenario.unevenBody
    = (Response.json 201 "Expense created successfully", db').
Proof.
  destruct (createExpense_stores_without_recomputing
              (Scenario.store []) Scenario.A "uneven" Scenario.unevenBody
              (Scenario.group [])
              (Creation.built Scenario.A "uneven" (Scenario.group []) Scenario.unevenBody))
    as [db' [g' [H _]]].
  - vm_compute. repeat constructor; simpl; intuition discriminate.
  - vm_compute. discriminate.
  - discriminate.
  - reflexivity.
  - reflexivity.
  - discriminate.
  - reflexivity.
  - vm_compute. repeat constructor; simpl; intuition discriminate.
  - intros id Hid. vm_compute in Hid.
    destruct Hid as [<-|[<-|[]]]; split; try reflexivity; vm_compute; tauto.
  - reflexivity.
  - exists db'. exact H.
Defined.

(* ===================================================================== *)
(** * Members and their rows *)
(* ===================================================================== *)

Module RosterFacts.
Import Balances BalancesFacts RecomputeFacts RemovalFacts StoreFacts SettleFacts.

Lemma find_member_none (u : ObjectId) (ms : list Member.t) :
  find (fun m => idEq (Member.user m) u) ms = None <-> ~ In u (map Member.user ms).
Proof.
  induction ms as [|m ms IH]; simpl; [tauto|].
  destruct (idEq (Member.user m) u) eqn:E.
  - apply idEq_eq in E. split; [discriminate | intros H; exfalso; apply H; now left].
  - apply idEq_neq in E. rewrite IH. tauto.
Qed.

Lemma splice_incl (u v : ObjectId) (ms : list Member.t) :
  In v (map Member.user (GroupModel.spliceMember u ms)) -> In v (map Member.user ms).
Proof.
  induction ms as [|m ms IH]; simpl; [tauto|].
  destruct (idEq (Member.user m) u); simpl; [tauto|].
  intros [H|H]; [now left | right; now apply IH].
Qed.

Lemma splice_NoDup (u : ObjectId) (ms : list Member.t) :
  NoDup (map Member.user ms) -> NoDup (map Member.user (GroupModel.spliceMember u ms)).
Proof.
  induction ms as [|m ms IH]; simpl; [tauto|].
  intros H. inversion H as [|? ? Hm Hms]; subst.
  destruct (idEq (Member.user m) u); simpl; [exact Hms|].
  constructor; [|now apply IH].
  intros Hin. apply Hm. now apply (splice_incl u).
Qed.

Lemma splice_gone (u : ObjectId) (ms : list Member.t) :
  NoDup (map Member.user ms) -> ~ In u (map Member.user (GroupModel.spliceMember u ms)).
Proof.
  induction ms as [|m ms IH]; simpl; [tauto|].
  intros H. inversion H as [|? ? Hm Hms]; subst.
  destruct (idEq (Member.user m) u) eqn:E; simpl.
  - apply idEq_eq in E. now rewrite <- E.
  - apply idEq_neq in E. intros [H'|H']; [contradiction | now apply IH].
Qed.

Lemma find_splice_other (u v : ObjectId) (ms : list Member.t) :
  v <> u ->
  find (fun m => idEq (Member.user m) v) (GroupModel.spliceMember u ms)
  = find (fun m => idEq (Member.user m) v) ms.
Proof.
  intros Hne. induction ms as [|m ms IH]; simpl; [reflexivity|].
  destruct (idEq (Member.user m) u) eqn:E; simpl.
  - apply idEq_eq in E. subst u.
    assert (Hv : idEq (Member.user m) v = false) by (apply idEq_neq; congruence).
    now rewrite Hv.
  - now rewrite IH.
Qed.

Lemma active_splice_other (u v : ObjectId) (ms : list Member.t) :
  v <> u ->
  existsb (fun m => idEq (Member.user m) v && Member.isActive m) (GroupModel.spliceMember u ms)
  = existsb (fun m => idEq (Member.user m) v && Member.isActive m) ms.
Proof.
  intros Hne. induction ms as [|m ms IH]; simpl; [reflexivity|].
  destruct (idEq (Member.user m) u) eqn:E; simpl.
  - apply idEq_eq in E. subst u.
    assert (Hv : idEq (Member.user m) v = false) by (apply idEq_neq; congruence).
    now rewrite Hv.
  - now rewrite IH.
Qed.

Lemma splice_appended (u : ObjectId) (m : Member.t) (ms : list Member.t) :
  Member.user m = u ->
  find (fun x => idEq (Member.user x) u) ms = None ->
  GroupModel.spliceMember u (ms ++ [m]) = ms.
Proof.
  intros Hm. induction ms as [|x ms IH]; simpl.
  - intros _. now rewrite Hm, idEq_refl.
  - destruct (idEq (Member.user x) u); [discriminate|].
    intros H. now rewrite IH.
Qed.

Lemma setRole_users (memberId : ObjectId) (role : Role) (ms : list Member.t) :
  map Member.user (Admin.setRole memberId role ms) = map Member.user ms.
Proof.
  induction ms as [|m ms IH]; simpl; [reflexivity|].
  destruct (idEq (Member.user m) memberId); simpl; [reflexivity | now rewrite IH].
Qed.

Lemma setRole_active (memberId : ObjectId) (role : Role) (ms : list Member.t) :
  map Member.isActive (Admin.setRole memberId role ms) = map Member.isActive ms.
Proof.
  induction ms as [|m ms IH]; simpl; [reflexivity|].
  destruct (idEq (Member.user m) memberId); simpl; [reflexivity | now rewrite IH].
Qed.

(** ** The invariant, operation by operation *)

Lemma sound_same_groups (db db' : Db.t) :
  Db.groups db' = Db.groups db -> Roster.sound db -> Roster.sound db'.
Proof. unfold Roster.sound. intros E H g Hg. rewrite E in Hg. now apply H. Qed.

Lemma sound_found (id : ObjectId) (db : Db.t) (g : Group.t) :
  Roster.sound db -> Db.findGroup id db = Some g -> Roster.wellFormed g.
Proof. intros H Hg. apply H. now apply findGroup_In in Hg. Qed.

Lemma sound_saveGroup (g : Group.t) (db : Db.t) :
  Roster.sound db -> Roster.wellFormed g -> Roster.sound (Db.saveGroup g db).
Proof.
  intros H Hg x Hx. unfold Db.saveGroup in Hx. cbn in Hx.
  apply In_putGroup in Hx. destruct Hx as [->|Hx]; [exact Hg | now apply H].
Qed.

Lemma wellFormed_same (g g' : Group.t) :
  Group.members g' = Group.members g -> Group.balances g' = Group.balances g ->
  Roster.wellFormed g -> Roster.wellFormed g'.
Proof.
  unfold Roster.wellFormed, Roster.memberIds. intros -> ->. tauto.
Qed.

Lemma sound_postSave (doc : Expense.t) (db : Db.t) :
  Roster.sound db -> Roster.sound (ExpenseModel.postSave doc db).
Proof.
  intros H. destruct (Db.findGroup (Expense.group doc) db) as [g|] eqn:E.
  - destruct (HookFacts.postSave_group_fields doc db g E)
      as [g' [Hp [_ [_ [Hm [_ [_ [Hb _]]]]]]]].
    rewrite Hp. apply sound_saveGroup; [exact H|].
    apply (wellFormed_same g); [exact Hm | exact Hb | exact (sound_found _ _ _ H E)].
  - unfold ExpenseModel.postSave. now rewrite E.
Qed.

Lemma sound_save (db db' : Db.t) (recalc : bool) (e e' : Expense.t) :
  ExpenseModel.save db recalc e = Ok (db', e') ->
  Roster.sound db -> Roster.sound db'.
Proof.
  unfold ExpenseModel.save. destruct (ExpenseModel.preSave recalc e); cbn [bind]; [|discriminate].
  intros H Hb. injection H as <- _.
  apply sound_postSave. now apply (sound_same_groups db).
Qed.

Lemma hasRow_reset (u : ObjectId) (bs : list Balance.t) : hasRow u (reset bs) = hasRow u bs.
Proof.
  unfold hasRow, findRow, reset. induction bs as [|b bs IH]; simpl; [reflexivity|].
  destruct (idEq (Balance.user b) u); [reflexivity | exact IH].
Qed.

Lemma wellFormed_reset (g : Group.t) :
  Roster.wellFormed g ->
  Roster.wellFormed (Group.setBalances (reset (Group.balances g)) g).
Proof.
  intros [Hn Hr]. split; [exact Hn|].
  intros u Hu. cbn [Group.balances Group.setBalances]. rewrite hasRow_reset.
  now apply Hr.
Qed.

Lemma sound_calculateBalances (db db' : Db.t) (this this' : Group.t) (rows : list Live.Row) :
  rows = Live.loaded this \/ rows = Live.populated db this ->
  GroupModel.calculateBalances db this rows = Ok (db', this') ->
  Roster.wellFormed this ->
  Roster.sound db -> Roster.sound db'.
Proof.
  intros Hrows H Hw Hb.
  destruct (calculateBalances_table _ _ _ _ _ Hrows H) as [-> ->].
  apply sound_saveGroup; [exact Hb|]. now apply wellFormed_reset.
Qed.

Lemma sound_settle db db' e e' settledBy settlements :
  ExpenseModel.settle db e settledBy settlements = Ok (db', e') ->
  Roster.sound db -> Roster.sound db'.
Proof.
  unfold ExpenseModel.settle. cbv zeta. intros H Hb.
  destruct (Db.findGroup _ db) as [g|] eqn:E; cbn [bind] in H.
  - destruct (GroupModel.calculateBalances db _ (Live.loaded _)) as [[db1 g1]|] eqn:Ec;
      cbn [bind fst] in H; [|discriminate].
    apply sound_save in H; [exact H|].
    eapply sound_calculateBalances; [left; reflexivity | exact Ec | | exact Hb].
    apply (wellFormed_same g); [reflexivity | reflexivity | exact (sound_found _ _ _ Hb E)].
  - now apply sound_save in H.
Qed.

Lemma wellFormed_addMember db db' this this' userId role :
  GroupModel.addMember db this userId role = Ok (db', this') ->
  Roster.wellFormed this -> Roster.wellFormed this'.
Proof.
  unfold GroupModel.addMember.
  destruct (find _ (Group.members this)) eqn:E; [discriminate|].
  intros H [Hn Hr]. injection H as _ <-.
  apply find_member_none in E.
  unfold Roster.wellFormed, Roster.memberIds.
  cbn [Group.members Group.balances Group.setActivityLog Group.setBalances Group.setMembers].
  rewrite map_app. cbn [map Member.user].
  split.
  - apply NoDup_app; [exact Hn | constructor; [intros [] | constructor] |].
    intros x Hx [<-|[]]. contradiction.
  - intros u Hu. rewrite hasRow_app. apply in_app_or in Hu.
    destruct Hu as [Hu|[<-|[]]].
    + now rewrite (Hr u Hu).
    + apply orb_true_iff. right. unfold hasRow, findRow. cbn. now rewrite idEq_refl.
Qed.

Lemma sound_addMember db db' this this' userId role :
  GroupModel.addMember db this userId role = Ok (db', this') ->
  Roster.wellFormed this -> Roster.sound db -> Roster.sound db'.
Proof.
  intros H Hw Hb. pose proof (wellFormed_addMember _ _ _ _ _ _ H Hw) as Hw'.
  revert H. unfold GroupModel.addMember.
  destruct (find _ (Group.members this)); [discriminate|].
  intros H. injection H as <- E. rewrite E.
  apply sound_saveGroup; [|exact Hw'].
  now apply (sound_same_groups db).
Qed.

Lemma wellFormed_removeMember db db' this this' userId removedBy :
  GroupModel.removeMember db this userId removedBy = Ok (db', this') ->
  Roster.wellFormed this -> Roster.wellFormed this'.
Proof.
  unfold GroupModel.removeMember.
  destruct (find _ (Group.members this)); [|discriminate].
  intros H [Hn Hr]. injection H as _ <-.
  unfold Roster.wellFormed, Roster.memberIds.
  cbn [Group.members Group.balances Group.setActivityLog Group.setBalances Group.setMembers].
  split; [now apply splice_NoDup|].
  intros u Hu. rewrite hasRow_purge.
  assert (Hne : u <> userId).
  { intros ->. exact (splice_gone _ _ Hn Hu). }
  apply idEq_neq in Hne. rewrite Hne. cbn [negb andb].
  apply Hr. now apply (splice_incl userId).
Qed.

Lemma sound_removeMember db db' this this' userId removedBy :
  GroupModel.removeMember db this userId removedBy = Ok (db', this') ->
  Roster.wellFormed this -> Roster.sound db -> Roster.sound db'.
Proof.
  intros H Hw Hb. pose proof (wellFormed_removeMember _ _ _ _ _ _ H Hw) as Hw'.
  revert H. unfold GroupModel.removeMember.
  destruct (find _ (Group.members this)); [|discriminate].
  intros H. injection H as <- E. rewrite E.
  apply sound_saveGroup; [|exact Hw'].
  now apply (sound_same_groups db).
Qed.

Lemma In_pullExpense_fields (x : Group.t) (groupId expenseId : ObjectId) (gs : list Group.t) :
  In x (Db.pullExpense groupId expenseId gs) ->
  exists y, In y gs /\ Group.members x = Group.members y
            /\ Group.balances x = Group.balances y.
Proof.
  induction gs as [|g gs IH]; simpl; [intros []|].
  destruct (idEq (Group._id g) groupId); simpl.
  - intros [E|H].
    + exists g. split; [now left | now rewrite <- E].
    + exists x. split; [now right | split; reflexivity].
  - intros [E|H].
    + exists x. split; [now left | split; reflexivity].
    + destruct (IH H) as [y [Hy E]]. exists y. split; [now right | exact E].
Qed.

Lemma sound_deleteExpense (db : Db.t) (groupId expenseId : ObjectId) :
  Roster.sound db ->
  Roster.sound
    (Db.deleteExpense expenseId
       (Db.setGroups (Db.pullExpense groupId expenseId (Db.groups db)) db)).
Proof.
  intros H x Hx. cbn in Hx. apply In_pullExpense_fields in Hx.
  destruct Hx as [y [Hy [Hm Hb]]].
  apply (wellFormed_same y); [exact Hm | exact Hb | now apply H].
Qed.

Lemma sound_handle (db : Db.t) (userId : ObjectId) (req : Routes.Request) :
  Roster.sound db -> Roster.sound (snd (Routes.handle db userId req)).
Proof.
  intros Hb. destruct req; cbn [Routes.handle].
  - unfold Routes.createExpense. cbv zeta. SumFacts.route_cases.
    eapply sound_save; eassumption.
  - unfold Routes.updateExpense. cbv zeta. SumFacts.route_cases.
    unfold ExpenseModel.updateExpense in *. eapply sound_save; eassumption.
  - unfold Routes.deleteExpense. cbv zeta. SumFacts.route_cases.
    now apply sound_deleteExpense.
  - unfold Routes.settleExpense. SumFacts.route_cases.
    eapply sound_settle; eassumption.
  - unfold Routes.addSettlement. SumFacts.route_cases.
    unfold ExpenseModel.addSettlement in *. eapply sound_save; eassumption.
  - unfold Routes.createGroup. cbv zeta. SumFacts.route_cases.
    apply (sound_same_groups (Db.saveGroup
      (Group.mk newId userId [Member.mk userId admin true] [] (Settings.mk true equal)
                true 0 0 [Balance.mk userId 0 [] []] []) db)); [reflexivity|].
    apply sound_saveGroup; [exact Hb|]. split.
    + cbn. constructor; [intros [] | constructor].
    + intros u [<-|[]]. unfold hasRow, findRow. cbn. now rewrite idEq_refl.
  - unfold Routes.addMember. cbv zeta. SumFacts.route_cases.
    eapply sound_addMember; [eassumption | | exact Hb].
    eapply sound_found; eassumption.
  - unfold Routes.removeMember. cbv zeta. SumFacts.route_cases;
      (eapply sound_removeMember; [eassumption | | exact Hb]);
      eapply sound_found; eassumption.
  - unfold Admin.updateRole. SumFacts.route_cases.
    apply sound_saveGroup; [exact Hb|].
    match goal with H : Db.findGroup _ _ = Some ?g |- _ =>
      destruct (sound_found _ _ _ Hb H) as [Hn Hr] end.
    unfold Roster.wellFormed, Roster.memberIds.
    cbn [Group.members Group.balances Group.setActivityLog Group.setMembers].
    rewrite setRole_users. split; assumption.
  - unfold Routes.getBalances. SumFacts.route_cases.
    eapply sound_calculateBalances; [right; reflexivity | eassumption | | exact Hb].
    eapply sound_found; eassumption.
  - unfold Routes.deleteGroup. cbv zeta. SumFacts.route_cases.
    apply sound_saveGroup.
    + now apply (sound_same_groups db).
    + eapply (wellFormed_same); [| | eapply sound_found; eassumption]; reflexivity.
Qed.

(** ** The users' lists of groups *)

Lemma findUser_addToSet (userId groupId : ObjectId) (us : list User.t) :
  find (fun u => idEq (User._id u) userId) (Db.addToSetGroups userId groupId us)
  = option_map
      (fun u => if existsb (idEq groupId) (User.groups u) then u
                else User.setGroups (User.groups u ++ [groupId]) u)
      (find (fun u => idEq (User._id u) userId) us).
Proof.
  induction us as [|u us IH]; simpl; [reflexivity|].
  destruct (idEq (User._id u) userId) eqn:E; simpl.
  - destruct (existsb _ _); simpl; now rewrite E.
  - now rewrite E.
Qed.

Lemma findUser_pull (userId groupId : ObjectId) (us : list User.t) :
  find (fun u => idEq (User._id u) userId) (Db.pullGroups userId groupId us)
  = option_map
      (fun u => User.setGroups (filter (fun g => negb (idEq g groupId)) (User.groups u)) u)
      (find (fun u => idEq (User._id u) userId) us).
Proof.
  induction us as [|u us IH]; simpl; [reflexivity|].
  destruct (idEq (User._id u) userId) eqn:E; simpl; now rewrite E.
Qed.

Lemma pull_addToSet (userId groupId : ObjectId) (us : list User.t) :
  (forall u, In u us -> idEq (User._id u) userId = true -> ~ In groupId (User.groups u)) ->
  Db.pullGroups userId groupId (Db.addToSetGroups userId groupId us) = us.
Proof.
  induction us as [|u us IH]; simpl; [reflexivity|].
  intros H. destruct (idEq (User._id u) userId) eqn:E.
  - assert (Hn : ~ In groupId (User.groups u)) by (apply H; [now left | exact E]).
    assert (Hf : filter (fun g => negb (idEq g groupId)) (User.groups u) = User.groups u).
    { clear -Hn. induction (User.groups u) as [|g gs IHg]; simpl; [reflexivity|].
      destruct (idEq g groupId) eqn:Eg.
      - apply idEq_eq in Eg. exfalso. apply Hn. now left.
      - simpl. rewrite IHg; [reflexivity|]. intros Hin. apply Hn. now right. }
    destruct (existsb (idEq groupId) (User.groups u)) eqn:Ex.
    + apply HookFacts.existsb_idEq in Ex. contradiction.
    + simpl. rewrite E. f_equal.
      unfold User.setGroups. cbn [User._id User.email User.groups].
      rewrite filter_app, Hf. cbn [filter]. rewrite idEq_refl. cbn [negb].
      rewrite app_nil_r. destruct u; reflexivity.
  - simpl. rewrite E. f_equal. apply IH. intros x Hx. apply H. now right.
Qed.

Lemma purge_appended (userId : ObjectId) (bs : list Balance.t) :
  purge userId (bs ++ [Balance.mk userId 0 [] []]) = purge userId bs.
Proof.
  unfold purge. rewrite filter_app. cbn [filter Balance.user]. rewrite idEq_refl.
  cbn [negb]. now rewrite app_nil_r.
Qed.

Lemma not_found_not_active (u : ObjectId) (ms : list Member.t) :
  find (fun m => idEq (Member.user m) u) ms = None ->
  existsb (fun m => idEq (Member.user m) u && Member.isActive m) ms = false.
Proof.
  induction ms as [|m ms IH]; simpl; [reflexivity|].
  destruct (idEq (Member.user m) u); [discriminate|]. exact IH.
Qed.

End RosterFacts.

(** X16: if in every stored group no user has two member entries and every
    member has a balance row, then the same holds after any request to the
    handlers: expense create, update, delete, settle and add settlement,
    group create and delete, member add, remove and role update, and the
    balances read. *)
Theorem handlers_keep_members_distinct_with_rows
        (db : Db.t) (userId : ObjectId) (req : Routes.Request) :
  Roster.sound db ->
  Roster.sound (snd (Routes.handle db userId req)).
Proof. apply RosterFacts.sound_handle. Qed.

Lemma handlers_keep_members_distinct_with_rows_witness :
  Roster.sound
    (snd (Routes.handle (Scenario.store [Scenario.dinner]) Scenario.A
            (Routes.RemoveMember Scenario.G Scenario.B))).
Proof.
  apply (handlers_keep_members_distinct_with_rows
           (Scenario.store [Scenario.dinner]) Scenario.A
           (Routes.RemoveMember Scenario.G Scenario.B)).
  intros g [<-|[]]. split.
  - vm_compute. repeat constructor; simpl; intuition discriminate.
  - intros u Hu. vm_compute in Hu.
    destruct Hu as [<-|[<-|[<-|[]]]]; reflexivity.
Defined.

(** X17: [addMember] succeeds exactly when the user has no member entry in
    the group, active or not.  It then stores the group with the user as an
    active member of the given role, leaves every other user's membership
    as it was, gives the user a balance row without changing any net
    balance or any owes/owed entry that the table shows, and lists the
    group in the user's groups; adding the same user again fails. *)
Theorem addMember_membership (db : Db.t) (this : Group.t) (userId : ObjectId) (role : Role) :
  (succeeds (GroupModel.addMember db this userId role)
   <-> ~ In userId (Roster.memberIds this)) /\
  forall db' this',
    GroupModel.addMember db this userId role = Ok (db', this') ->
    Db.findGroup (Group._id this) db' = Some this' /\
    Group.findMember userId this' = Some (Member.mk userId role true) /\
    Group.isActiveMember userId this' = true /\
    (forall u, u <> userId ->
       Group.findMember u this' = Group.findMember u this /\
       Group.isActiveMember u this' = Group.isActiveMember u this) /\
    Balances.hasRow userId (Group.balances this') = true /\
    (forall u,
       Balances.net u (Group.balances this') = Balances.net u (Group.balances this) /\
       forall v,
         Balances.debt u v (Group.balances this') = Balances.debt u v (Group.balances this) /\
         Balances.credit u v (Group.balances this')
         = Balances.credit u v (Group.balances this)) /\
    (forall r db2,
       GroupModel.addMember db2 this' userId r
       = Throw "User is already a member of this group") /\
    (forall U, Db.findUser userId db = Some U ->
       exists U', Db.findUser userId db' = Some U' /\ In (Group._id this) (User.groups U')).
Proof.
  unfold GroupModel.addMember, Roster.memberIds.
  destruct (find (fun m => idEq (Member.user m) userId) (Group.members this)) eqn:E.
  { split; [|discriminate].
    split.
    - intros [a H]. discriminate.
    - intros H. exfalso. apply H. apply find_some in E. destruct E as [Hin Hid].
      apply BalancesFacts.idEq_eq in Hid. rewrite <- Hid. now apply in_map. }
  split.
  { split; [|intros _; eexists; reflexivity].
    intros _. now apply RosterFacts.find_member_none. }
  intros db' this' H. injection H as <- <-.
  cbn [Group._id Group.members Group.balances Group.setActivityLog Group.setBalances
       Group.setMembers].
  split.
  { exact (RemovalFacts.findGroup_saveGroup _ _). }
  unfold Group.findMember, Group.isActiveMember.
  cbn [Group._id Group.members Group.balances Group.setActivityLog Group.setBalances
       Group.setMembers].
  split.
  { rewrite find_append, E. cbn. now rewrite BalancesFacts.idEq_refl. }
  split.
  { rewrite existsb_app. apply orb_true_iff. right. cbn.
    now rewrite BalancesFacts.idEq_refl. }
  split.
  { intros u Hu.
    assert (Hne : idEq userId u = false) by (apply BalancesFacts.idEq_neq; congruence).
    split.
    - rewrite find_append. cbn [find Member.user]. rewrite Hne.
      destruct (find (fun m => idEq (Member.user m) u) (Group.members this)); reflexivity.
    - rewrite existsb_app. cbn [existsb Member.user Member.isActive]. rewrite Hne.
      cbn [andb orb]. now rewrite orb_false_r. }
  split.
  { rewrite BalancesFacts.hasRow_app. apply orb_true_iff. right.
    unfold Balances.hasRow, Balances.findRow. cbn. now rewrite BalancesFacts.idEq_refl. }
  split.
  { intros u. unfold Balances.net, Balances.debt, Balances.credit.
    rewrite BalancesFacts.findRow_app.
    destruct (Balances.findRow u (Group.balances this)); [repeat split; reflexivity|].
    unfold Balances.findRow. cbn [find Balance.user].
    destruct (idEq userId u); repeat split; reflexivity. }
  split.
  { intros r db2. rewrite find_append, E. cbn. now rewrite BalancesFacts.idEq_refl. }
  intros U HU. unfold Db.findUser in *. cbn.
  rewrite RosterFacts.findUser_addToSet, HU. cbn [option_map].
  eexists. split; [reflexivity|].
  destruct (existsb (idEq (Group._id this)) (User.groups U)) eqn:Ex.
  - now apply HookFacts.existsb_idEq.
  - cbn. apply in_or_app. right. now left.
Qed.

Lemma addMember_membership_witness :
  succeeds (GroupModel.addMember (Scenario.store []) (Scenario.group []) Scenario.Z member).
Proof.
  destruct (addMember_membership (Scenario.store []) (Scenario.group []) Scenario.Z member)
    as [[_ H] _].
  apply H. vm_compute. intuition discriminate.
Defined.

(** X18: [removeMember] succeeds exactly when the user has a member entry
    in the group.  It then stores the group without the user's first member
    entry and without a balance row for the user, leaves every other user's
    membership as it was, and takes the group from the user's groups; when
    no user had two member entries, the user is no member afterwards and
    removing the user again fails. *)
Theorem removeMember_membership
        (db : Db.t) (this : Group.t) (userId removedBy : ObjectId) :
  (succeeds (GroupModel.removeMember db this userId removedBy)
   <-> In userId (Roster.memberIds this)) /\
  forall db' this',
    GroupModel.removeMember db this userId removedBy = Ok (db', this') ->
    Db.findGroup (Group._id this) db' = Some this' /\
    (forall u, u <> userId ->
       Group.findMember u this' = Group.findMember u this /\
       Group.isActiveMember u this' = Group.isActiveMember u this) /\
    Balances.hasRow userId (Group.balances this') = false /\
    (forall U, Db.findUser userId db' = Some U -> ~ In (Group._id this) (User.groups U)) /\
    (NoDup (Roster.memberIds this) ->
     Group.findMember userId this' = None /\
     Group.isActiveMember userId this' = false /\
     forall by2 db2,
       GroupModel.removeMember db2 this' userId by2
       = Throw "User is not a member of this group").
Proof.
  unfold GroupModel.removeMember, Roster.memberIds.
  destruct (find (fun m => idEq (Member.user m) userId) (Group.members this)) eqn:E.
  2:{ split; [|discriminate].
      apply RosterFacts.find_member_none in E.
      split; [intros [a H]; discriminate | intros H; contradiction]. }
  split.
  { split; [|intros _; eexists; reflexivity].
    intros _. apply find_some in E. destruct E as [Hin Hid].
    apply BalancesFacts.idEq_eq in Hid. rewrite <- Hid. now apply in_map. }
  intros db' this' H. injection H as <- <-.
  cbn [Group._id Group.members Group.balances Group.setActivityLog Group.setBalances
       Group.setMembers].
  split.
  { exact (RemovalFacts.findGroup_saveGroup _ _). }
  unfold Group.findMember, Group.isActiveMember.
  cbn [Group._id Group.members Group.balances Group.setActivityLog Group.setBalances
       Group.setMembers].
  split.
  { intros u Hu. split.
    - now apply RosterFacts.find_splice_other.
    - now apply RosterFacts.active_splice_other. }
  split.
  { rewrite RemovalFacts.hasRow_purge, BalancesFacts.idEq_refl. reflexivity. }
  split.
  { intros U. unfold Db.findUser. cbn. rewrite RosterFacts.findUser_pull.
    destruct (find (fun u => idEq (User._id u) userId) (Db.users db)); [|discriminate].
    cbn [option_map]. intros H. injection H as <-. cbn [User.groups User.setGroups].
    intros Hin. apply filter_In in Hin. destruct Hin as [_ Hin].
    rewrite BalancesFacts.idEq_refl in Hin. discriminate. }
  intros Hnd.
  assert (Hgone : find (fun m => idEq (Member.user m) userId)
                       (GroupModel.spliceMember userId (Group.members this)) = None).
  { apply RosterFacts.find_member_none. now apply RosterFacts.splice_gone. }
  split; [exact Hgone|].
  split; [now apply RosterFacts.not_found_not_active|].
  intros by2 db2. now rewrite Hgone.
Qed.

Lemma removeMember_membership_witness :
  succeeds (GroupModel.removeMember (Scenario.store []) (Scenario.group [])
                                    Scenario.B Scenario.A).
Proof.
  destruct (removeMember_membership (Scenario.store []) (Scenario.group [])
                                    Scenario.B Scenario.A)
    as [[_ H] _].
  apply H. vm_compute. tauto.
Defined.

(** X19: removing a user right after adding them always succeeds and gives
    back the member list of before; the balance table is the one of before
    without any row or owes/owed entry of that user, the activity log has
    grown by the two entries, the expenses are untouched, and the users are
    as before when the user's list of groups did not hold the group. *)
Theorem add_then_remove_member
        (db db1 : Db.t) (this this1 : Group.t) (userId removedBy : ObjectId) (role : Role) :
  GroupModel.addMember db this userId role = Ok (db1, this1) ->
  exists db2 this2,
    GroupModel.removeMember db1 this1 userId removedBy = Ok (db2, this2) /\
    Db.findGroup (Group._id this) db2 = Some this2 /\
    Group.members this2 = Group.members this /\
    Group.balances this2 = Balances.purge userId (Group.balances this) /\
    Group.activityLog this2
    = Group.activityLog this ++ Roster.addedThenRemoved this userId removedBy role /\
    Db.expenses db2 = Db.expenses db /\
    ((forall U, In U (Db.users db) -> User._id U = userId ->
        ~ In (Group._id this) (User.groups U)) ->
     Db.users db2 = Db.users db).
Proof.
  unfold GroupModel.addMember.
  destruct (find (fun m => idEq (Member.user m) userId) (Group.members this)) eqn:E;
    [discriminate|].
  intros H. injection H as <- <-.
  unfold GroupModel.removeMember.
  cbn [Group._id Group.members Group.balances Group.activityLog Group.createdBy
       Group.setActivityLog Group.setBalances Group.setMembers].
  rewrite find_append, E. cbn [find Member.user]. rewrite BalancesFacts.idEq_refl.
  eexists. eexists. split; [reflexivity|].
  cbn [Group._id Group.members Group.balances Group.activityLog Group.createdBy
       Group.setActivityLog Group.setBalances Group.setMembers].
  split.
  { exact (RemovalFacts.findGroup_saveGroup _ _). }
  split.
  { now apply RosterFacts.splice_appended. }
  split.
  { apply RosterFacts.purge_appended. }
  split.
  { rewrite <- app_assoc. reflexivity. }
  split; [reflexivity|].
  intros HU. cbn. apply RosterFacts.pull_addToSet.
  intros u Hu Hid. apply HU; [exact Hu | now apply BalancesFacts.idEq_eq].
Qed.

Lemma add_then_remove_member_witness :
  exists db2 this2,
    GroupModel.removeMember (fst Cases.addedZ) (snd Cases.addedZ) Scenario.Z Scenario.A
    = Ok (db2, this2) /\
    Group.members this2 = Group.members (Scenario.group []).
Proof.
  destruct (add_then_remove_member (Scenario.store [])
              (fst Cases.addedZ) (Scenario.group []) (snd Cases.addedZ)
              Scenario.Z Scenario.A member eq_refl)
    as [db2 [this2 [H1 [_ [H2 _]]]]].
  exists db2, this2. split; assumption.
Defined.

(* ===================================================================== *)
(** * Administration of members *)
(* ===================================================================== *)

Module AdminFacts.
Import BalancesFacts.

Lemma find_active_member (u : ObjectId) (ms : list Member.t) (m : Member.t) :
  NoDup (map Member.user ms) ->
  find (fun m => idEq (Member.user m) u && Member.isActive m) ms = Some m ->
  find (fun m => idEq (Member.user m) u) ms = Some m.
Proof.
  induction ms as [|x ms IH]; simpl; [discriminate|].
  intros H. inversion H as [|? ? Hx Hms]; subst.
  destruct (idEq (Member.user x) u) eqn:E; cbn [andb].
  - destruct (Member.isActive x); [tauto|].
    intros Hf. exfalso. apply find_some in Hf. destruct Hf as [Hin Hid].
    apply andb_true_iff in Hid. destruct Hid as [Hid _].
    apply idEq_eq in E. apply idEq_eq in Hid. apply Hx.
    rewrite E, <- Hid. now apply in_map.
  - now apply IH.
Qed.

Lemma find_active_none (u : ObjectId) (ms : list Member.t) :
  find (fun m => idEq (Member.user m) u && Member.isActive m) ms = None
  <-> existsb (fun m => idEq (Member.user m) u && Member.isActive m) ms = false.
Proof.
  induction ms as [|x ms IH]; simpl; [tauto|].
  destruct (idEq (Member.user x) u && Member.isActive x); simpl; [|exact IH].
  split; discriminate.
Qed.

Lemma active_setRole (memberId u : ObjectId) (role : Role) (ms : list Member.t) :
  existsb (fun m => idEq (Member.user m) u && Member.isActive m)
          (Admin.setRole memberId role ms)
  = existsb (fun m => idEq (Member.user m) u && Member.isActive m) ms.
Proof.
  induction ms as [|x ms IH]; simpl; [reflexivity|].
  destruct (idEq (Member.user x) memberId); simpl; [reflexivity | now rewrite IH].
Qed.

Lemma find_setRole_other (memberId u : ObjectId) (role : Role) (ms : list Member.t) :
  u <> memberId ->
  find (fun m => idEq (Member.user m) u) (Admin.setRole memberId role ms)
  = find (fun m => idEq (Member.user m) u) ms.
Proof.
  intros Hne. induction ms as [|x ms IH]; simpl; [reflexivity|].
  destruct (idEq (Member.user x) memberId) eqn:E; simpl.
  - apply idEq_eq in E.
    assert (Hu : idEq (Member.user x) u = false) by (apply idEq_neq; congruence).
    now rewrite Hu.
  - now rewrite IH.
Qed.

Lemma find_setRole_self (memberId : ObjectId) (role : Role) (ms : list Member.t) (m : Member.t) :
  find (fun m => idEq (Member.user m) memberId) ms = Some m ->
  find (fun m => idEq (Member.user m) memberId) (Admin.setRole memberId role ms)
  = Some (Member.mk (Member.user m) role (Member.isActive m)).
Proof.
  induction ms as [|x ms IH]; simpl; [discriminate|].
  destruct (idEq (Member.user x) memberId) eqn:E; simpl; rewrite E.
  - intros H. now injection H as ->.
  - exact IH.
Qed.

End AdminFacts.

(** X21: for a group in which no user has two member entries, the
    middleware [isGroupAdmin] lets a request pass exactly when the
    middleware [isGroupMember] lets it pass and the admin test of the
    handlers ([Group.isAdmin]: the caller's member entry has the role
    admin, or the caller created the group) holds. *)
Theorem isGroupAdmin_agrees_with_the_handlers
        (db : Db.t) (userId groupId : ObjectId) (group : Group.t) :
  Db.findGroup groupId db = Some group ->
  NoDup (Roster.memberIds group) ->
  (Admin.isGroupAdmin db userId groupId = None
   <-> Routes.isGroupMember db userId groupId = None /\ Group.isAdmin userId group = true).
Proof.
  intros Hg Hnd. unfold Admin.isGroupAdmin, Routes.isGroupMember, Group.isAdmin,
                 Group.isActiveMember, Group.findMember.
  rewrite Hg.
  destruct (find (fun m => idEq (Member.user m) userId && Member.isActive m)
                 (Group.members group)) as [m|] eqn:E.
  - pose proof (AdminFacts.find_active_member _ _ _ Hnd E) as Hf. rewrite Hf.
    assert (Hex : existsb (fun m => idEq (Member.user m) userId && Member.isActive m)
                          (Group.members group) = true).
    { destruct (existsb _ _) eqn:Ex; [reflexivity|].
      apply AdminFacts.find_active_none in Ex. congruence. }
    rewrite Hex.
    destruct (roleEq (Member.role m) admin), (idEq (Group.createdBy group) userId);
      cbn; split; try tauto; try discriminate.
    intros [_ H]. discriminate.
  - apply AdminFacts.find_active_none in E. rewrite E.
    split; [discriminate | intros [H _]; discriminate].
Qed.

Lemma isGroupAdmin_agrees_with_the_handlers_witness :
  Admin.isGroupAdmin (Scenario.store []) Scenario.A Scenario.G = None.
Proof.
  apply (isGroupAdmin_agrees_with_the_handlers
           (Scenario.store []) Scenario.A Scenario.G (Scenario.group []) eq_refl).
  - vm_compute. repeat constructor; simpl; intuition discriminate.
  - split; reflexivity.
Defined.

(** X22: a request that changes the members is refused unless the caller
    is an active member of the group with the right to make the change.
    Adding needs the group to allow invites by members, or the caller to
    have the role admin or to be the creator, and the e-mail address to
    belong to a user without a member entry; removing needs the caller to
    be admin or creator or to be the member removed, who must have a member
    entry; a role update needs the caller's active member entry to have the
    role admin, or the caller to be the creator, and the member to have a
    member entry. *)
Theorem member_changes_need_authority (db : Db.t) (userId groupId : ObjectId) :
  (forall email role,
     Response.isError (fst (Routes.addMember db userId groupId email role)) = false ->
     exists group userToAdd,
       Db.findGroup groupId db = Some group /\
       Group.isActiveMember userId group = true /\
       (Settings.allowMemberInvites (Group.settings group) = true \/
        (exists m, Group.findMember userId group = Some m /\ Member.role m = admin) \/
        Group.createdBy group = userId) /\
       Db.findUserByEmail email db = Some userToAdd /\
       ~ In (User._id userToAdd) (Roster.memberIds group)) /\
  (forall memberId,
     Response.isError (fst (Routes.removeMember db userId groupId memberId)) = false ->
     exists group,
       Db.findGroup groupId db = Some group /\
       Group.isActiveMember userId group = true /\
       (Group.isAdmin userId group = true \/ userId = memberId) /\
       In memberId (Roster.memberIds group)) /\
  (forall memberId role,
     Response.isError (fst (Admin.updateRole db userId groupId memberId role)) = false ->
     exists group m,
       Db.findGroup groupId db = Some group /\
       In m (Group.members group) /\
       Member.user m = userId /\ Member.isActive m = true /\
       (Member.role m = admin \/ Group.createdBy group = userId) /\
       In memberId (Roster.memberIds group)).
Proof.
  split; [|split].
  - intros email role. unfold Routes.addMember, Routes.isGroupMember. cbv zeta.
    destruct (Db.findGroup groupId db) as [group|] eqn:Hg; [|discriminate].
    destruct (Group.isActiveMember userId group) eqn:Hm; [|discriminate].
    destruct (negb (Settings.allowMemberInvites (Group.settings group))
              && negb match Group.findMember userId group with
                      | Some m => roleEq (Member.role m) admin
                      | None => false
                      end
              && negb (idEq (Group.createdBy group) userId)) eqn:Hp; [discriminate|].
    destruct (Db.findUserByEmail email db) as [userToAdd|] eqn:Hu; [|discriminate].
    destruct (GroupModel.addMember db group (User._id userToAdd) _) as [[db' g']|msg] eqn:Ha.
    2:{ destruct (String.eqb msg _); discriminate. }
    intros _. exists group, userToAdd.
    split; [reflexivity|]. split; [exact Hm|].
    split.
    { destruct (Settings.allowMemberInvites (Group.settings group)); [now left|].
      right. cbn [negb andb] in Hp.
      destruct (Group.findMember userId group) as [m|].
      - destruct (Member.role m) eqn:Er.
        + left. exists m. split; [reflexivity | exact Er].
        + right. cbn in Hp. apply negb_false_iff in Hp. now apply BalancesFacts.idEq_eq.
      - right. cbn in Hp. apply negb_false_iff in Hp. now apply BalancesFacts.idEq_eq. }
    split; [reflexivity|].
    unfold GroupModel.addMember in Ha.
    destruct (find _ (Group.members group)) eqn:Ef; [discriminate|].
    now apply RosterFacts.find_member_none.
  - intros memberId. unfold Routes.removeMember, Routes.isGroupMember. cbv zeta.
    destruct (Db.findGroup groupId db) as [group|] eqn:Hg; [|discriminate].
    destruct (Group.isActiveMember userId group) eqn:Hm; [|discriminate].
    destruct (negb (Group.isAdmin userId group) && negb (idEq userId memberId)) eqn:Hp;
      [discriminate|].
    destruct (Group.findMember memberId group) as [m|] eqn:Hf; [|discriminate].
    intros _. exists group.
    split; [reflexivity|]. split; [exact Hm|].
    split.
    { destruct (Group.isAdmin userId group); [now left|].
      right. cbn in Hp. apply negb_false_iff in Hp. now apply BalancesFacts.idEq_eq. }
    unfold Group.findMember in Hf. apply find_some in Hf. destruct Hf as [Hin Hid].
    apply BalancesFacts.idEq_eq in Hid. rewrite <- Hid. now apply in_map.
  - intros memberId role. unfold Admin.updateRole, Admin.isGroupAdmin.
    destruct (Db.findGroup groupId db) as [group|] eqn:Hg; [|discriminate].
    destruct (find (fun m => idEq (Member.user m) userId && Member.isActive m)
                   (Group.members group)) as [m|] eqn:Hm; [|discriminate].
    destruct (negb (roleEq (Member.role m) admin)
              && negb (idEq (Group.createdBy group) userId)) eqn:Hp; [discriminate|].
    destruct (Group.findMember memberId group) as [x|] eqn:Hf; [|discriminate].
    intros _. exists group, m.
    apply find_some in Hm. destruct Hm as [Hin Hid].
    apply andb_true_iff in Hid. destruct Hid as [Hid Hact].
    apply BalancesFacts.idEq_eq in Hid.
    split; [reflexivity|]. split; [exact Hin|]. split; [exact Hid|]. split; [exact Hact|].
    split.
    { destruct (Member.role m); [now left|].
      right. cbn in Hp. apply negb_false_iff in Hp. now apply BalancesFacts.idEq_eq. }
    unfold Group.findMember in Hf. apply find_some in Hf. destruct Hf as [Hin' Hid'].
    apply BalancesFacts.idEq_eq in Hid'. rewrite <- Hid'. now apply in_map.
Qed.

Lemma member_changes_need_authority_witness :
  exists group,
    Db.findGroup Scenario.G (Scenario.store []) = Some group /\
    In Scenario.B (Roster.memberIds group).
Proof.
  destruct (member_changes_need_authority (Scenario.store []) Scenario.A Scenario.G)
    as [_ [H _]].
  destruct (H Scenario.B eq_refl) as [group [H1 [_ [_ H2]]]].
  exists group. split; assumption.
Defined.

(** X23: a role update that is not refused stores the group with the first
    member entry of the member holding the new role and nothing else
    changed: every other user's member entry, everybody's active
    membership, the balances, the expenses and the users are as before, and
    the log has one more entry, by the caller. *)
Theorem updateRole_changes_one_role
        (db : Db.t) (userId groupId memberId : ObjectId) (role : Role) :
  Response.isError (fst (Admin.updateRole db userId groupId memberId role)) = false ->
  exists group g' m,
    Db.findGroup groupId db = Some group /\
    Db.findGroup groupId (snd (Admin.updateRole db userId groupId memberId role)) = Some g' /\
    Group.findMember memberId group = Some m /\
    Group.findMember memberId g' = Some (Member.mk memberId role (Member.isActive m)) /\
    (forall u, u <> memberId -> Group.findMember u g' = Group.findMember u group) /\
    (forall u, Group.isActiveMember u g' = Group.isActiveMember u group) /\
    Roster.memberIds g' = Roster.memberIds group /\
    Group.balances g' = Group.balances group /\
    Group.expenses g' = Group.expenses group /\
    Group.createdBy g' = Group.createdBy group /\
    Group.activityLog g'
    = Group.activityLog group
      ++ [Activity.mk "MEMBER_ROLE_UPDATED" userId
                      (Activity.MemberDetails memberId (Some role))] /\
    Db.users (snd (Admin.updateRole db userId groupId memberId role)) = Db.users db /\
    Db.expenses (snd (Admin.updateRole db userId groupId memberId role)) = Db.expenses db.
Proof.
  unfold Admin.updateRole, Admin.isGroupAdmin.
  destruct (Db.findGroup groupId db) as [group|] eqn:Hg; [|discriminate].
  destruct (find _ (Group.members group)) as [caller|]; [|discriminate].
  destruct (negb _ && negb _); [discriminate|].
  destruct (Group.findMember memberId group) as [m|] eqn:Hf; [|discriminate].
  intros _. cbn [snd]. eexists. eexists. exists m.
  split; [reflexivity|].
  split.
  { rewrite <- (RecomputeFacts.findGroup_id _ _ _ Hg) at 1.
    exact (RemovalFacts.findGroup_saveGroup _ _). }
  split; [exact Hf|].
  unfold Group.findMember, Group.isActiveMember, Roster.memberIds in *.
  cbn [Group.members Group.balances Group.expenses Group.createdBy Group.activityLog
       Group.setActivityLog Group.setMembers].
  split.
  { rewrite (AdminFacts.find_setRole_self _ _ _ _ Hf).
    apply find_some in Hf. destruct Hf as [_ Hid].
    apply BalancesFacts.idEq_eq in Hid. now rewrite Hid. }
  split; [intros u Hu; now apply AdminFacts.find_setRole_other|].
  split; [intros u; apply AdminFacts.active_setRole|].
  split; [apply RosterFacts.setRole_users|].
  repeat split; reflexivity.
Qed.

Lemma updateRole_changes_one_role_witness :
  exists g',
    Db.findGroup Scenario.G
      (snd (Admin.updateRole (Scenario.store []) Scenario.A Scenario.G Scenario.B admin))
    = Some g' /\
    Group.findMember Scenario.B g' = Some (Member.mk Scenario.B admin true).
Proof.
  destruct (updateRole_changes_one_role (Scenario.store []) Scenario.A Scenario.G
                                        Scenario.B admin eq_refl)
    as [group [g' [m [H0 [H1 [H2 [H3 _]]]]]]].
  exists g'. split; [exact H1|].
  vm_compute in H0. injection H0 as <-.
  vm_compute in H2. injection H2 as <-.
  exact H3.
Defined.

(* ===================================================================== *)
(** * Summaries and counters *)
(* ===================================================================== *)

Module StatsFacts.
Import BalancesFacts.

Lemma totalAmount_fold (es : list Expense.t) (acc : Stats.t) :
  Stats.totalAmount (fold_left Stats.add es acc)
  = fold_left (fun sum x => sum + Expense.amount x) es (Stats.totalAmount acc).
Proof.
  revert acc. induction es as [|e es IH]; intros acc; [reflexivity|].
  cbn [fold_left]. rewrite IH. unfold Stats.add.
  destruct (Expense.settled e); reflexivity.
Qed.

Lemma settledAmount_fold (es : list Expense.t) (acc : Stats.t) :
  Stats.settledAmount (fold_left Stats.add es acc)
  = fold_left (fun sum x => sum + Expense.amount x) (filter Expense.settled es)
              (Stats.settledAmount acc).
Proof.
  revert acc. induction es as [|e es IH]; intros acc; [reflexivity|].
  cbn [fold_left filter]. rewrite IH. unfold Stats.add.
  destruct (Expense.settled e); reflexivity.
Qed.

Lemma totalExpenses_fold (es : list Expense.t) (acc : Stats.t) :
  Stats.totalExpenses (fold_left Stats.add es acc)
  = (Stats.totalExpenses acc + List.length es)%nat.
Proof.
  revert acc. induction es as [|e es IH]; intros acc; cbn [fold_left List.length].
  - now rewrite Nat.add_0_r.
  - rewrite IH. unfold Stats.add.
    destruct (Expense.settled e); cbn [Stats.totalExpenses]; lia.
Qed.

Lemma settledExpenses_fold (es : list Expense.t) (acc : Stats.t) :
  Stats.settledExpenses (fold_left Stats.add es acc)
  = (Stats.settledExpenses acc + List.length (filter Expense.settled es))%nat.
Proof.
  revert acc. induction es as [|e es IH]; intros acc; cbn [fold_left List.length filter].
  - now rewrite Nat.add_0_r.
  - rewrite IH. unfold Stats.add.
    destruct (Expense.settled e); cbn [Stats.settledExpenses List.length]; lia.
Qed.

Lemma sumOf_nonneg {A : Type} (f : A -> Q) (xs : list A) :
  (forall x, In x xs -> 0 <= f x) -> 0 <= Num.sumOf f xs.
Proof.
  induction xs as [|x xs IH]; intros H.
  - rewrite sumOf_nil. apply Qle_refl.
  - rewrite sumOf_cons.
    assert (0 <= f x) by (apply H; now left).
    assert (0 <= Num.sumOf f xs) by (apply IH; intros y Hy; apply H; now right).
    lra.
Qed.

Lemma sumOf_filter_le {A : Type} (f : A -> Q) (p : A -> bool) (xs : list A) :
  (forall x, In x xs -> 0 <= f x) -> Num.sumOf f (filter p xs) <= Num.sumOf f xs.
Proof.
  induction xs as [|x xs IH]; intros H; cbn [filter].
  - apply Qle_refl.
  - assert (Hx : 0 <= f x) by (apply H; now left).
    assert (Hr : Num.sumOf f (filter p xs) <= Num.sumOf f xs)
      by (apply IH; intros y Hy; apply H; now right).
    destruct (p x); rewrite !sumOf_cons; lra.
Qed.

(** Without the one document of an id, a group's expenses are one fewer and
    sum to its amount less. *)
Lemma expensesOf_without (id : ObjectId) (e : Expense.t) (es : list Expense.t) :
  NoDup (map Expense._id es) ->
  find (fun x => idEq (Expense._id x) id) es = Some e ->
  let inGroup := fun x => idEq (Expense.group x) (Expense.group e) in
  let others := filter (fun x => negb (idEq (Expense._id x) id)) es in
  Num.sumOf Expense.amount (filter inGroup es)
  == Num.sumOf Expense.amount (filter inGroup others) + Expense.amount e /\
  List.length (filter inGroup es) = S (List.length (filter inGroup others)).
Proof.
  intros Hnd Hf inGroup others. subst others.
  induction es as [|x es IH]; [discriminate|].
  inversion Hnd as [|? ? Hx Hes]; subst.
  cbn [find] in Hf. cbn [filter].
  destruct (idEq (Expense._id x) id) eqn:E.
  - injection Hf as ->. cbn [negb].
    assert (Hrest : filter (fun y => negb (idEq (Expense._id y) id)) es = es).
    { apply idEq_eq in E. clear -Hx E. induction es as [|y es IH]; [reflexivity|].
      cbn [filter]. destruct (idEq (Expense._id y) id) eqn:Ey.
      - apply idEq_eq in Ey. exfalso. apply Hx. left. congruence.
      - cbn [negb]. rewrite IH; [reflexivity|]. intros H. apply Hx. now right. }
    rewrite Hrest.
    assert (Hin : inGroup e = true) by apply idEq_refl.
    rewrite Hin. cbn [List.length]. rewrite sumOf_cons. split; [ring | reflexivity].
  - cbn [negb filter]. destruct (IH Hes Hf) as [IH1 IH2].
    destruct (inGroup x); cbn [List.length].
    + rewrite !sumOf_cons, IH1, IH2. split; [ring | reflexivity].
    + split; assumption.
Qed.

End StatsFacts.

(** X25: the summary of a group's expenses counts the group's stored
    expenses and sums their amounts, in total and over the settled ones;
    the settled count is at most the total count, and the settled amount at
    most the total amount when no stored amount is negative.  After every
    successful [save] of an expense whose group exists, the counters
    [totalExpenses] and [totalSettled] of the stored group equal the
    summary's two amounts. *)
Theorem stats_agree_with_counters_after_save
        (db db' : Db.t) (recalc : bool) (e e' : Expense.t) (g : Group.t) :
  ExpenseModel.save db recalc e = Ok (db', e') ->
  Db.findGroup (Expense.group e') db = Some g ->
  let stats := Stats.getGroupSummary (Expense.group e') db' in
  Stats.totalAmount stats = Num.sumOf Expense.amount (Db.expensesOf (Expense.group e') db') /\
  Stats.settledAmount stats = Ledger.settledSum (Expense.group e') db' /\
  Stats.totalExpenses stats = List.length (Db.expensesOf (Expense.group e') db') /\
  (Stats.settledExpenses stats <= Stats.totalExpenses stats)%nat /\
  ((forall x, In x (Db.expenses db') -> 0 <= Expense.amount x) ->
   Stats.settledAmount stats <= Stats.totalAmount stats) /\
  exists g',
    Db.findGroup (Expense.group e') db' = Some g' /\
    Group.totalExpenses g' = Stats.totalAmount stats /\
    Group.totalSettled g' = Stats.settledAmount stats.
Proof.
  intros Hs Hg stats.
  assert (H1 : Stats.totalAmount stats
               = Num.sumOf Expense.amount (Db.expensesOf (Expense.group e') db'))
    by (unfold stats, Stats.getGroupSummary; now rewrite StatsFacts.totalAmount_fold).
  assert (H2 : Stats.settledAmount stats = Ledger.settledSum (Expense.group e') db')
    by (unfold stats, Stats.getGroupSummary; now rewrite StatsFacts.settledAmount_fold).
  split; [exact H1|]. split; [exact H2|].
  split.
  { unfold stats, Stats.getGroupSummary. now rewrite StatsFacts.totalExpenses_fold. }
  split.
  { unfold stats, Stats.getGroupSummary.
    rewrite StatsFacts.totalExpenses_fold, StatsFacts.settledExpenses_fold.
    cbn [Stats.totalExpenses Stats.settledExpenses Nat.add]. apply filter_length_le. }
  split.
  { intros Hpos. rewrite H1, H2. unfold Ledger.settledSum.
    apply StatsFacts.sumOf_filter_le. intros x Hx. apply Hpos.
    unfold Db.expensesOf in Hx. apply filter_In in Hx. apply Hx. }
  revert Hs. unfold ExpenseModel.save.
  destruct (ExpenseModel.preSave recalc e) as [this|]; cbn [bind]; [|discriminate].
  intros H. injection H as Hdb He. subst this.
  assert (Hg' : Db.findGroup (Expense.group e') (Db.writeExpense e' db) = Some g)
    by exact Hg.
  destruct (HookFacts.postSave_group_fields e' _ g Hg')
    as [g' [Hp [Hid [_ [_ [_ [_ [_ [_ [Hts [Hte _]]]]]]]]]]].
  exists g'. split.
  { rewrite <- Hdb, Hp, <- (RecomputeFacts.findGroup_id _ _ _ Hg), <- Hid.
    apply RemovalFacts.findGroup_saveGroup. }
  rewrite H1, H2, Hte, Hts, <- Hdb, Hp. split; reflexivity.
Qed.

Lemma stats_agree_with_counters_after_save_witness :
  Stats.totalAmount (Stats.getGroupSummary Scenario.G Cases.savedDinner)
  = Num.sumOf Expense.amount (Db.expensesOf Scenario.G Cases.savedDinner).
Proof.
  destruct (stats_agree_with_counters_after_save
              (Scenario.store [Scenario.dinner]) Cases.savedDinner false
              Scenario.dinner Scenario.dinner (Scenario.group [Scenario.dinner])
              eq_refl eq_refl)
    as [H _].
  exact H.
Defined.

(** X26: the delete handler leaves the group's counter behind.  When the
    stored expenses have distinct ids and the group's [totalExpenses]
    equals the summary's total amount, then after an authorised delete the
    summary counts one expense fewer, while the stored [totalExpenses]
    exceeds the summary's total amount by the amount of the deleted
    expense. *)
Theorem delete_leaves_the_counter_behind
        (db : Db.t) (userId expenseId : ObjectId) (expense : Expense.t) (group : Group.t) :
  NoDup (map Expense._id (Db.expenses db)) ->
  Db.findExpense expenseId db = Some expense ->
  Expense.settled expense = false ->
  Db.findGroup (Expense.group expense) db = Some group ->
  Group.isActiveMember userId group = true ->
  Expense.createdBy expense = userId \/ Group.isAdmin userId group = true ->
  Group.totalExpenses group
  == Stats.totalAmount (Stats.getGroupSummary (Expense.group expense) db) ->
  exists db' group',
    Routes.deleteExpense db userId expenseId
    = (Response.json 200 "Expense deleted successfully", db') /\
    Db.findGroup (Expense.group expense) db' = Some group' /\
    Group.totalExpenses group'
    == Stats.totalAmount (Stats.getGroupSummary (Expense.group expense) db')
       + Expense.amount expense /\
    Stats.totalExpenses (Stats.getGroupSummary (Expense.group expense) db)
    = S (Stats.totalExpenses (Stats.getGroupSummary (Expense.group expense) db')).
Proof.
  intros Hnd He Hs Hg Hm Ho Hc.
  pose proof (SettleFacts.findExpense_id _ _ _ He) as Hid.
  unfold Routes.deleteExpense. rewrite He, Hs, Hg, Hm. cbn [negb].
  assert (Hown : negb (idEq (Expense.createdBy expense) userId)
                 && negb (Group.isAdmin userId group) = false).
  { apply andb_false_iff. destruct Ho as [Ho|Ho].
    - left. apply negb_false_iff. now apply BalancesFacts.idEq_eq.
    - right. now rewrite Ho. }
  rewrite Hown, Hid.
  destruct (StatsFacts.expensesOf_without expenseId expense (Db.expenses db) Hnd He)
    as [Hsum Hlen].
  eexists. eexists. split; [reflexivity|].
  split.
  { unfold Db.findGroup, Db.deleteExpense. cbn.
    rewrite DeleteFacts.find_pullExpense.
    unfold Db.findGroup in Hg. rewrite Hg. reflexivity. }
  unfold Stats.getGroupSummary in *.
  rewrite StatsFacts.totalAmount_fold in *. rewrite !StatsFacts.totalExpenses_fold.
  cbn [Stats.totalAmount Stats.totalExpenses Nat.add Group.totalExpenses Group.setExpenses].
  split.
  - rewrite Hc. exact Hsum.
  - exact Hlen.
Qed.

Lemma delete_leaves_the_counter_behind_witness :
  exists db',
    Routes.deleteExpense (Scenario.store [Scenario.dinner]) Scenario.A "dinner"
    = (Response.json 200 "Expense deleted successfully", db').
Proof.
  destruct (delete_leaves_the_counter_behind
              (Scenario.store [Scenario.dinner]) Scenario.A "dinner"
              Scenario.dinner (Scenario.group [Scenario.dinner]))
    as [db' [g' [H _]]].
  - vm_compute. repeat constructor; simpl; intuition discriminate.
  - reflexivity.
  - reflexivity.
  - reflexivity.
  - reflexivity.
  - now left.
  - reflexivity.
  - exists db'. exact H.
Defined.

(* ===================================================================== *)
(** * Updating and settling an expense *)
(* ===================================================================== *)

Module EditFacts.

(** What [save] does to the document: nothing but the participants'
    shares, which it recalculates when asked to. *)
Lemma save_document (db db' : Db.t) (recalc : bool) (e e' : Expense.t) :
  ExpenseModel.save db recalc e = Ok (db', e') ->
  db' = ExpenseModel.postSave e' (Db.writeExpense e' db) /\
  Expense.setParticipants (Expense.participants e) e' = e /\
  (if recalc then Expense.calculateShares e = Ok e' else e' = e).
Proof.
  unfold ExpenseModel.save, ExpenseModel.preSave. destruct recalc.
  - destruct (Expense.calculateShares e) as [x|] eqn:Hc; cbn [bind]; [|discriminate].
    intros H. injection H as <- <-.
    split; [reflexivity|].
    split; [now apply CreateFacts.calculateShares_fields | reflexivity].
  - cbn [bind]. intros H. injection H as <- <-.
    split; [reflexivity|]. split; [destruct e; reflexivity | reflexivity].
Qed.

(** The fields that [Object.assign] leaves and the fields that it writes. *)
Lemma assign_fields (updates : Updates.t) (e : Expense.t) :
  Expense._id (ExpenseModel.assign updates e) = Expense._id e /\
  Expense.group (ExpenseModel.assign updates e) = Expense.group e /\
  Expense.createdBy (ExpenseModel.assign updates e) = Expense.createdBy e /\
  Expense.amount (ExpenseModel.assign updates e)
  = Expense.amountSetter (Updates.amount updates) /\
  Expense.paidBy (ExpenseModel.assign updates e)
  = match Updates.paidBy updates with Some u => u | None => Expense.paidBy e end /\
  Expense.splitMethod (ExpenseModel.assign updates e)
  = match Updates.splitMethod updates with
    | Some m => m
    | None => Expense.splitMethod e
    end /\
  Expense.participants (ExpenseModel.assign updates e) = Updates.participants updates /\
  Expense.settled (ExpenseModel.assign updates e)
  = match Updates.settled updates with Some b => b | None => Expense.settled e end /\
  Expense.settledBy (ExpenseModel.assign updates e)
  = match Updates.settledBy updates with Some u => Some u | None => Expense.settledBy e end /\
  Expense.settlements (ExpenseModel.assign updates e)
  = match Updates.settlements updates with Some l => l | None => Expense.settlements e end /\
  Expense.editHistory (ExpenseModel.assign updates e)
  = match Updates.editHistory updates with Some h => h | None => Expense.editHistory e end.
Proof.
  unfold ExpenseModel.assign.
  destruct (Updates.paidBy updates), (Updates.splitMethod updates),
    (Updates.settled updates), (Updates.settledBy updates),
    (Updates.settlements updates), (Updates.editHistory updates);
    repeat split; reflexivity.
Qed.

End EditFacts.

(** X24: a successful [updateExpense] keeps the expense's id, group and
    creator and stores the document under its id; every key of the body is
    assigned: the rounded amount and the participants always, the payer,
    the split method, the settled flag, [settledBy], the settlements and
    the edit history where the body has them; the shares are then
    recalculated for the assigned split, at every update; the edit history
    ends with one new entry that holds the editor and the values of
    before.  The stored group keeps its members and its balance table: an
    update does not recompute the balances. *)
Theorem updateExpense_records_the_edit
        (db db' : Db.t) (this this' : Expense.t) (updates : Updates.t) (updatedBy : ObjectId) :
  ExpenseModel.updateExpense db this updates updatedBy = Ok (db', this') ->
  Db.findExpense (Expense._id this) db' = Some this' /\
  Expense._id this' = Expense._id this /\
  Expense.group this' = Expense.group this /\
  Expense.createdBy this' = Expense.createdBy this /\
  Expense.amount this' = Expense.amountSetter (Updates.amount updates) /\
  Expense.paidBy this'
  = match Updates.paidBy updates with Some u => u | None => Expense.paidBy this end /\
  Expense.splitMethod this'
  = match Updates.splitMethod updates with
    | Some m => m
    | None => Expense.splitMethod this
    end /\
  Expense.settled this'
  = match Updates.settled updates with Some b => b | None => Expense.settled this end /\
  Expense.settledBy this'
  = match Updates.settledBy updates with
    | Some u => Some u
    | None => Expense.settledBy this
    end /\
  Expense.settlements this'
  = match Updates.settlements updates with
    | Some l => l
    | None => Expense.settlements this
    end /\
  Expense.editHistory this'
  = match Updates.editHistory updates with
    | Some h => h
    | None => Expense.editHistory this
    end ++ [Edit.mk updatedBy (Expense.toObject this)] /\
  Expense.calculateShares
    (Expense.setEditHistory (Expense.editHistory this')
       (ExpenseModel.assign updates this)) = Ok this' /\
  Db.users db' = Db.users db /\
  forall g, Db.findGroup (Expense.group this) db = Some g ->
    exists g', Db.findGroup (Expense.group this) db' = Some g' /\
               Group.members g' = Group.members g /\
               Group.balances g' = Group.balances g.
Proof.
  unfold ExpenseModel.updateExpense. cbv zeta. intros H.
  apply EditFacts.save_document in H. destruct H as [Hdb [Hf Hcalc]].
  destruct (EditFacts.assign_fields updates this)
    as [A1 [A2 [A3 [A4 [A5 [A6 [A7 [A8 [A9 [A10 A11]]]]]]]]]].
  set (assigned := Expense.setEditHistory _ (ExpenseModel.assign updates this)) in *.
  assert (Hid : Expense._id this' = Expense._id this)
    by (rewrite <- A1; exact (f_equal Expense._id Hf)).
  assert (Hgr : Expense.group this' = Expense.group this)
    by (rewrite <- A2; exact (f_equal Expense.group Hf)).
  assert (Hh : Expense.editHistory this'
               = match Updates.editHistory updates with
                 | Some h => h
                 | None => Expense.editHistory this
                 end ++ [Edit.mk updatedBy (Expense.toObject this)])
    by (rewrite <- A11; exact (f_equal Expense.editHistory Hf)).
  split.
  { rewrite Hdb, <- Hid. unfold Db.findExpense.
    destruct (Db.findGroup (Expense.group this') (Db.writeExpense this' db)) as [g|] eqn:Eg.
    - destruct (HookFacts.postSave_group_fields this' _ g Eg) as [g' [Hp _]].
      rewrite Hp. cbn. apply SettleFacts.find_putExpense.
    - unfold ExpenseModel.postSave. rewrite Eg. cbn. apply SettleFacts.find_putExpense. }
  split; [exact Hid|]. split; [exact Hgr|].
  split; [rewrite <- A3; exact (f_equal Expense.createdBy Hf)|].
  split; [rewrite <- A4; exact (f_equal Expense.amount Hf)|].
  split; [rewrite <- A5; exact (f_equal Expense.paidBy Hf)|].
  split; [rewrite <- A6; exact (f_equal Expense.splitMethod Hf)|].
  split; [rewrite <- A8; exact (f_equal Expense.settled Hf)|].
  split; [rewrite <- A9; exact (f_equal Expense.settledBy Hf)|].
  split; [rewrite <- A10; exact (f_equal Expense.settlements Hf)|].
  split; [exact Hh|].
  split.
  { rewrite Hh, <- A11. exact Hcalc. }
  split.
  { rewrite Hdb. destruct (Db.findGroup (Expense.group this') (Db.writeExpense this' db))
      as [g|] eqn:Eg.
    - destruct (HookFacts.postSave_group_fields this' _ g Eg) as [g' [Hp _]].
      rewrite Hp. reflexivity.
    - unfold ExpenseModel.postSave. rewrite Eg. reflexivity. }
  intros g Hg.
  assert (Hg' : Db.findGroup (Expense.group this') (Db.writeExpense this' db) = Some g)
    by (rewrite Hgr; exact Hg).
  destruct (HookFacts.postSave_group_fields this' _ g Hg')
    as [g' [Hp [Hgid [_ [Hm [_ [_ [Hb _]]]]]]]].
  exists g'. rewrite Hdb, Hp. split; [|split; assumption].
  rewrite <- (RecomputeFacts.findGroup_id _ _ _ Hg), <- Hgid.
  apply RemovalFacts.findGroup_saveGroup.
Qed.

Lemma updateExpense_records_the_edit_witness :
  Expense.amount (snd Cases.dinnerEdited) = Expense.amountSetter 60 /\
  List.length (Expense.editHistory (snd Cases.dinnerEdited)) = 1%nat.
Proof.
  destruct (updateExpense_records_the_edit
              (Scenario.store [Scenario.dinner]) (fst Cases.dinnerEdited)
              Scenario.dinner (snd Cases.dinnerEdited) Cases.cheaper Scenario.A eq_refl)
    as [_ [_ [_ [_ [H _]]]]].
  split; [exact H | reflexivity].
Defined.

(** X29: the bulk settle of a stored, unsettled expense with a participant
    is refused for every member who asks: [settle] calls
    [calculateBalances] before its own save, the recomputation throws on
    the participant entries of the expense itself, and the handler answers
    500 with the store as it was; the expense stays unsettled and the
    counter of the group is not touched. *)
Theorem bulk_settle_is_refused
        (db : Db.t) (userId expenseId : ObjectId) (settlements : list Settlement.t)
        (expense : Expense.t) (group : Group.t) :
  Db.findExpense expenseId db = Some expense ->
  Expense.settled expense = false ->
  Expense.participants expense <> [] ->
  Db.findGroup (Expense.group expense) db = Some group ->
  Group.isActiveMember userId group = true ->
  (exists message,
     ExpenseModel.settle db expense userId settlements = Throw message) /\
  Routes.settleExpense db userId expenseId settlements
  = (Response.json 500 "Server error", db).
Proof.
  intros He Hs Hp Hg Hm.
  pose proof (SettleFacts.findExpense_id _ _ _ He) as Hid.
  pose proof (RecomputeFacts.findGroup_id _ _ _ Hg) as Hgid.
  assert (Hpend : Ledger.pending (Expense.group expense) db).
  { apply SettleFacts.stored_unsettled_pending; [now rewrite Hid | exact Hs | exact Hp]. }
  assert (Hthrow : exists message,
             ExpenseModel.settle db expense userId settlements = Throw message).
  { unfold ExpenseModel.settle. cbv zeta.
    assert (Hgr : Expense.group
                    (if Nat.ltb 0 (List.length settlements)
                     then Expense.setSettlements settlements
                            (Expense.setSettledBy (Some userId)
                               (Expense.setSettled true expense))
                     else Expense.setSettledBy (Some userId)
                            (Expense.setSettled true expense))
                  = Expense.group expense)
      by (destruct (Nat.ltb _ _); reflexivity).
    rewrite Hgr, Hg.
    rewrite RecomputeFacts.calculateBalances_pending; [eexists; reflexivity|].
    cbn [Group._id Group.setTotalSettled]. now rewrite Hgid. }
  split; [exact Hthrow|].
  destruct Hthrow as [m Hm'].
  unfold Routes.settleExpense. rewrite He, Hs, Hg, Hm. cbn [negb]. now rewrite Hm'.
Qed.

Lemma bulk_settle_is_refused_witness :
  Routes.settleExpense (Scenario.store [Scenario.dinner]) Scenario.B "dinner" []
  = (Response.json 500 "Server error", Scenario.store [Scenario.dinner]).
Proof.
  destruct (bulk_settle_is_refused (Scenario.store [Scenario.dinner]) Scenario.B "dinner" []
              Scenario.dinner (Scenario.group [Scenario.dinner])) as [_ H].
  - reflexivity.
  - reflexivity.
  - discriminate.
  - reflexivity.
  - reflexivity.
  - exact H.
Defined.

(** X30: when the unsettled expenses of a group have no participant entry,
    the balances read of an active member is answered with the table of
    the group reset: the rows of the same users in the same order, every
    net balance zero, no entries; that table is stored, and nothing else
    of the group and of the store changes. *)
Theorem balances_read_without_entries
        (db : Db.t) (userId groupId : ObjectId) (group : Group.t) :
  Db.findGroup groupId db = Some group ->
  Group.isActiveMember userId group = true ->
  ~ Ledger.pending groupId db ->
  Routes.getBalances db userId groupId
  = (Response.mk 200 (Response.BalancesBody (Balances.reset (Group.balances group))),
     Db.saveGroup (Group.setBalances (Balances.reset (Group.balances group)) group) db) /\
  map Balance.user (Balances.reset (Group.balances group))
  = map Balance.user (Group.balances group) /\
  (forall b, In b (Balances.reset (Group.balances group)) -> Ledger.blank b).
Proof.
  intros Hg Hm Hp.
  pose proof (RecomputeFacts.findGroup_id _ _ _ Hg) as Hid. subst groupId.
  assert (E : Live.entries (Db.unsettledOf (Group._id group) db) = 0%nat).
  { destruct (Nat.eq_dec (Live.entries (Db.unsettledOf (Group._id group) db)) 0)
      as [E|E]; [exact E | now elim Hp]. }
  split; [|split].
  - unfold Routes.getBalances, Routes.isGroupMember. rewrite Hg, Hm.
    rewrite RecomputeFacts.calculateBalances_outcome, E. cbn [Nat.eqb].
    unfold Live.populated, Live.loaded.
    rewrite LiveFacts.stored_reset_populated. reflexivity.
  - unfold Balances.reset. rewrite map_map. reflexivity.
  - intros b Hb. unfold Balances.reset in Hb. apply in_map_iff in Hb.
    destruct Hb as [c [<- _]]. repeat split.
Qed.

Lemma balances_read_without_entries_witness :
  fst (Routes.getBalances (Scenario.store [Scenario.settledDinner]) Scenario.A Scenario.G)
  = Response.mk 200 (Response.BalancesBody Scenario.rows).
Proof.
  destruct (balances_read_without_entries (Scenario.store [Scenario.settledDinner])
              Scenario.A Scenario.G (Scenario.group [Scenario.settledDinner]))
    as [H _].
  - reflexivity.
  - reflexivity.
  - intros Hp. apply Hp. reflexivity.
  - rewrite H. reflexivity.
Defined.

(** X28: [addSettlement] leaves an expense settled when it was settled
    before, or when the payments on record, the new one included, reach
    the amount of the expense as the code adds and compares them, in
    binary64.  So payments of 0.10 and 0.70 do not settle an expense of
    0.80: their sum as doubles is below the double of 0.80.  The method
    records no settler, and the stored group keeps its members and its
    balance table: [addSettlement] does not recompute the balances. *)
Theorem payments_settle_at_the_amount
        (db db' : Db.t) (this this' : Expense.t) (from to : ObjectId) (amount : Q)
        (method : PayMethod) (transactionId : option string) :
  ExpenseModel.addSettlement db this from to amount method transactionId = Ok (db', this') ->
  Expense.settled this'
  = (Expense.settled this
     || Ieee.reaches
          (Ieee.sumOf Settlement.amount
             (Expense.settlements this ++ [Settlement.mk from to amount method transactionId]))
          (Expense.amount this)) /\
  Expense.settledBy this' = Expense.settledBy this /\
  Expense.amount this' = Expense.amount this /\
  Expense.participants this' = Expense.participants this /\
  (forall g, Db.findGroup (Expense.group this) db = Some g ->
     exists g', Db.findGroup (Expense.group this) db' = Some g' /\
                Group.members g' = Group.members g /\
                Group.balances g' = Group.balances g) /\
  Num.sumOf Settlement.amount (Expense.settlements (snd Cases.snackPaid))
  == Expense.amount (snd Cases.snackPaid) /\
  Expense.settled (snd Cases.snackPaid) = false.
Proof.
  unfold ExpenseModel.addSettlement. cbv zeta.
  cbn [Expense.settlements Expense.setSettlements Expense.amount].
  intros H. apply EditFacts.save_document in H.
  destruct H as [Hdb [_ Hsame]]. cbn beta iota in Hsame.
  assert (Hgr : Expense.group this' = Expense.group this).
  { rewrite Hsame. destruct (Ieee.reaches _ _); reflexivity. }
  split.
  { rewrite Hsame. destruct (Ieee.reaches _ _).
    - cbn [Expense.settled Expense.setSettled]. now rewrite orb_true_r.
    - cbn [Expense.settled Expense.setSettlements]. now rewrite orb_false_r. }
  split; [rewrite Hsame; destruct (Ieee.reaches _ _); reflexivity|].
  split; [rewrite Hsame; destruct (Ieee.reaches _ _); reflexivity|].
  split; [rewrite Hsame; destruct (Ieee.reaches _ _); reflexivity|].
  split; [|split; reflexivity].
  intros g Hg.
  assert (Hg' : Db.findGroup (Expense.group this') (Db.writeExpense this' db) = Some g)
    by (rewrite Hgr; exact Hg).
  destruct (HookFacts.postSave_group_fields this' _ g Hg')
    as [g' [Hp [Hgid [_ [Hm [_ [_ [Hb _]]]]]]]].
  exists g'. rewrite Hdb, Hp. split; [|split; assumption].
  rewrite <- (RecomputeFacts.findGroup_id _ _ _ Hg), <- Hgid.
  apply RemovalFacts.findGroup_saveGroup.
Qed.

Lemma payments_settle_at_the_amount_witness :
  Expense.settled (snd Cases.dinnerPaidUp) = true.
Proof.
  destruct (payments_settle_at_the_amount
              (Scenario.store [Scenario.dinner]) (fst Cases.dinnerPaidUp)
              Scenario.dinner (snd Cases.dinnerPaidUp)
              Scenario.B Scenario.A 90 cash None eq_refl)
    as [H _].
  rewrite H. reflexivity.
Defined.
